(** * DEVELIX-Bot: conversation engine and connection manager

    A shallow embedding of [server/storage.ts], [server/bot-handler.ts] and
    [server/whatsapp-bot.ts], followed by the properties established about
    them.  Asynchronous functions are written in a state-and-exception monad
    over an explicit [World]; objects that the program mutates in place live
    in a heap and are passed around by address. *)

From stdpp Require Import base option list strings pretty functions gmap.
From Stdlib Require Import ZArith Ascii String Lia Sorted SpecFloat.

Open Scope string_scope.
Open Scope list_scope.

(** ** JavaScript values and built-ins used by the program *)

Module Js.

(** The values that can end up in a lead draft or in an update payload:
    a missing key reads as [undefined]; [inherited k] is the member [k]
    that every object literal inherits from [Object.prototype] (a
    function, or the prototype object itself for [__proto__]). *)
Inductive value : Type :=
| undefined
| null
| str (s : string)
| inherited (key : string).

#[global] Instance value_eq_dec : EqDecision value.
Proof. solve_decision. Defined.

(** ToBoolean *)
Definition truthy (v : value) : bool :=
  match v with
  | undefined | null => false
  | str s => negb (String.eqb s EmptyString)
  | inherited _ => true
  end.

(** [a || b] *)
Definition or (a b : value) : value := if truthy a then a else b.

(** The own keys are looked up first, then [Object.prototype]. *)
Definition objectPrototypeKeys : list string :=
  [ "constructor"; "__defineGetter__"; "__defineSetter__"; "hasOwnProperty";
    "__lookupGetter__"; "__lookupSetter__"; "isPrototypeOf";
    "propertyIsEnumerable"; "toString"; "valueOf"; "__proto__";
    "toLocaleString" ].

Fixpoint ownProperty (obj : list (string * string)) (k : string) : option string :=
  match obj with
  | [] => None
  | (k', v) :: rest => if String.eqb k' k then Some v else ownProperty rest k
  end.

(** [obj[k]] for an object literal [obj] with string-valued own keys. *)
Definition getProperty (obj : list (string * string)) (k : string) : value :=
  match ownProperty obj k with
  | Some v => str v
  | None => if existsb (String.eqb k) objectPrototypeKeys then inherited k else undefined
  end.

(** ToString, as a template literal applies it to [${v}]. *)
Definition toString (v : value) : string :=
  match v with
  | undefined => "undefined"
  | null => "null"
  | str s => s
  | inherited k =>
      if String.eqb k "__proto__" then "[object Object]"
      else if String.eqb k "constructor" then "function Object() { [native code] }"
      else "function " +:+ k +:+ "() { [native code] }"
  end.

(** [s.includes(sub)] *)
Fixpoint includes (s sub : string) : bool :=
  if String.prefix sub s then true
  else match s with
       | EmptyString => false
       | String _ s' => includes s' sub
       end.

Definition isDigit (c : ascii) : bool :=
  let n := nat_of_ascii c in (48 <=? n)%nat && (n <=? 57)%nat.

(** [s.replace(/\D/g, '')] *)
Fixpoint replaceNonDigits (s : string) : string :=
  match s with
  | EmptyString => EmptyString
  | String c s' => if isDigit c then String c (replaceNonDigits s') else replaceNonDigits s'
  end.

(** [String.prototype.trim] and [String.prototype.toLowerCase].  Their
    Unicode tables are not reproduced: the program is verified for every
    implementation of the two built-ins that maps the empty string to
    itself. *)
Class StringOps : Type := {
  trim : string → string;
  toLowerCase : string → string;
  trim_empty : trim EmptyString = EmptyString;
  toLowerCase_empty : toLowerCase EmptyString = EmptyString;
}.

(** What a [throw] carries: an [Error] object with its message, or any
    other value. *)
Inductive exn : Type :=
| Error (message : string)
| TypeError (message : string)
| thrown (v : value).

(** [error instanceof Error ? error.message : 'Unknown error'] *)
Definition messageOf (e : exn) : string :=
  match e with
  | Error m | TypeError m => m
  | thrown _ => "Unknown error"
  end.

(** A settled promise (or a returned / thrown call). *)
Inductive outcome (A : Type) : Type :=
| Ok (a : A)
| Throw (e : exn).
#[global] Arguments Ok {A} a.
#[global] Arguments Throw {A} e.

(** What [JSON.parse] makes of a text: a number is the double it denotes,
    an object is given by its members. *)
#[warnings="-register-all"] Inductive Json : Type :=
| JNull
| JBool (b : bool)
| JNumber (n : spec_float)
| JString (s : string)
| JArray (items : list Json)
| JObject (members : list (string * Json)).

End Js.

Import Js.

(** The two built-ins restricted to ASCII, where they agree with the
    engine's: white space is TAB, LF, VT, FF, CR and SPACE, and only
    [A]-[Z] have a lower-case form. *)
Module AsciiOps.

Definition isSpace (c : ascii) : bool :=
  let n := nat_of_ascii c in ((9 <=? n)%nat && (n <=? 13)%nat) || (n =? 32)%nat.

Fixpoint trimStart (s : string) : string :=
  match s with
  | String c s' => if isSpace c then trimStart s' else s
  | EmptyString => EmptyString
  end.

Fixpoint trimEnd (s : string) : string :=
  match s with
  | EmptyString => EmptyString
  | String c s' =>
      match trimEnd s' with
      | EmptyString => if isSpace c then EmptyString else String c EmptyString
      | t => String c t
      end
  end.

Definition lowerChar (c : ascii) : ascii :=
  let n := nat_of_ascii c in
  if (65 <=? n)%nat && (n <=? 90)%nat then ascii_of_nat (n + 32) else c.

Fixpoint lower (s : string) : string :=
  match s with
  | EmptyString => EmptyString
  | String c s' => String (lowerChar c) (lower s')
  end.

#[export] Instance ops : StringOps :=
  {| trim := fun s => trimEnd (trimStart s);
     toLowerCase := lower;
     trim_empty := eq_refl;
     toLowerCase_empty := eq_refl |}.

End AsciiOps.

(** ** [shared/schema]: the row types *)

Record InsertLead : Type := mkInsertLead {
  il_phoneNumber : string;
  il_name : value;
  il_projectType : value;
  il_budget : value;
  il_timeline : value;
  il_description : value;
  il_status : value;
}.

(** What a property of a stored lead holds.  The types of the columns
    exist at compile time only: [createLead] puts the values of the
    conversation engine and two dates into a lead, and
    [PATCH /api/leads/:id] spreads a request body into it as it comes. *)
Inductive cell : Type :=
| val (v : value)
| date (time : Z)
| json (j : Json).

(** A member of a request body as a property value: JSON's null and
    strings are the values of those names. *)
Definition ofJson (j : Json) : cell :=
  match j with
  | JNull => val null
  | JString s => val (str s)
  | _ => json j
  end.

(** [c === s] for a string [s] *)
Definition isString (s : string) (c : cell) : bool :=
  match c with
  | val (str s') => String.eqb s' s
  | _ => false
  end.

(** A lead as the store holds it: an object with the ten columns and
    whatever other keys an update has added. *)
Record Lead : Type := mkLead {
  lead_id : cell;
  lead_phoneNumber : cell;
  lead_name : cell;
  lead_projectType : cell;
  lead_budget : cell;
  lead_timeline : cell;
  lead_description : cell;
  lead_status : cell;
  lead_createdAt : cell;
  lead_updatedAt : cell;
  lead_other : gmap string cell;
}.

Definition columns : list string :=
  [ "id"; "phoneNumber"; "name"; "projectType"; "budget"; "timeline"; "description";
    "status"; "createdAt"; "updatedAt" ].

(** [lead[k]], for an own property *)
Definition property (k : string) (lead : Lead) : option cell :=
  if String.eqb k "id" then Some (lead_id lead)
  else if String.eqb k "phoneNumber" then Some (lead_phoneNumber lead)
  else if String.eqb k "name" then Some (lead_name lead)
  else if String.eqb k "projectType" then Some (lead_projectType lead)
  else if String.eqb k "budget" then Some (lead_budget lead)
  else if String.eqb k "timeline" then Some (lead_timeline lead)
  else if String.eqb k "description" then Some (lead_description lead)
  else if String.eqb k "status" then Some (lead_status lead)
  else if String.eqb k "createdAt" then Some (lead_createdAt lead)
  else if String.eqb k "updatedAt" then Some (lead_updatedAt lead)
  else lead_other lead !! k.


Record InsertBotMessage : Type := mkInsertBotMessage {
  ibm_phoneNumber : string;
  ibm_messageType : string;
  ibm_content : string;
  ibm_isBot : Z;
}.

Record BotMessage : Type := mkBotMessage {
  bm_id : string;
  bm_phoneNumber : string;
  bm_messageType : string;
  bm_content : string;
  bm_isBot : Z;
  bm_timestamp : Z;
}.

(** The rows of users and of sessions. *)

Record InsertUser : Type := mkInsertUser {
  iu_username : string;
  iu_password : string;
}.

Record User : Type := mkUser {
  user_id : string;
  user_username : string;
  user_password : string;
}.

(** A session row; [J] is the type of the JSON in [sessionData], and
    [None] in [isActive] is a value left out or null. *)
Record InsertWhatsappSession (J : Type) : Type := mkInsertWhatsappSession {
  iws_phoneNumber : string;
  iws_sessionData : J;
  iws_isActive : option Z;
}.
Arguments iws_phoneNumber {J}.
Arguments iws_sessionData {J}.
Arguments iws_isActive {J}.

Record WhatsappSession (J : Type) : Type := mkWhatsappSession {
  ws_id : string;
  ws_phoneNumber : string;
  ws_sessionData : J;
  ws_isActive : option Z;
  ws_createdAt : Z;
  ws_updatedAt : Z;
}.
Arguments ws_id {J}.
Arguments ws_phoneNumber {J}.
Arguments ws_sessionData {J}.
Arguments ws_isActive {J}.
Arguments ws_createdAt {J}.
Arguments ws_updatedAt {J}.

(** ** [server/storage.ts] *)

(** The part of [IStorage] that the conversation engine and the lead
    routes call.  Every method is asynchronous: it settles with a value or
    rejects, and may change the store either way. *)
(** [updateLead] declares [Partial<InsertLead>] for its [updates]; the
    only caller, the route, hands it [req.body]: the object a JSON body
    parses to, from its keys to their values, of which nothing checks the
    keys or the values at run time. *)
Class IStorage (St : Type) : Type := {
  createLead : InsertLead → St → outcome Lead * St;
  getLeads : St → outcome (list Lead) * St;
  updateLead : string → gmap string Json → St → outcome (option Lead) * St;
  createBotMessage : InsertBotMessage → St → outcome BotMessage * St;
}.

Module MemStorage.

(** A [Map<string, V>] keeps insertion order; [set] on a present key
    replaces the value where it stands. *)
Fixpoint map_get {V} (m : list (string * V)) (k : string) : option V :=
  match m with
  | [] => None
  | (k', v) :: rest => if String.eqb k' k then Some v else map_get rest k
  end.

Fixpoint map_set {V} (m : list (string * V)) (k : string) (v : V) : list (string * V) :=
  match m with
  | [] => [(k, v)]
  | (k', v') :: rest =>
      if String.eqb k' k then (k, v) :: rest else (k', v') :: map_set rest k v
  end.

Definition map_values {V} (m : list (string * V)) : list V := m.*2.

(** [randomUUID()] and [new Date()] read the environment: the [n]-th
    call returns [uuid n] and [clock n]. *)
Record t : Type := mk {
  leads : list (string * Lead);
  botMessages : list (string * BotMessage);
  uuidCalls : nat;
  dateCalls : nat;
}.

(** [new MemStorage()] *)
Definition new : t :=
  {| leads := []; botMessages := []; uuidCalls := 0; dateCalls := 0 |}.

Section Methods.
Variable uuid : nat → string.
Variable clock : nat → Z.

Definition createLead (insertLead : InsertLead) (this : t) : outcome Lead * t :=
  let id := uuid (uuidCalls this) in
  let lead :=
    {| lead_id := val (str id);
       lead_phoneNumber := val (str (il_phoneNumber insertLead));
       lead_name := val (il_name insertLead);
       lead_projectType := val (il_projectType insertLead);
       lead_budget := val (il_budget insertLead);
       lead_timeline := val (il_timeline insertLead);
       lead_description := val (il_description insertLead);
       lead_status := val (il_status insertLead);
       lead_createdAt := date (clock (dateCalls this));
       lead_updatedAt := date (clock (S (dateCalls this)));
       lead_other := ∅ |} in
  (Ok lead,
   {| leads := map_set (leads this) id lead;
      botMessages := botMessages this;
      uuidCalls := S (uuidCalls this);
      dateCalls := S (S (dateCalls this)) |}).

Definition getLeads (this : t) : outcome (list Lead) * t :=
  (Ok (map_values (leads this)), this).

(** A property after [...updates]: the member of [updates] of that key,
    if it has one. *)
Definition written (old : cell) (k : string) (updates : gmap string Json) : cell :=
  default old (ofJson <$> updates !! k).

(** [{ ...lead, ...updates, updatedAt: new Date() }] *)
Definition spread (lead : Lead) (updates : gmap string Json) (now : Z) : Lead :=
  {| lead_id := written (lead_id lead) "id" updates;
     lead_phoneNumber := written (lead_phoneNumber lead) "phoneNumber" updates;
     lead_name := written (lead_name lead) "name" updates;
     lead_projectType := written (lead_projectType lead) "projectType" updates;
     lead_budget := written (lead_budget lead) "budget" updates;
     lead_timeline := written (lead_timeline lead) "timeline" updates;
     lead_description := written (lead_description lead) "description" updates;
     lead_status := written (lead_status lead) "status" updates;
     lead_createdAt := written (lead_createdAt lead) "createdAt" updates;
     lead_updatedAt := date now;
     lead_other :=
       (ofJson <$> filter (fun member => member.1 ∉ columns) updates) ∪ lead_other lead |}.

Definition updateLead (id : string) (updates : gmap string Json) (this : t)
  : outcome (option Lead) * t :=
  match map_get (leads this) id with
  | Some lead =>
      let updatedLead := spread lead updates (clock (dateCalls this)) in
      (Ok (Some updatedLead),
       {| leads := map_set (leads this) id updatedLead;
          botMessages := botMessages this;
          uuidCalls := uuidCalls this;
          dateCalls := S (dateCalls this) |})
  | None => (Ok None, this)
  end.

Definition createBotMessage (insertMessage : InsertBotMessage) (this : t)
  : outcome BotMessage * t :=
  let id := uuid (uuidCalls this) in
  let message :=
    {| bm_id := id;
       bm_phoneNumber := ibm_phoneNumber insertMessage;
       bm_messageType := ibm_messageType insertMessage;
       bm_content := ibm_content insertMessage;
       bm_isBot := ibm_isBot insertMessage;
       bm_timestamp := clock (dateCalls this) |} in
  (Ok message,
   {| leads := leads this;
      botMessages := map_set (botMessages this) id message;
      uuidCalls := S (uuidCalls this);
      dateCalls := S (dateCalls this) |}).

Definition storage : IStorage t :=
  Build_IStorage t createLead getLeads updateLead createBotMessage.

End Methods.

(** *** The reading methods, and the maps of users and sessions *)

Section Queries.

(** [Array.from(this.leads.values()).filter(lead => lead.phoneNumber === phoneNumber)] *)
Definition getLeadsByPhoneNumber (phoneNumber : string) (this : t) : outcome (list Lead) * t :=
  (Ok (List.filter (fun lead => isString phoneNumber (lead_phoneNumber lead))
         (map_values (leads this))),
   this).

(** The comparator of [getBotMessages]:
    [(b.timestamp?.getTime() || 0) - (a.timestamp?.getTime() || 0)]. *)
Definition orZero (t : Z) : Z := if Z.eqb t 0 then 0%Z else t.

Definition newestFirst (a b : BotMessage) : Z :=
  (orZero (bm_timestamp b) - orZero (bm_timestamp a))%Z.

(** [Array.prototype.sort(cmp)] is stable: an element goes before the
    first one of those after it that it does not have to follow. *)
Fixpoint insertSorted {A} (cmp : A → A → Z) (x : A) (sorted : list A) : list A :=
  match sorted with
  | [] => [x]
  | y :: rest => if (cmp x y <=? 0)%Z then x :: y :: rest else y :: insertSorted cmp x rest
  end.

Definition sort {A} (cmp : A → A → Z) (l : list A) : list A :=
  foldr (insertSorted cmp) [] l.

(** [l.slice(0, stop)]: a negative [stop] counts from the end. *)
Definition slice0 {A} (l : list A) (stop : Z) : list A :=
  if (stop <? 0)%Z then take (Z.to_nat (Z.of_nat (List.length l) + stop)) l
  else take (Z.to_nat stop) l.

(** [limit: number = 50]: [None] is an argument left out. *)
Definition getBotMessages (phoneNumber : string) (limit : option Z) (this : t)
  : outcome (list BotMessage) * t :=
  (Ok (slice0
         (sort newestFirst
            (List.filter (fun message => String.eqb (bm_phoneNumber message) phoneNumber)
               (map_values (botMessages this))))
         (default 50%Z limit)),
   this).

End Queries.

(** The whole object: the two maps above with the environment counters,
    and the maps of users (keyed by id) and of sessions (keyed by phone
    number). *)
Record full (J : Type) : Type := mkFull {
  core : t;
  users : list (string * User);
  whatsappSessions : list (string * WhatsappSession J);
}.
Arguments core {J}.
Arguments users {J}.
Arguments whatsappSessions {J}.

Section Accounts.

Variable uuid : nat → string.
Variable clock : nat → Z.
Context {J : Type}.

(** One more [randomUUID()], [n] more [new Date()]. *)
Definition tick (uuids dates : nat) (c : t) : t :=
  {| leads := leads c; botMessages := botMessages c;
     uuidCalls := uuids + uuidCalls c; dateCalls := dates + dateCalls c |}.

Definition getUser (id : string) (this : full J) : outcome (option User) * full J :=
  (Ok (map_get (users this) id), this).

(** [Array.from(this.users.values()).find(user => user.username === username)] *)
Definition getUserByUsername (username : string) (this : full J)
  : outcome (option User) * full J :=
  (Ok (List.find (fun user => String.eqb (user_username user) username)
         (map_values (users this))),
   this).

Definition createUser (insertUser : InsertUser) (this : full J) : outcome User * full J :=
  let id := uuid (uuidCalls (core this)) in
  let user := {| user_id := id; user_username := iu_username insertUser;
                 user_password := iu_password insertUser |} in
  (Ok user,
   {| core := tick 1 0 (core this);
      users := map_set (users this) id user;
      whatsappSessions := whatsappSessions this |}).

Definition createWhatsappSession (insertSession : InsertWhatsappSession J) (this : full J)
  : outcome (WhatsappSession J) * full J :=
  let id := uuid (uuidCalls (core this)) in
  let session :=
    {| ws_id := id;
       ws_phoneNumber := iws_phoneNumber insertSession;
       ws_sessionData := iws_sessionData insertSession;
       ws_isActive := iws_isActive insertSession;
       ws_createdAt := clock (dateCalls (core this));
       ws_updatedAt := clock (S (dateCalls (core this))) |} in
  (Ok session,
   {| core := tick 1 2 (core this);
      users := users this;
      whatsappSessions :=
        map_set (whatsappSessions this) (iws_phoneNumber insertSession) session |}).

Definition getWhatsappSession (phoneNumber : string) (this : full J)
  : outcome (option (WhatsappSession J)) * full J :=
  (Ok (map_get (whatsappSessions this) phoneNumber), this).

Definition updateWhatsappSession (phoneNumber : string) (sessionData : J) (this : full J)
  : outcome (option (WhatsappSession J)) * full J :=
  match map_get (whatsappSessions this) phoneNumber with
  | Some session =>
      let session' :=
        {| ws_id := ws_id session;
           ws_phoneNumber := ws_phoneNumber session;
           ws_sessionData := sessionData;
           ws_isActive := ws_isActive session;
           ws_createdAt := ws_createdAt session;
           ws_updatedAt := clock (dateCalls (core this)) |} in
      (Ok (Some session'),
       {| core := tick 0 1 (core this);
          users := users this;
          whatsappSessions := map_set (whatsappSessions this) phoneNumber session' |})
  | None => (Ok None, this)
  end.

Definition deactivateWhatsappSession (phoneNumber : string) (this : full J)
  : outcome unit * full J :=
  match map_get (whatsappSessions this) phoneNumber with
  | Some session =>
      let session' :=
        {| ws_id := ws_id session;
           ws_phoneNumber := ws_phoneNumber session;
           ws_sessionData := ws_sessionData session;
           ws_isActive := Some 0%Z;
           ws_createdAt := ws_createdAt session;
           ws_updatedAt := clock (dateCalls (core this)) |} in
      (Ok tt,
       {| core := tick 0 1 (core this);
          users := users this;
          whatsappSessions := map_set (whatsappSessions this) phoneNumber session' |})
  | None => (Ok tt, this)
  end.

End Accounts.

End MemStorage.

(** ** [server/bot-handler.ts]: the canned texts *)

Definition dq : string := String "034"%char EmptyString.

Definition getMainMenu : string :=
  "👋 *Welcome to Develix!*

🚀 *Technology Without Barriers*
AI & Software solutions built in Nigeria, designed for the world.

Please select from the menu below:

1️⃣ *Custom Development* - Bring Your Ideas to Life
2️⃣ *Our Products & Apps* - Ready-to-use Solutions  
3️⃣ *AI Models & Solutions* - Machine Learning Services
4️⃣ *Website Development* - Modern Web Solutions
5️⃣ *Elixa Coin & Blockchain* - DeFi & Crypto Solutions
6️⃣ *Vendra Marketplace* - AI-Powered Business Tools
7️⃣ *Project Showcase* - Case Studies & Portfolio
8️⃣ *Get Quote/Consultation* - Free Project Assessment
9️⃣ *Contact & Support* - Get in Touch

💡 *How to use:*
• Type a number (1-9)
• Use keywords like " +:+ dq +:+ "quote" +:+ dq +:+ ", " +:+ dq +:+ "ai" +:+ dq +:+ ", " +:+ dq +:+ "web" +:+ dq +:+ ", " +:+ dq +:+ "vendra" +:+ dq +:+ "
• Type " +:+ dq +:+ "menu" +:+ dq +:+ " anytime to return here".

Definition getCustomDevelopmentInfo_text : string :=
  "🛠️ *Custom Development Services*

We build custom software solutions tailored to your specific needs:

💻 *Our Services:*
• *Mobile Apps:* React Native, Flutter (₦500K - ₦2M)
• *Web Applications:* React, Next.js, Node.js (₦300K - ₦1.5M)  
• *AI/ML Solutions:* Custom models, API integration (₦800K - ₦3M)
• *Enterprise Systems:* CRM, ERP, Dashboard (₦1M - ₦5M)

⭐ *Recent Success:* FirstBank Nigeria - 300% transaction speed improvement

📊 *Our Track Record:*
• 98% client satisfaction rate
• 150+ projects delivered
• $50M+ client ROI generated

Would you like to discuss your project? Reply with 'quote' to start!".

Definition getProductsInfo : string :=
  "📱 *Our Ready-to-Use Products*

Explore our collection of innovative apps and solutions:

🏪 *Vendra* - AI-Powered SME Platform
• ₂2.5M total supply
• Multilingual marketplace for African SMEs
• AI customer engagement tools

🪙 *Elixa Coin* - Blockchain & DeFi  
• ₦850 current price
• 15K+ token holders, 99.9% uptime
• Africa's gateway to decentralized finance

🛡️ *Anti-Fraud Detector* - AI Security System
• Real-time fraud detection with 95% accuracy
• Used by major banks across Nigeria

🤖 *WhatsApp Bot* - This bot you're using!
• Automated customer service
• Smart lead generation
• 24/7 availability

Type the product name for more details or 'menu' for main menu.".

Definition getAIInfo : string :=
  "🤖 *AI Models & Machine Learning*

Advanced AI solutions powered by cutting-edge technology:

🗣️ *Natural Language Processing*
• Multilingual support: English, Hausa, Yoruba, Igbo, Swahili
• Sentiment analysis and text classification
• Chatbot development

👁️ *Computer Vision*  
• Medical imaging analysis
• Document processing and OCR
• Object detection and recognition

📊 *Predictive Analytics*
• Financial forecasting and risk assessment  
• Market analysis and customer insights
• Business intelligence dashboards

🏆 *Success Stories:*
• Kuda Bank: 95% fraud reduction with our ML model
• LUTH: 60% faster patient diagnosis with AI
• 15+ enterprises using our AI solutions

Ready to explore AI for your business? Type '8' for consultation!".

Definition getWebDevInfo : string :=
  "🌐 *Modern Website Development*

Professional websites that drive results:

📊 *Our Metrics:*
• 99.9% Uptime SLA
• 2-8 Week Delivery  
• Mobile-first approach

💰 *Pricing:*
• *Business Websites:* ₦150K - ₦500K
• *E-commerce Platforms:* ₦400K - ₦1.2M
• *Web Applications:* ₦600K - ₦2M
• *Enterprise Portals:* ₦1M - ₦5M

🛠️ *Technology Stack:*
React • Next.js • Node.js • AWS • Docker

✅ *What's Included:*
• Responsive design for all devices
• SEO optimization  
• Security implementation
• Performance optimization
• 6 months free maintenance

Ready to start your web project? Type '8' for a free quote!".

Definition getBlockchainInfo : string :=
  "⛓️ *Elixa Coin & Blockchain Solutions*

Africa's gateway to decentralized finance:

📈 *Live Metrics:*
• 2.5M Total Supply (Fixed)
• ₦850 Current Price
• 15K+ Token Holders  
• 99.9% Network Uptime

💰 *Key Benefits:*
• *Cross-Border Payments:* <1% fees vs 8-12% traditional
• *DeFi Savings:* Up to 12% APY staking rewards
• *Merchant Integration:* Instant crypto payments

🏗️ *Blockchain Services:*
• Smart Contract Development
• DeFi Protocol Creation  
• Cryptocurrency Integration
• NFT Marketplace Development

🔒 *Security & Compliance:*
• Audited by leading blockchain security firms
• Fully compliant with Nigerian SEC
• Built on Polygon for scalability

Get ELX tokens or learn more? Type 'elixa' for details!".

Definition getVendraInfo : string :=
  "🏪 *Vendra - AI-Powered SME Platform*

Empowering African small businesses with smart tools:

📊 *Live Marketplace Metrics:*
• ₦42.3M 24h Sales Volume (+22.1%)
• 2,314 Active Vendors
• 96% Order Fulfillment Rate
• 4.7★ Customer Rating

🚀 *Key Features:*
• *Multilingual AI:* English, Hausa, Yoruba, Igbo, Swahili, French
• *Mobile-First:* Works on 2G networks, offline processing  
• *Smart Analytics:* Sales forecasting, customer insights
• *Social Commerce:* WhatsApp/Instagram integration

💳 *Payment Options:*
• Mobile money (M-Pesa, Airtel Money)
• Bank transfers
• Cryptocurrency payments
• Instant settlement

🎯 *Perfect For:*
• Small retailers and vendors
• Service providers
• E-commerce businesses
• Social media sellers

Start your free trial? Type 'vendra' for access!".

Definition getPortfolioInfo : string :=
  "🏆 *Our Success Stories*

Proven track record of delivering exceptional results:

📊 *Company Metrics:*
• 150+ Projects Completed
• 98% Client Satisfaction
• $50M+ Client ROI Generated

🏦 *Featured Case Studies:*

*FirstBank Nigeria* - Digital Transformation
• 300% transaction speed improvement
• $12M operational savings
• 6-month implementation

*Kuda Bank* - AI Fraud Detection  
• 95% fraud reduction
• $25M losses prevented
• 4-month development

*LUTH Hospital* - Patient Management
• 60% faster diagnosis
• $2.5M cost savings
• AI-powered system

🎯 *Industries We Serve:*
• FinTech & Banking
• Healthcare
• E-commerce
• Government
• Education

View detailed case studies? Type 'portfolio' for full showcase!".

Definition getQuoteInfo_text : string :=
  "💡 *Get Your Free Consultation*

Let's discuss your project and provide a detailed quote:

🎯 *What You'll Get:*
✅ Detailed project analysis & requirements
✅ Technology recommendations  
✅ Accurate timeline & budget estimate
✅ 30-minute strategy call with our founders

📝 *Quick Project Assessment:*

What type of project do you need?

1. Mobile App Development
2. Website Development  
3. AI/ML Solution
4. Blockchain Integration
5. Enterprise System
6. Other (please specify)

Please type the number or describe your project:".

Definition getContactInfo : string :=
  "📞 *Get in Touch*

Multiple ways to connect with our team:

📱 *WhatsApp Direct:* +234 810 751 6059
✉️ *Email:* hello@develix.com  
🌐 *Website:* www.develix.com

👨‍💻 *Meet Our Founders:*
• *Alexius Dubem (17)* - CEO & Co-Founder
• *Jerome Ebube (16)* - CTO & Co-Founder
🇳🇬 Built in Anambra State, Nigeria

🕒 *Business Hours:*
Monday - Friday: 9:00 AM - 6:00 PM (WAT)
Emergency support: 24/7 available

🎯 *Office Location:*
Anambra State, Nigeria

Ready to schedule a meeting? Type '8' for consultation booking!".

Definition budgetPrompt : string :=
  "💰 What's your budget range?

1. ₦100K - ₦500K
2. ₦500K - ₦1M
3. ₦1M - ₦3M
4. ₦3M - ₦5M
5. ₦5M+

Please type the number or your budget range:".

Definition timelinePrompt : string :=
  "⏰ What's your timeline?

1. ASAP (Rush)
2. 1-3 months
3. 3-6 months
4. 6+ months

Please type the number or your timeline:".

Definition descriptionPrompt : string :=
  "📝 Please provide a brief description of your project and any specific requirements:".

Definition namePrompt : string :=
  "👤 What's your name? (This helps us personalize our service)".


(** ** The transport (the Baileys socket) and the shape of its events *)

Record MessageKey : Type := mkMessageKey {
  remoteJid : string;
  fromMe : bool;
}.

Record ExtendedTextMessage : Type := mkExtendedTextMessage {
  etm_text : option string;
}.

Record MessageContent : Type := mkMessageContent {
  conversation : option string;
  extendedTextMessage : option ExtendedTextMessage;
}.

Record WAMessage : Type := mkWAMessage {
  key : MessageKey;
  message : option MessageContent;
}.

(** The payload of [messages.upsert]. *)
Record MessagesUpsert : Type := mkMessagesUpsert {
  messages : list WAMessage;
}.

Record BoomOutput : Type := mkBoomOutput {
  statusCode : option Z;
}.

Record Boom : Type := mkBoom {
  output : option BoomOutput;
}.

Record LastDisconnect : Type := mkLastDisconnect {
  error : option Boom;
}.

(** The payload of [connection.update]. *)
Record ConnectionUpdate : Type := mkConnectionUpdate {
  connection : option string;
  lastDisconnect : option LastDisconnect;
  qr : option string;
}.

(** The members of the library's [DisconnectReason] enumeration that the
    connection manager compares against.  The library is not part of the
    repository, so the codes are a parameter of the model. *)
Record DisconnectReasonT : Type := mkDisconnectReason {
  loggedOut : Z;
  restartRequired : Z;
  timedOut : Z;
  connectionLost : Z;
}.

(** The codes as the library release used by the bot defines them. *)
Definition BaileysDisconnectReason : DisconnectReasonT :=
  {| loggedOut := 401; restartRequired := 515; timedOut := 408; connectionLost := 408 |}.

(** What a [setTimeout] callback does when it fires. *)
Inductive Callback : Type :=
| CallStart.

(** Calls that leave the program, in the order they are made. *)
Inductive Event : Type :=
| EvCreateBotMessage (m : InsertBotMessage)
| EvCreateLead (l : InsertLead)
| EvUpdateLead (id : string) (updates : gmap string Json)
| EvSessionGet (phoneNumber : string)
| EvSessionSet (phoneNumber : string)
| EvSendMessage (jid text : string)
| EvRequestPairingCode (phoneNumber : string)
| EvLoggerInfo (msg : string)
| EvLoggerError (msg : string) (e : exn)
| EvConsoleLog (msg : string)
| EvQrGenerate (qr : string).

(** ** [server/bot-handler.ts]: the session objects *)

(** The draft [leadData]: an untyped object, a key not yet written reads
    as [undefined]. *)
Record LeadData : Type := mkLeadData {
  ld_projectType : value;
  ld_budget : value;
  ld_timeline : value;
  ld_description : value;
  ld_name : value;
}.

(** [{}] *)
Definition emptyLeadData : LeadData :=
  {| ld_projectType := undefined; ld_budget := undefined; ld_timeline := undefined;
     ld_description := undefined; ld_name := undefined |}.

Record BotState : Type := mkBotState {
  currentMenu : string;
  leadFormStep : nat;
  leadData : LeadData;
}.

Definition set_currentMenu (v : string) (s : BotState) : BotState :=
  {| currentMenu := v; leadFormStep := leadFormStep s; leadData := leadData s |}.
Definition set_leadFormStep (v : nat) (s : BotState) : BotState :=
  {| currentMenu := currentMenu s; leadFormStep := v; leadData := leadData s |}.
Definition set_leadData (v : LeadData) (s : BotState) : BotState :=
  {| currentMenu := currentMenu s; leadFormStep := leadFormStep s; leadData := v |}.

Definition set_ld_projectType (v : value) (d : LeadData) : LeadData :=
  {| ld_projectType := v; ld_budget := ld_budget d; ld_timeline := ld_timeline d;
     ld_description := ld_description d; ld_name := ld_name d |}.
Definition set_ld_budget (v : value) (d : LeadData) : LeadData :=
  {| ld_projectType := ld_projectType d; ld_budget := v; ld_timeline := ld_timeline d;
     ld_description := ld_description d; ld_name := ld_name d |}.
Definition set_ld_timeline (v : value) (d : LeadData) : LeadData :=
  {| ld_projectType := ld_projectType d; ld_budget := ld_budget d; ld_timeline := v;
     ld_description := ld_description d; ld_name := ld_name d |}.
Definition set_ld_description (v : value) (d : LeadData) : LeadData :=
  {| ld_projectType := ld_projectType d; ld_budget := ld_budget d; ld_timeline := ld_timeline d;
     ld_description := v; ld_name := ld_name d |}.
Definition set_ld_name (v : value) (d : LeadData) : LeadData :=
  {| ld_projectType := ld_projectType d; ld_budget := ld_budget d; ld_timeline := ld_timeline d;
     ld_description := ld_description d; ld_name := v |}.

(** [userState.leadData.f = v] *)
Definition write_leadData (f : LeadData → LeadData) (s : BotState) : BotState :=
  set_leadData (f (leadData s)) s.

(** The object a first message from a new number starts from. *)
Definition freshState : BotState :=
  {| currentMenu := "main"; leadFormStep := 0; leadData := emptyLeadData |}.

(** Session objects are shared between the [userStates] map and the
    handlers' [userState] argument: they live in a heap, and a [loc] is the
    address of one. *)
Definition loc : Type := nat.

(** ** The program *)

Section Program.

Context {ops : StringOps}.
Context {St : Type} {storageImpl : IStorage St}.
Context {Net : Type}.

(** The socket object: its asynchronous methods act on the network. *)
Record Sock : Type := mkSock {
  sock_sendMessage : string → string → Net → outcome unit * Net;
  sock_requestPairingCode : string → Net → outcome string * Net;
}.

(** The fields of the [whatsappBot] singleton. *)
Record WhatsAppBot : Type := mkWhatsAppBot {
  sock : option Sock;
  qrCodeGenerated : bool;
  isConnected : bool;
}.

(** [new WhatsAppBot()] *)
Definition newWhatsAppBot : WhatsAppBot :=
  {| sock := None; qrCodeGenerated := false; isConnected := false |}.

Record World : Type := mkWorld {
  storage : St;
  network : Net;
  userStates : gmap string loc;
  heap : list BotState;
  whatsappBot : WhatsAppBot;
  timers : list (Z * Callback);
  trace : list Event;
}.

Definition set_storage (v : St) (w : World) : World :=
  mkWorld v (network w) (userStates w) (heap w) (whatsappBot w) (timers w) (trace w).
Definition set_network (v : Net) (w : World) : World :=
  mkWorld (storage w) v (userStates w) (heap w) (whatsappBot w) (timers w) (trace w).
Definition set_userStates (v : gmap string loc) (w : World) : World :=
  mkWorld (storage w) (network w) v (heap w) (whatsappBot w) (timers w) (trace w).
Definition set_heap (v : list BotState) (w : World) : World :=
  mkWorld (storage w) (network w) (userStates w) v (whatsappBot w) (timers w) (trace w).
Definition set_whatsappBot (v : WhatsAppBot) (w : World) : World :=
  mkWorld (storage w) (network w) (userStates w) (heap w) v (timers w) (trace w).
Definition set_timers (v : list (Z * Callback)) (w : World) : World :=
  mkWorld (storage w) (network w) (userStates w) (heap w) (whatsappBot w) v (trace w).
Definition set_trace (v : list Event) (w : World) : World :=
  mkWorld (storage w) (network w) (userStates w) (heap w) (whatsappBot w) (timers w) v.

(** *** The monad: a computation changes the world and returns or throws;
    what it changed before throwing stays changed. *)
Definition M (A : Type) : Type := World → outcome A * World.

Definition ret {A} (a : A) : M A := fun w => (Ok a, w).

Definition throw {A} (e : exn) : M A := fun w => (Throw e, w).

Definition bind {A B} (m : M A) (k : A → M B) : M B :=
  fun w =>
    match m w with
    | (Ok a, w') => k a w'
    | (Throw e, w') => (Throw e, w')
    end.

(** [try { m } catch (error) { h error }] *)
Definition try_catch {A} (m : M A) (h : exn → M A) : M A :=
  fun w =>
    match m w with
    | (Ok a, w') => (Ok a, w')
    | (Throw e, w') => h e w'
    end.

Notation "'let*' x ':=' m 'in' k" := (bind m (fun x => k))
  (at level 10, x pattern, m at level 100, k at level 200).

Definition emit (ev : Event) : M unit :=
  fun w => (Ok tt, set_trace (trace w ++ [ev]) w).

(** [await storage.createBotMessage(m)] *)
Definition storage_createBotMessage (m : InsertBotMessage) : M BotMessage :=
  let* _ := emit (EvCreateBotMessage m) in
  fun w => let '(r, s) := createBotMessage m (storage w) in (r, set_storage s w).

(** [await storage.createLead(l)] *)
Definition storage_createLead (l : InsertLead) : M Lead :=
  let* _ := emit (EvCreateLead l) in
  fun w => let '(r, s) := createLead l (storage w) in (r, set_storage s w).

(** [await storage.updateLead(id, updates)] *)
Definition storage_updateLead (id : string) (updates : gmap string Json) : M (option Lead) :=
  let* _ := emit (EvUpdateLead id updates) in
  fun w => let '(r, s) := updateLead id updates (storage w) in (r, set_storage s w).

(** [await sock.sendMessage(jid, { text })], where [sock] may be
    [undefined]. *)
Definition sendMessage_on (s : option Sock) (jid text : string) : M unit :=
  match s with
  | None => throw (TypeError "Cannot read properties of undefined (reading 'sendMessage')")
  | Some s =>
      let* _ := emit (EvSendMessage jid text) in
      fun w => let '(r, n) := sock_sendMessage s jid text (network w) in (r, set_network n w)
  end.

(** [await this.sock.requestPairingCode(number)] *)
Definition requestPairingCode_on (s : Sock) (number : string) : M string :=
  let* _ := emit (EvRequestPairingCode number) in
  fun w => let '(r, n) := sock_requestPairingCode s number (network w) in (r, set_network n w).

(** Reading and writing the object at an address. *)
Definition deref (l : loc) : M BotState :=
  fun w =>
    match heap w !! l with
    | Some s => (Ok s, w)
    | None => (Throw (TypeError "Cannot read properties of undefined"), w)
    end.

Definition assign (l : loc) (f : BotState → BotState) : M unit :=
  fun w =>
    match heap w !! l with
    | Some s => (Ok tt, set_heap (<[l := f s]> (heap w)) w)
    | None => (Throw (TypeError "Cannot set properties of undefined"), w)
    end.

Definition alloc (s : BotState) : M loc :=
  fun w => (Ok (List.length (heap w)), set_heap (heap w ++ [s]) w).

(** [userStates.get(phoneNumber)] and [userStates.set(phoneNumber, l)] *)
Definition userStates_get (phoneNumber : string) : M (option loc) :=
  let* _ := emit (EvSessionGet phoneNumber) in
  fun w => (Ok (userStates w !! phoneNumber), w).

Definition userStates_set (phoneNumber : string) (l : loc) : M unit :=
  let* _ := emit (EvSessionSet phoneNumber) in
  fun w => (Ok tt, set_userStates (<[phoneNumber := l]> (userStates w)) w).

(** *** The menu machine *)

Definition getCustomDevelopmentInfo (userState : loc) : string :=
  getCustomDevelopmentInfo_text.

Definition getQuoteInfo (userState : loc) : M string :=
  let* _ := assign userState (set_currentMenu "lead_form") in
  let* _ := assign userState (set_leadFormStep 1) in
  ret getQuoteInfo_text.

(** The labels of one [case] group of the [switch]. *)
Definition casesCustomDevelopment : list string :=
  ["1"; "custom"; "custom development"; "development"; "dev"].
Definition casesProducts : list string :=
  ["2"; "products"; "product"; "apps"; "app"].
Definition casesAI : list string :=
  ["3"; "ai"; "artificial intelligence"; "ml"; "machine learning"].
Definition casesWebDev : list string :=
  ["4"; "web"; "website"; "web development"; "web dev"].
Definition casesBlockchain : list string :=
  ["5"; "blockchain"; "elixa"; "crypto"; "defi"].
Definition casesVendra : list string :=
  ["6"; "vendra"; "marketplace"].
Definition casesPortfolio : list string :=
  ["7"; "portfolio"; "showcase"; "projects"; "case studies"].
Definition casesQuote : list string :=
  ["8"; "quote"; "quotes"; "qoute"; "qotw"; "consultation"; "consult"; "estimate"].
Definition casesContact : list string :=
  ["9"; "contact"; "support"; "help"; "reach"].
Definition casesMainMenu : list string :=
  ["menu"; "start"; "main"; "home"].

(** The substrings one [if] of the [default] branch looks for. *)
Definition markersQuote : list string :=
  ["project"; "quote"; "qoute"; "development"; "estimate"; "consult"].
Definition markersAI : list string := ["ai"; "artificial"; "machine"].
Definition markersWebDev : list string := ["web"; "website"].
Definition markersBlockchain : list string := ["blockchain"; "crypto"; "elixa"].
Definition markersVendra : list string := ["vendra"; "marketplace"].
Definition markersPortfolio : list string := ["portfolio"; "showcase"; "case"].
Definition markersContact : list string := ["contact"; "support"; "reach"].
Definition markersProducts : list string := ["product"; "app"].

(** [input === c1 || input === c2 || ...] *)
Definition isCase (input : string) (labels : list string) : bool :=
  existsb (String.eqb input) labels.

(** [input.includes(m1) || input.includes(m2) || ...] *)
Definition includesAny (input : string) (markers : list string) : bool :=
  existsb (includes input) markers.

Definition handleMainMenu (phoneNumber messageText : string) (userState : loc) : M string :=
  let input := toLowerCase (trim messageText) in
  if isCase input casesCustomDevelopment then ret (getCustomDevelopmentInfo userState)
  else if isCase input casesProducts then ret getProductsInfo
  else if isCase input casesAI then ret getAIInfo
  else if isCase input casesWebDev then ret getWebDevInfo
  else if isCase input casesBlockchain then ret getBlockchainInfo
  else if isCase input casesVendra then ret getVendraInfo
  else if isCase input casesPortfolio then ret getPortfolioInfo
  else if isCase input casesQuote then getQuoteInfo userState
  else if isCase input casesContact then ret getContactInfo
  else if isCase input casesMainMenu then ret getMainMenu
  else if includesAny input markersQuote then getQuoteInfo userState
  else if includesAny input markersAI then ret getAIInfo
  else if includesAny input markersWebDev then ret getWebDevInfo
  else if includesAny input markersBlockchain then ret getBlockchainInfo
  else if includesAny input markersVendra then ret getVendraInfo
  else if includesAny input markersPortfolio then ret getPortfolioInfo
  else if includesAny input markersContact then ret getContactInfo
  else if includesAny input markersProducts then ret getProductsInfo
  else ret getMainMenu.

(** *** The lead-form machine *)

Definition exitKeywords : list string := ["menu"; "cancel"; "exit"; "back"].

Definition budgetOptions : list (string * string) :=
  [ ("1", "₦100K - ₦500K");
    ("2", "₦500K - ₦1M");
    ("3", "₦1M - ₦3M");
    ("4", "₦3M - ₦5M");
    ("5", "₦5M+") ].

Definition timelineOptions : list (string * string) :=
  [ ("1", "ASAP (Rush)");
    ("2", "1-3 months");
    ("3", "3-6 months");
    ("4", "6+ months") ].

(** The confirmation, a template literal over the draft. *)
Definition summary (d : LeadData) : string :=
  "🎉 Thank you " +:+ toString (ld_name d) +:+ "! Your project inquiry has been submitted.

📋 Summary:
• Project: " +:+ toString (ld_projectType d) +:+ "
• Budget: " +:+ toString (ld_budget d) +:+ "
• Timeline: " +:+ toString (ld_timeline d) +:+ "

✅ Our team will review your requirements and contact you within 24 hours with a detailed proposal.

📞 For urgent matters, call us directly at +234 810 751 6059

Type 'menu' to return to the main menu.".

Definition handleLeadForm (phoneNumber messageText : string) (userState : loc) : M string :=
  let input := trim messageText in
  let lowerInput := toLowerCase input in
  if isCase lowerInput exitKeywords then
    let* _ := assign userState (set_currentMenu "main") in
    let* _ := assign userState (set_leadFormStep 0) in
    let* _ := assign userState (set_leadData emptyLeadData) in
    ret getMainMenu
  else
    let* s := deref userState in
    match leadFormStep s with
    | 1 =>
        let* _ := assign userState (write_leadData (set_ld_projectType (str input))) in
        let* _ := assign userState (set_leadFormStep 2) in
        ret budgetPrompt
    | 2 =>
        let* _ := assign userState
                    (write_leadData (set_ld_budget (Js.or (getProperty budgetOptions input) (str input)))) in
        let* _ := assign userState (set_leadFormStep 3) in
        ret timelinePrompt
    | 3 =>
        let* _ := assign userState
                    (write_leadData (set_ld_timeline (Js.or (getProperty timelineOptions input) (str input)))) in
        let* _ := assign userState (set_leadFormStep 4) in
        ret descriptionPrompt
    | 4 =>
        let* _ := assign userState (write_leadData (set_ld_description (str input))) in
        let* _ := assign userState (set_leadFormStep 5) in
        ret namePrompt
    | 5 =>
        let* _ := assign userState (write_leadData (set_ld_name (str input))) in
        let* s := deref userState in
        let* _ := storage_createLead
                    {| il_phoneNumber := phoneNumber;
                       il_name := ld_name (leadData s);
                       il_projectType := ld_projectType (leadData s);
                       il_budget := ld_budget (leadData s);
                       il_timeline := ld_timeline (leadData s);
                       il_description := ld_description (leadData s);
                       il_status := str "new" |} in
        let* _ := assign userState (set_currentMenu "main") in
        let* _ := assign userState (set_leadFormStep 0) in
        let* _ := assign userState (set_leadData emptyLeadData) in
        let* s := deref userState in
        ret (summary (leadData s))
    | _ =>
        let* _ := assign userState (set_currentMenu "main") in
        let* _ := assign userState (set_leadFormStep 0) in
        ret getMainMenu
    end.

(** *** [handleMessage] *)

(** [a || b] on an optional string [a]. *)
Definition orElse (a : option string) (b : string) : string :=
  match a with
  | Some s => if String.eqb s EmptyString then b else s
  | None => b
  end.

(** [message.message?.conversation ||
     message.message?.extendedTextMessage?.text || ''] *)
Definition extractText (m : WAMessage) : string :=
  orElse (match message m with
          | Some c => conversation c
          | None => None
          end)
    (orElse (match message m with
             | Some c => match extendedTextMessage c with
                         | Some e => etm_text e
                         | None => None
                         end
             | None => None
             end) EmptyString).

Definition handleMessage (sock : option Sock) (message : WAMessage) : M unit :=
  let phoneNumber := remoteJid (key message) in
  let messageText := extractText message in
  if String.eqb messageText EmptyString then ret tt
  else
    let* _ := storage_createBotMessage
                {| ibm_phoneNumber := phoneNumber; ibm_messageType := "received";
                   ibm_content := messageText; ibm_isBot := 0 |} in
    let* found := userStates_get phoneNumber in
    let* userState := match found with
                      | Some l => ret l
                      | None => alloc freshState
                      end in
    let* s := deref userState in
    let* responseMessage :=
      if String.eqb (currentMenu s) "lead_form"
      then handleLeadForm phoneNumber messageText userState
      else handleMainMenu phoneNumber messageText userState in
    let* _ := userStates_set phoneNumber userState in
    if negb (String.eqb responseMessage EmptyString) then
      let* _ := sendMessage_on sock phoneNumber responseMessage in
      let* _ := storage_createBotMessage
                  {| ibm_phoneNumber := phoneNumber; ibm_messageType := "sent";
                     ibm_content := responseMessage; ibm_isBot := 1 |} in
      ret tt
    else ret tt.


(** *** [server/whatsapp-bot.ts]: the connection manager *)

Definition set_sock (v : option Sock) (b : WhatsAppBot) : WhatsAppBot :=
  {| sock := v; qrCodeGenerated := qrCodeGenerated b; isConnected := isConnected b |}.
Definition set_qrCodeGenerated (v : bool) (b : WhatsAppBot) : WhatsAppBot :=
  {| sock := sock b; qrCodeGenerated := v; isConnected := isConnected b |}.
Definition set_isConnected (v : bool) (b : WhatsAppBot) : WhatsAppBot :=
  {| sock := sock b; qrCodeGenerated := qrCodeGenerated b; isConnected := v |}.

(** Reading and writing the fields of [this]. *)
Definition this : M WhatsAppBot := fun w => (Ok (whatsappBot w), w).

Definition update_this (f : WhatsAppBot → WhatsAppBot) : M unit :=
  fun w => (Ok tt, set_whatsappBot (f (whatsappBot w)) w).

(** [setTimeout(cb, delay)] *)
Definition setTimeout (cb : Callback) (delay : Z) : M unit :=
  fun w => (Ok tt, set_timers (timers w ++ [(delay, cb)]) w).

(** [(lastDisconnect?.error as Boom)?.output?.statusCode] *)
Definition statusCodeOf (update : ConnectionUpdate) : option Z :=
  match lastDisconnect update with
  | Some d =>
      match error d with
      | Some e =>
          match output e with
          | Some o => statusCode o
          | None => None
          end
      | None => None
      end
  | None => None
  end.

(** [code === reason], where [code] may be [undefined]. *)
Definition isReason (code : option Z) (reason : Z) : bool :=
  match code with
  | Some c => Z.eqb c reason
  | None => false
  end.

(** [connection === status] *)
Definition isStatus (connection : option string) (status : string) : bool :=
  match connection with
  | Some c => String.eqb c status
  | None => false
  end.

Variable DisconnectReason : DisconnectReasonT.

Definition handleConnectionUpdate (update : ConnectionUpdate) : M unit :=
  let* bot := this in
  let* _ :=
    match qr update with
    | Some code =>
        if negb (String.eqb code EmptyString) && negb (qrCodeGenerated bot) then
          let* _ := emit (EvConsoleLog "
ðŸ“± Scan this QR code with WhatsApp:") in
          let* _ := emit (EvQrGenerate code) in
          let* _ := emit (EvConsoleLog "
Or use pairing code by calling /api/whatsapp/pair-code") in
          update_this (set_qrCodeGenerated true)
        else ret tt
    | None => ret tt
    end in
  if isStatus (connection update) "close" then
    let* _ := update_this (set_isConnected false) in
    let statusCode := statusCodeOf update in
    let* _ := emit (EvLoggerInfo "Connection closed due to") in
    if isReason statusCode (loggedOut DisconnectReason) then
      let* _ := emit (EvLoggerInfo "Device logged out, please restart to reconnect") in
      update_this (set_qrCodeGenerated false)
    else if isReason statusCode (restartRequired DisconnectReason) then
      let* _ := emit (EvLoggerInfo "Restart required, restarting...") in
      setTimeout CallStart 2000
    else if isReason statusCode (timedOut DisconnectReason)
            || isReason statusCode (connectionLost DisconnectReason) then
      let* _ := emit (EvLoggerInfo "Connection timed out or lost, attempting reconnect...") in
      setTimeout CallStart 5000
    else
      let* _ := emit (EvLoggerInfo "Reconnecting in 3 seconds...") in
      setTimeout CallStart 3000
  else if isStatus (connection update) "open" then
    let* _ := emit (EvLoggerInfo "WhatsApp bot connected successfully! ðŸŽ‰") in
    let* _ := update_this (set_isConnected true) in
    update_this (set_qrCodeGenerated false)
  else if isStatus (connection update) "connecting" then
    emit (EvLoggerInfo "Connecting to WhatsApp...")
  else ret tt.

Definition handleMessages (m : MessagesUpsert) : M unit :=
  match head (messages m) with
  | None => ret tt
  | Some message =>
      if fromMe (key message) then ret tt
      else
        try_catch
          (let* bot := this in
           handleMessage (sock bot) message)
          (fun error => emit (EvLoggerError "Error handling message:" error))
  end.

Definition generatePairingCode (phoneNumber : string) : M string :=
  let* bot := this in
  match sock bot with
  | None => throw (Error "WhatsApp bot not initialized")
  | Some sock =>
      if negb (isConnected bot) then
        throw (Error "WhatsApp bot not connected. Please wait for connection or scan QR code.")
      else
        try_catch
          (let cleanPhoneNumber := replaceNonDigits phoneNumber in
           if (String.length cleanPhoneNumber <? 10)%nat || (15 <? String.length cleanPhoneNumber)%nat
           then throw (Error "Invalid phone number format")
           else
             let* pairingCode := requestPairingCode_on sock cleanPhoneNumber in
             let* _ := emit (EvLoggerInfo ("Pairing code generated for " +:+ cleanPhoneNumber
                                           +:+ ": " +:+ pairingCode)) in
             ret pairingCode)
          (fun error =>
             let* _ := emit (EvLoggerError "Error generating pairing code:" error) in
             throw (Error ("Failed to generate pairing code: " +:+ messageOf error)))
  end.

(** *** [server/routes.ts]: the lead update route *)

Inductive ResponseBody : Type :=
| JsonLead (l : Lead)
| JsonError (error : string) (message : option string).

Record Response : Type := mkResponse {
  res_status : Z;
  res_body : ResponseBody;
}.

(** [PATCH /api/leads/:id]: [req.body] is handed to [updateLead] as it
    comes; no key and no value of it is checked. *)
Definition patchLead (id : string) (updates : gmap string Json) : M Response :=
  try_catch
    (let* lead := storage_updateLead id updates in
     match lead with
     | None => ret {| res_status := 404; res_body := JsonError "Lead not found" None |}
     | Some l => ret {| res_status := 200; res_body := JsonLead l |}
     end)
    (fun error =>
       ret {| res_status := 500;
              res_body := JsonError "Failed to update lead" (Some (messageOf error)) |}).

End Program.

Arguments Sock : clear implicits.
Arguments WhatsAppBot : clear implicits.
Arguments World : clear implicits.
Arguments M : clear implicits.

(** ** The rest of the connection manager and of the routes *)

Section ProgramRest.

Context {St : Type} {storageImpl : IStorage St}.
Context {Net : Type}.

Notation "'let*' x ':=' m 'in' k" := (bind (St := St) (Net := Net) m (fun x => k))
  (at level 10, x pattern, m at level 100, k at level 200).

(** [phoneNumber.includes('@') ? phoneNumber : `${phoneNumber}@s.whatsapp.net`] *)
Definition toJid (phoneNumber : string) : string :=
  if includes phoneNumber "@" then phoneNumber else phoneNumber +:+ "@s.whatsapp.net".

(** [WhatsAppBot.sendMessage] *)
Definition sendMessage (phoneNumber message : string) : M St Net unit :=
  let* bot := this in
  if negb (isConnected bot) || negb (bool_decide (is_Some (sock bot))) then
    throw (Error "WhatsApp bot not connected")
  else
    try_catch
      (let jid := toJid phoneNumber in
       let* _ := sendMessage_on (sock bot) jid message in
       emit (EvLoggerInfo ("Message sent to " +:+ phoneNumber)))
      (fun error =>
         let* _ := emit (EvLoggerError "Error sending message:" error) in
         throw error).

(** [WhatsAppBot.stop]; [logout] is the socket's method of that name,
    which [Sock] does not carry. *)
Definition stop (logout : Net → outcome unit * Net) : M St Net unit :=
  let* bot := this in
  match sock bot with
  | Some _ =>
      let* _ := (fun w => let '(r, n) := logout (network w) in (r, set_network n w)) in
      let* _ := update_this (set_isConnected false) in
      emit (EvLoggerInfo "WhatsApp bot stopped")
  | None => ret tt
  end.

(** What a route answers: [res.status(s).json(body)], 200 without
    [status]. *)
Inductive JsonBody : Type :=
| BodyError (error : string) (message : option string)
| BodyPairingCode (pairingCode phoneNumber : string)
| BodySuccess (message : string)
| BodyLeads (leads : list Lead)
| BodyMessages (messages : list BotMessage).

Record HttpResponse : Type := mkHttpResponse {
  http_status : Z;
  http_body : JsonBody;
}.

(** [!field] for a field of [req.body] that is a string when present. *)
Definition missing (field : option string) : bool :=
  match field with
  | Some s => String.eqb s EmptyString
  | None => true
  end.

(** [POST /api/whatsapp/pair-code], after the rate limiter *)
Definition postPairCode (phoneNumber : option string) : M St Net HttpResponse :=
  try_catch
    (if missing phoneNumber then
       ret {| http_status := 400; http_body := BodyError "Phone number is required" None |}
     else
       let number := default EmptyString phoneNumber in
       let* pairingCode := generatePairingCode number in
       ret {| http_status := 200; http_body := BodyPairingCode pairingCode number |})
    (fun error =>
       ret {| http_status := 500;
              http_body := BodyError "Failed to generate pairing code" (Some (messageOf error)) |}).

(** [POST /api/whatsapp/send-message], after the rate limiter *)
Definition postSendMessage (phoneNumber message : option string) : M St Net HttpResponse :=
  try_catch
    (if missing phoneNumber || missing message then
       ret {| http_status := 400;
              http_body := BodyError "Phone number and message are required" None |}
     else
       let number := default EmptyString phoneNumber in
       let text := default EmptyString message in
       let* _ := sendMessage number text in
       let* _ := storage_createBotMessage
                   {| ibm_phoneNumber := number; ibm_messageType := "sent";
                      ibm_content := text; ibm_isBot := 0 |} in
       ret {| http_status := 200; http_body := BodySuccess "Message sent successfully" |})
    (fun error =>
       ret {| http_status := 500;
              http_body := BodyError "Failed to send message" (Some (messageOf error)) |}).

(** [GET /api/leads] *)
Definition getLeadsRoute : M St Net HttpResponse :=
  try_catch
    (let* leads := (fun w => let '(r, s) := getLeads (storage w) in (r, set_storage s w)) in
     ret {| http_status := 200; http_body := BodyLeads leads |})
    (fun error =>
       ret {| http_status := 500;
              http_body := BodyError "Failed to fetch leads" (Some (messageOf error)) |}).

End ProgramRest.

(** The two routes that read through methods only the in-memory store is
    called with here. *)
Section MemRoutes.

Context {Net : Type}.

(** [GET /api/leads/:phoneNumber] *)
Definition getLeadsByPhoneNumberRoute (phoneNumber : string)
  : M MemStorage.t Net HttpResponse :=
  try_catch
    (bind (fun w => let '(r, s) := MemStorage.getLeadsByPhoneNumber phoneNumber (storage w)
                    in (r, set_storage s w))
       (fun leads => ret {| http_status := 200; http_body := BodyLeads leads |}))
    (fun error =>
       ret {| http_status := 500;
              http_body := BodyError "Failed to fetch leads" (Some (messageOf error)) |}).

(** [parseInt(req.query.limit as string) || 50]; [parsed] is what
    [parseInt] returned, [None] for NaN. *)
Definition limitOrDefault (parsed : option Z) : Z :=
  match parsed with
  | Some n => if Z.eqb n 0 then 50%Z else n
  | None => 50%Z
  end.

(** [GET /api/messages/:phoneNumber] *)
Definition getMessagesRoute (phoneNumber : string) (parsed : option Z)
  : M MemStorage.t Net HttpResponse :=
  try_catch
    (let limit := limitOrDefault parsed in
     bind (fun w => let '(r, s) := MemStorage.getBotMessages phoneNumber (Some limit) (storage w)
                    in (r, set_storage s w))
       (fun messages => ret {| http_status := 200; http_body := BodyMessages messages |}))
    (fun error =>
       ret {| http_status := 500;
              http_body := BodyError "Failed to fetch messages" (Some (messageOf error)) |}).

End MemRoutes.

(** ** A concrete environment: the in-memory store, ASCII strings and a
    socket that delivers every message into an outbox *)

Module Demo.

Import AsciiOps.

Definition uuid (n : nat) : string := "uuid-" +:+ pretty n.

Definition clock (n : nat) : Z := 1700000000000 + Z.of_nat n.

#[export] Instance memStorage : IStorage MemStorage.t := MemStorage.storage uuid clock.

(** The network is the list of delivered [(jid, text)] pairs. *)
Definition Outbox : Type := list (string * string).

Definition deliveringSock : Sock Outbox :=
  {| sock_sendMessage := fun jid text net => (Ok tt, (net ++ [(jid, text)])%list);
     sock_requestPairingCode := fun number net => (Ok "ABCD1234", net) |}.

(** A store whose [createLead] rejects and whose other methods are the
    in-memory ones. *)
Definition rejectingCreateLead : IStorage MemStorage.t :=
  Build_IStorage MemStorage.t
    (fun _ s => (Throw (Error "connection refused"), s))
    (MemStorage.getLeads)
    (MemStorage.updateLead clock)
    (MemStorage.createBotMessage uuid clock).

(** The state of a freshly started process. *)
Definition initialWorld : World MemStorage.t Outbox :=
  mkWorld MemStorage.new [] ∅ [] newWhatsAppBot [] [].

Definition textMessage (jid text : string) : WAMessage :=
  {| key := {| remoteJid := jid; fromMe := false |};
     message := Some {| conversation := Some text; extendedTextMessage := None |} |}.

Definition ada : string := "2348107516059@s.whatsapp.net".

(** The messages of one counterparty, handled one after the other. *)
Fixpoint handleAll (jid : string) (texts : list string) : M MemStorage.t Outbox unit :=
  match texts with
  | [] => ret tt
  | text :: rest =>
      bind (handleMessage (Some deliveringSock) (textMessage jid text))
           (fun _ => handleAll jid rest)
  end.

(** The world in the middle of the form (step 2), at its last step, and
    after the whole scenario. *)
Definition midFormWorld : World MemStorage.t Outbox :=
  snd (handleAll ada ["8"; "1"] initialWorld).

Definition stepFiveWorld : World MemStorage.t Outbox :=
  snd (handleAll ada ["8"; "1"; "2"; "3 weeks"; "build me an app"] initialWorld).

Definition submittedWorld : World MemStorage.t Outbox :=
  snd (handleAll ada ["8"; "1"; "2"; "3 weeks"; "build me an app"; "Ada"] initialWorld).

(** A started, connected bot. *)
Definition connectedWorld : World MemStorage.t Outbox :=
  set_whatsappBot
    {| sock := Some deliveringSock; qrCodeGenerated := false; isConnected := true |}
    initialWorld.

(** A 'close' event with a status code. *)
Definition closeEvent (code : Z) : ConnectionUpdate :=
  {| connection := Some "close";
     lastDisconnect := Some {| error := Some {| output := Some {| statusCode := Some code |} |} |};
     qr := None |}.

End Demo.

Import Demo.


(** ** Vocabulary of the statements *)

(** The log entries [handleMessage] writes for an inbound event and for
    its reply. *)
Definition receivedEntry (msg : WAMessage) : InsertBotMessage :=
  {| ibm_phoneNumber := remoteJid (key msg); ibm_messageType := "received";
     ibm_content := extractText msg; ibm_isBot := 0 |}.

Definition sentEntry (phoneNumber text : string) : InsertBotMessage :=
  {| ibm_phoneNumber := phoneNumber; ibm_messageType := "sent";
     ibm_content := text; ibm_isBot := 1 |}.

(** The lead that step 5 submits for a draft. *)
Definition leadOfDraft (phoneNumber : string) (d : LeadData) : InsertLead :=
  {| il_phoneNumber := phoneNumber;
     il_name := ld_name d;
     il_projectType := ld_projectType d;
     il_budget := ld_budget d;
     il_timeline := ld_timeline d;
     il_description := ld_description d;
     il_status := str "new" |}.

(** The calls recorded after [before]. *)
Definition newEvents (before after : list Event) : list Event :=
  drop (List.length before) after.

(** The replies handed to the socket, the leads submitted and the log
    entries written, among some calls. *)
Definition sends (evs : list Event) : list (string * string) :=
  omap (fun ev => match ev with EvSendMessage jid text => Some (jid, text) | _ => None end) evs.

Definition leadsCreated (evs : list Event) : list InsertLead :=
  omap (fun ev => match ev with EvCreateLead l => Some l | _ => None end) evs.

Definition logged (evs : list Event) : list InsertBotMessage :=
  omap (fun ev => match ev with EvCreateBotMessage m => Some m | _ => None end) evs.

Definition pairingRequests (evs : list Event) : list string :=
  omap (fun ev => match ev with EvRequestPairingCode n => Some n | _ => None end) evs.

(** Every label of the [switch] of [handleMainMenu], and every substring
    its [default] branch looks for. *)
Definition registeredAliases : list string :=
  casesCustomDevelopment ++ casesProducts ++ casesAI ++ casesWebDev ++ casesBlockchain
  ++ casesVendra ++ casesPortfolio ++ casesQuote ++ casesContact ++ casesMainMenu.

Definition fallbackMarkers : list string :=
  markersQuote ++ markersAI ++ markersWebDev ++ markersBlockchain ++ markersVendra
  ++ markersPortfolio ++ markersContact ++ markersProducts.

(** The session object [handleMessage] works on for a number: the one the
    map holds, or a fresh one. *)
Definition sessionOf {St Net} (w : World St Net) (phoneNumber : string) : option BotState :=
  match userStates w !! phoneNumber with
  | Some l => heap w !! l
  | None => Some freshState
  end.

(** The body the dashboard sends: [{ status }]. *)
Definition statusOnly (status : string) : gmap string Json := {[ "status" := JString status ]}.

(** What the store holds after the scenario. *)
Definition adaLead : Lead :=
  {| lead_id := val (str "uuid-11");
     lead_phoneNumber := val (str ada);
     lead_name := val (str "Ada");
     lead_projectType := val (str "1");
     lead_budget := val (str "₦500K - ₦1M");
     lead_timeline := val (str "3 weeks");
     lead_description := val (str "build me an app");
     lead_status := val (str "new");
     lead_createdAt := date 1700000000011;
     lead_updatedAt := date 1700000000012;
     lead_other := ∅ |}.

(** The end of [handleMessage], from [userStates.set] on. *)
Definition finishMessage {St} {storageImpl : IStorage St} {Net}
    (sock : option (Sock Net)) (phoneNumber : string) (userState : loc)
    (responseMessage : string) : M St Net unit :=
  bind (userStates_set phoneNumber userState)
    (fun _ =>
       if negb (String.eqb responseMessage EmptyString) then
         bind (sendMessage_on sock phoneNumber responseMessage)
           (fun _ =>
              bind (storage_createBotMessage (sentEntry phoneNumber responseMessage))
                (fun _ => ret tt))
       else ret tt).

(** Run from [w], the computation [m] records its calls after those of
    [w], and every lead it submits satisfies [Q]. *)
Definition submitsOnly {St Net A} (Q : InsertLead → Prop) (m : M St Net A) (w : World St Net) : Prop :=
  ∀ r w', m w = (r, w') →
    ∃ evs : list Event, trace w' = (trace w ++ evs)%list ∧ Forall Q (leadsCreated evs).

(** ** Vocabulary of the further statements *)

(** Newest first: no message is followed by a newer one. *)
Definition notOlder (a b : BotMessage) : Prop := (bm_timestamp b ≤ bm_timestamp a)%Z.

(** The stored messages of a number, in the order they were stored. *)
Definition messagesOf (phoneNumber : string) (st : MemStorage.t) : list BotMessage :=
  List.filter (fun message => String.eqb (bm_phoneNumber message) phoneNumber)
    (MemStorage.map_values (MemStorage.botMessages st)).

(** The nine informational replies of the menu machine; the tenth reply,
    the quote prompt, is the one that opens the lead form. *)
Definition informationalTexts : list string :=
  [ getCustomDevelopmentInfo_text; getProductsInfo; getAIInfo; getWebDevInfo;
    getBlockchainInfo; getVendraInfo; getPortfolioInfo; getContactInfo; getMainMenu ].

(** The reply of each group of labels of the [switch] that only informs. *)
Definition menuReplies : list (list string * string) :=
  [ (casesCustomDevelopment, getCustomDevelopmentInfo_text); (casesProducts, getProductsInfo);
    (casesAI, getAIInfo); (casesWebDev, getWebDevInfo); (casesBlockchain, getBlockchainInfo);
    (casesVendra, getVendraInfo); (casesPortfolio, getPortfolioInfo);
    (casesContact, getContactInfo); (casesMainMenu, getMainMenu) ].

(** The session of a number that has just asked for a quote. *)
Definition inLeadForm (s : BotState) : BotState :=
  set_leadFormStep 1 (set_currentMenu "lead_form" s).

(** The answers a draft must hold before the question of a step is put. *)
Definition draftReady (step : nat) (d : LeadData) : Prop :=
  ((1 < step)%nat → ld_projectType d ≠ undefined)
  ∧ ((2 < step)%nat → ld_budget d ≠ undefined)
  ∧ ((3 < step)%nat → ld_timeline d ≠ undefined)
  ∧ ((4 < step)%nat → ld_description d ≠ undefined).

(** The session objects the engine produces: at rest in the main menu
    with an empty draft, or in the lead form at one of its five steps with
    the earlier answers in the draft. *)
Definition wfSession (s : BotState) : Prop :=
  (currentMenu s = "main" ∧ leadFormStep s = 0 ∧ leadData s = emptyLeadData)
  ∨ (currentMenu s = "lead_form" ∧ (1 ≤ leadFormStep s ≤ 5)%nat
     ∧ draftReady (leadFormStep s) (leadData s)).

(** Every session object is of that kind, and the map holds addresses of
    session objects only, a different one for each number. *)
Definition wfWorld {St Net} (w : World St Net) : Prop :=
  Forall wfSession (heap w)
  ∧ (∀ phoneNumber l, userStates w !! phoneNumber = Some l → (l < List.length (heap w))%nat)
  ∧ (∀ p1 p2 l, userStates w !! p1 = Some l → userStates w !! p2 = Some l → p1 = p2).

(** A lead with all five answers. *)
Definition complete (il : InsertLead) : Prop :=
  il_name il ≠ undefined ∧ il_projectType il ≠ undefined ∧ il_budget il ≠ undefined
  ∧ il_timeline il ≠ undefined ∧ il_description il ≠ undefined.

(** What the budget and timeline steps store for a trimmed input. *)
Definition budgetOf (input : string) : value :=
  Js.or (getProperty budgetOptions input) (str input).

Definition timelineOf (input : string) : value :=
  Js.or (getProperty timelineOptions input) (str input).

(** Batches handled one after the other by [handleMessages]. *)
Fixpoint handleBatches {ops : StringOps} {St} {storageImpl : IStorage St} {Net}
    (batches : list MessagesUpsert) : M St Net unit :=
  match batches with
  | [] => ret tt
  | m :: rest => bind (handleMessages m) (fun _ => handleBatches rest)
  end.

(** A batch with one text message of a counterparty. *)
Definition textBatch (jid text : string) : MessagesUpsert :=
  {| messages := [textMessage jid text] |}.

(** Connection updates handled one after the other. *)
Fixpoint handleUpdates {St Net} (reasons : DisconnectReasonT) (updates : list ConnectionUpdate)
  : M St Net unit :=
  match updates with
  | [] => ret tt
  | u :: rest => bind (handleConnectionUpdate reasons u) (fun _ => handleUpdates reasons rest)
  end.

(** The QR code an update offers: [qr], when it is there and not empty. *)
Definition offersQr (update : ConnectionUpdate) : option string :=
  match qr update with
  | Some code => if String.eqb code EmptyString then None else Some code
  | None => None
  end.

(** The updates after which a QR code is printed anew: the connection is
    open, or closed because the device was logged out. *)
Definition rearms (reasons : DisconnectReasonT) (update : ConnectionUpdate) : bool :=
  if isStatus (connection update) "close"
  then isReason (statusCodeOf update) (loggedOut reasons)
  else isStatus (connection update) "open".

(** The QR codes printed among some calls. *)
Definition qrPrinted (evs : list Event) : list string :=
  omap (fun ev => match ev with EvQrGenerate code => Some code | _ => None end) evs.

(** *** The session machine that the handlers implement *)

(** A normalised text opens the lead form when it is one of the quote
    labels, or is no label at all and contains a quote marker. *)
Definition entersForm (input : string) : bool :=
  isCase input casesQuote
  || (negb (isCase input registeredAliases) && includesAny input markersQuote).

(** The draft after the answer to the question of a step. *)
Definition answered (step : nat) (input : string) (d : LeadData) : LeadData :=
  match step with
  | 1 => set_ld_projectType (str input) d
  | 2 => set_ld_budget (budgetOf input) d
  | 3 => set_ld_timeline (timelineOf input) d
  | 4 => set_ld_description (str input) d
  | _ => set_ld_name (str input) d
  end.

(** The question that follows the answer to a step. *)
Definition promptAfter (step : nat) : string :=
  match step with
  | 1 => budgetPrompt
  | 2 => timelinePrompt
  | 3 => descriptionPrompt
  | _ => namePrompt
  end.

Section Machine.

Context {ops : StringOps}.

(** Whether a text is the last answer of the form. *)
Definition completesForm (text : string) (s : BotState) : bool :=
  String.eqb (currentMenu s) "lead_form"
  && negb (isCase (toLowerCase (trim text)) exitKeywords)
  && Nat.eqb (leadFormStep s) 5.

(** The session after a text; [accepted] tells whether the store took the
    lead, and matters for the last answer only. *)
Definition sessionAfter (accepted : bool) (text : string) (s : BotState) : BotState :=
  if String.eqb (currentMenu s) "lead_form" then
    if isCase (toLowerCase (trim text)) exitKeywords then freshState
    else
      match leadFormStep s with
      | 1 | 2 | 3 | 4 =>
          set_leadFormStep (S (leadFormStep s))
            (set_leadData (answered (leadFormStep s) (trim text) (leadData s)) s)
      | 5 =>
          if accepted then freshState
          else set_leadData (answered 5 (trim text) (leadData s)) s
      | _ => set_leadFormStep 0 (set_currentMenu "main" s)
      end
  else if entersForm (toLowerCase (trim text)) then inLeadForm s
  else s.

(** The leads a text makes the engine submit. *)
Definition leadSubmitted (phoneNumber text : string) (s : BotState) : list InsertLead :=
  if completesForm text s
  then [leadOfDraft phoneNumber (answered 5 (trim text) (leadData s))]
  else [].

(** The event of a batch that reaches the handlers: the first one, unless
    it is flagged [fromMe] or has no text. *)
Definition incoming (m : MessagesUpsert) : option WAMessage :=
  match head (messages m) with
  | Some msg =>
      if fromMe (key msg) || String.eqb (extractText msg) EmptyString then None else Some msg
  | None => None
  end.

(** The sessions of all numbers after a batch, and after several, when
    the store takes every lead. *)
Definition turn (m : MessagesUpsert) (sessions : string → BotState) : string → BotState :=
  match incoming m with
  | Some msg =>
      <[remoteJid (key msg) :=
          sessionAfter true (extractText msg) (sessions (remoteJid (key msg)))]> sessions
  | None => sessions
  end.

Fixpoint sessionsAfter (batches : list MessagesUpsert) (sessions : string → BotState)
  : string → BotState :=
  match batches with
  | [] => sessions
  | m :: rest => sessionsAfter rest (turn m sessions)
  end.

(** The leads the batches make the engine submit, in order. *)
Fixpoint leadsOf (batches : list MessagesUpsert) (sessions : string → BotState)
  : list InsertLead :=
  match batches with
  | [] => []
  | m :: rest =>
      match incoming m with
      | Some msg =>
          leadSubmitted (remoteJid (key msg)) (extractText msg) (sessions (remoteJid (key msg)))
      | None => []
      end ++ leadsOf rest (turn m sessions)
  end.

(** Whether the store, in state [st], takes the lead that a text
    completes. *)
Definition takesLead {St} {storageImpl : IStorage St}
    (st : St) (phoneNumber text : string) (s : BotState) : bool :=
  match (createLead (leadOfDraft phoneNumber (answered 5 (trim text) (leadData s))) st).1 with
  | Ok _ => true
  | Throw _ => false
  end.

End Machine.

(** The calls that follow [userStates.set] when a reply is sent over a
    network in state [net]: none without a socket (the call on it throws
    first), the send alone when the socket rejects it, the send and the log
    entry of the reply when the socket takes it. *)
Definition replyEvents {Net} (sock0 : option (Sock Net)) (phoneNumber reply : string) (net : Net)
  : list Event :=
  match sock0 with
  | None => []
  | Some sk =>
      match (sock_sendMessage sk phoneNumber reply net).1 with
      | Ok _ => [EvSendMessage phoneNumber reply;
                 EvCreateBotMessage (sentEntry phoneNumber reply)]
      | Throw _ => [EvSendMessage phoneNumber reply]
      end
  end.

(** A store that settles every [createBotMessage] and [createLead] with a
    row, as the in-memory one does. *)
Definition neverRejects {St} (storageImpl : IStorage St) : Prop :=
  (∀ m st, ∃ bm st', createBotMessage m st = (Ok bm, st'))
  ∧ (∀ il st, ∃ lead st', createLead il st = (Ok lead, st')).

(** The session of every number, as a function. *)
Definition sessionsOf {St Net} (w : World St Net) : string → BotState :=
  fun phoneNumber => default freshState (sessionOf w phoneNumber).

(** * Properties *)


(** ** The lead-form scenario *)

(** C1: driving a fresh session with "8", "1", "2", "3 weeks", "build me
    an app", "Ada" produces the quote prompt, the budget, timeline,
    description and name prompts and a final confirmation; exactly one lead
    is stored, with status 'new' and the project type kept as "1", and the
    session is back at main / step 0 / empty draft.  The confirmation is
    rendered from the draft after it has been emptied: it reads "Thank you
    undefined!" and echoes "undefined" for project, budget and timeline, so
    it does not contain "Ada". *)
Theorem lead_form_scenario_confirmation_is_rendered_after_reset :
  let w := snd (handleAll ada ["8"; "1"; "2"; "3 weeks"; "build me an app"; "Ada"]
                  initialWorld) in
  network w =
    [ (ada, getQuoteInfo_text); (ada, budgetPrompt); (ada, timelinePrompt);
      (ada, descriptionPrompt); (ada, namePrompt); (ada, summary emptyLeadData) ]
  ∧ includes (summary emptyLeadData) "Ada" = false
  ∧ includes (summary emptyLeadData) "Thank you undefined!" = true
  ∧ includes (summary emptyLeadData) "• Project: undefined" = true
  ∧ includes (summary emptyLeadData) "• Budget: undefined" = true
  ∧ includes (summary emptyLeadData) "• Timeline: undefined" = true
  ∧ MemStorage.map_values (MemStorage.leads (storage w)) = [adaLead]
  ∧ userStates w !! ada = Some 0
  ∧ heap w = [freshState].
Proof. vm_compute. repeat split; reflexivity. Qed.

(** ** The budget and timeline steps *)

(** C4: at step 2 the input "3" stores the budget "₦1M - ₦3M" and at step
    3 the input "2" stores the timeline "1-3 months", each advancing the
    step by one.  An input outside the table is meant to be stored as
    typed, but the table is an object literal: "constructor" finds the
    member inherited from [Object.prototype], which is truthy, so the
    budget (and likewise the timeline) becomes that function and not the
    text typed. *)
Theorem budget_step_stores_inherited_member_not_input :
  let budget3 := snd (handleAll ada ["8"; "1"; "3"] initialWorld) in
  let timeline2 := snd (handleAll ada ["8"; "1"; "3"; "2"] initialWorld) in
  let budgetC := snd (handleAll ada ["8"; "1"; "constructor"] initialWorld) in
  let timelineC := snd (handleAll ada ["8"; "1"; "3"; "constructor"] initialWorld) in
  (ld_budget ∘ leadData <$> heap budget3 !! 0 = Some (str "₦1M - ₦3M")
   ∧ leadFormStep <$> heap budget3 !! 0 = Some 3)
  ∧ (ld_timeline ∘ leadData <$> heap timeline2 !! 0 = Some (str "1-3 months")
     ∧ leadFormStep <$> heap timeline2 !! 0 = Some 4)
  ∧ (ld_budget ∘ leadData <$> heap budgetC !! 0 = Some (inherited "constructor")
     ∧ ld_budget ∘ leadData <$> heap budgetC !! 0 ≠ Some (str "constructor")
     ∧ leadFormStep <$> heap budgetC !! 0 = Some 3)
  ∧ (ld_timeline ∘ leadData <$> heap timelineC !! 0 = Some (inherited "constructor")
     ∧ ld_timeline ∘ leadData <$> heap timelineC !! 0 ≠ Some (str "constructor")
     ∧ leadFormStep <$> heap timelineC !! 0 = Some 4).
Proof. vm_compute. repeat split; try reflexivity; intros [=]. Qed.


(** ** General properties of the engine and of the connection manager *)

Section Properties.

Context {ops : StringOps}.
Context {St : Type} {storageImpl : IStorage St}.
Context {Net : Type}.

Implicit Types (w : World St Net) (msg : WAMessage) (l : loc) (s : BotState).

(** *** How the primitives run *)

Ltac wsimpl :=
  cbn [heap storage network userStates whatsappBot timers trace
       set_storage set_network set_userStates set_heap set_whatsappBot set_timers set_trace
       sock qrCodeGenerated isConnected set_sock set_qrCodeGenerated set_isConnected
       fst snd].

Ltac wsimpl_in H :=
  cbn [heap storage network userStates whatsappBot timers trace
       set_storage set_network set_userStates set_heap set_whatsappBot set_timers set_trace
       fst snd] in H.

Lemma isCase_elem (x : string) (labels : list string) : isCase x labels = true ↔ x ∈ labels.
Proof.
  unfold isCase. rewrite existsb_exists. split.
  - intros (y & Hin & Heq). apply String.eqb_eq in Heq. subst. by apply list_elem_of_In.
  - intros Hin. exists x. split; [by apply list_elem_of_In | apply String.eqb_refl].
Qed.

Lemma bind_ok {A B} (m : M St Net A) (k : A → M St Net B) w a w' :
  m w = (Ok a, w') → bind m k w = k a w'.
Proof. intros H. unfold bind. by rewrite H. Qed.

Lemma bind_throw {A B} (m : M St Net A) (k : A → M St Net B) w e w' :
  m w = (Throw e, w') → bind m k w = (Throw e, w').
Proof. intros H. unfold bind. by rewrite H. Qed.

Lemma emit_run ev w : emit ev w = (Ok tt, set_trace (trace w ++ [ev]) w).
Proof. reflexivity. Qed.

Lemma storage_createBotMessage_run m w r st' :
  createBotMessage m (storage w) = (r, st') →
  storage_createBotMessage m w
  = (r, set_storage st' (set_trace (trace w ++ [EvCreateBotMessage m]) w)).
Proof.
  intros H. unfold storage_createBotMessage. erewrite bind_ok by apply emit_run.
  wsimpl. by rewrite H.
Qed.

Lemma storage_createLead_run il w r st' :
  createLead il (storage w) = (r, st') →
  storage_createLead il w = (r, set_storage st' (set_trace (trace w ++ [EvCreateLead il]) w)).
Proof.
  intros H. unfold storage_createLead. erewrite bind_ok by apply emit_run.
  wsimpl. by rewrite H.
Qed.

Lemma sendMessage_on_run (sk : Sock Net) jid text w r n :
  sock_sendMessage sk jid text (network w) = (r, n) →
  sendMessage_on (Some sk) jid text w
  = (r, set_network n (set_trace (trace w ++ [EvSendMessage jid text]) w)).
Proof.
  intros H. unfold sendMessage_on. erewrite bind_ok by apply emit_run.
  wsimpl. by rewrite H.
Qed.

Lemma userStates_get_run p w :
  userStates_get p w = (Ok (userStates w !! p), set_trace (trace w ++ [EvSessionGet p]) w).
Proof. reflexivity. Qed.

Lemma userStates_set_run p l w :
  userStates_set p l w
  = (Ok tt, set_userStates (<[p := l]> (userStates w))
              (set_trace (trace w ++ [EvSessionSet p]) w)).
Proof. reflexivity. Qed.

Lemma deref_run l w s : heap w !! l = Some s → deref l w = (Ok s, w).
Proof. intros H. unfold deref. by rewrite H. Qed.

Lemma assign_run l f w s :
  heap w !! l = Some s → assign l f w = (Ok tt, set_heap (<[l := f s]> (heap w)) w).
Proof. intros H. unfold assign. by rewrite H. Qed.

Lemma bind_assign {B} l f (k : unit → M St Net B) w s :
  heap w !! l = Some s →
  bind (assign l f) k w = k tt (set_heap (<[l := f s]> (heap w)) w).
Proof. intros H. apply bind_ok. by apply assign_run. Qed.

Lemma lookup_written l (x : BotState) (h : list BotState) s :
  h !! l = Some s → <[l := x]> h !! l = Some x.
Proof. intros H. apply list_lookup_insert_eq. by eapply lookup_lt_Some. Qed.

Lemma newEvents_app (tr evs : list Event) : newEvents tr (tr ++ evs) = evs.
Proof. unfold newEvents. apply drop_app_length. Qed.

Lemma sends_app (a b : list Event) : sends (a ++ b) = (sends a ++ sends b)%list.
Proof. apply omap_app. Qed.

Lemma leadsCreated_app (a b : list Event) :
  leadsCreated (a ++ b) = (leadsCreated a ++ leadsCreated b)%list.
Proof. apply omap_app. Qed.

Lemma logged_app (a b : list Event) : logged (a ++ b) = (logged a ++ logged b)%list.
Proof. apply omap_app. Qed.

(** *** The two handlers on their own *)

Lemma handleLeadForm_exit phoneNumber text l w s :
  heap w !! l = Some s →
  isCase (toLowerCase (trim text)) exitKeywords = true →
  handleLeadForm phoneNumber text l w
  = (Ok getMainMenu, set_heap (<[l := freshState]> (heap w)) w).
Proof.
  intros Hl Hexit. unfold handleLeadForm. rewrite Hexit.
  erewrite bind_assign by eassumption.
  erewrite bind_assign by (wsimpl; eapply lookup_written, Hl).
  erewrite bind_assign by (wsimpl; eapply lookup_written, lookup_written, Hl).
  wsimpl. rewrite !list_insert_insert_eq. reflexivity.
Qed.

(** *** The budget and timeline steps for an arbitrary input *)

Lemma handleLeadForm_budget phoneNumber text l w s :
  heap w !! l = Some s →
  leadFormStep s = 2 →
  isCase (toLowerCase (trim text)) exitKeywords = false →
  handleLeadForm phoneNumber text l w
  = (Ok timelinePrompt,
     set_heap
       (<[l := set_leadFormStep 3
                 (write_leadData
                    (set_ld_budget (Js.or (getProperty budgetOptions (trim text))
                                      (str (trim text)))) s)]> (heap w)) w).
Proof.
  intros Hl Hstep Hexit. unfold handleLeadForm. rewrite Hexit.
  erewrite bind_ok by (by apply deref_run). rewrite Hstep.
  erewrite bind_assign by eassumption.
  erewrite bind_assign by (wsimpl; eapply lookup_written, Hl).
  wsimpl. rewrite list_insert_insert_eq. reflexivity.
Qed.

Lemma handleLeadForm_timeline phoneNumber text l w s :
  heap w !! l = Some s →
  leadFormStep s = 3 →
  isCase (toLowerCase (trim text)) exitKeywords = false →
  handleLeadForm phoneNumber text l w
  = (Ok descriptionPrompt,
     set_heap
       (<[l := set_leadFormStep 4
                 (write_leadData
                    (set_ld_timeline (Js.or (getProperty timelineOptions (trim text))
                                        (str (trim text)))) s)]> (heap w)) w).
Proof.
  intros Hl Hstep Hexit. unfold handleLeadForm. rewrite Hexit.
  erewrite bind_ok by (by apply deref_run). rewrite Hstep.
  erewrite bind_assign by eassumption.
  erewrite bind_assign by (wsimpl; eapply lookup_written, Hl).
  wsimpl. rewrite list_insert_insert_eq. reflexivity.
Qed.

(** The stored value is the typed text exactly when the text is neither a
    key of the table nor the name of a member of [Object.prototype]. *)
Lemma table_miss_is_verbatim (table : list (string * string)) (input : string) :
  ownProperty table input = None →
  existsb (String.eqb input) objectPrototypeKeys = false →
  Js.or (getProperty table input) (str input) = str input.
Proof. intros Hown Hproto. unfold getProperty. by rewrite Hown, Hproto. Qed.

Lemma table_inherited_is_not_verbatim (table : list (string * string)) (input : string) :
  ownProperty table input = None →
  existsb (String.eqb input) objectPrototypeKeys = true →
  Js.or (getProperty table input) (str input) = inherited input.
Proof. intros Hown Hproto. unfold getProperty. by rewrite Hown, Hproto. Qed.

(** *** An event without text *)

(** C7: an event whose extracted text is empty is dropped: the call
    returns at once and leaves the whole world as it was, so nothing is
    written to the store, nothing is sent, the session map is neither read
    nor written, and no call of any kind is recorded. *)
Theorem empty_text_is_noop sock msg w :
  extractText msg = EmptyString →
  handleMessage sock msg w = (Ok tt, w).
Proof.
  intros Htext. unfold handleMessage. rewrite Htext. reflexivity.
Qed.

(** *** [handleMessage] around its handler *)

Lemma nonempty_eqb (text : string) : text ≠ EmptyString → String.eqb text EmptyString = false.
Proof. intros H. by apply String.eqb_neq. Qed.

Lemma handleMessage_found sock0 msg w l s bm st1 :
  extractText msg ≠ EmptyString →
  createBotMessage (receivedEntry msg) (storage w) = (Ok bm, st1) →
  userStates w !! remoteJid (key msg) = Some l →
  heap w !! l = Some s →
  handleMessage sock0 msg w
  = bind (if String.eqb (currentMenu s) "lead_form"
          then handleLeadForm (remoteJid (key msg)) (extractText msg) l
          else handleMainMenu (remoteJid (key msg)) (extractText msg) l)
      (finishMessage sock0 (remoteJid (key msg)) l)
      (set_trace (trace w ++ [EvCreateBotMessage (receivedEntry msg);
                              EvSessionGet (remoteJid (key msg))])
         (set_storage st1 w)).
Proof.
  intros Hne Hlog Hus Hl. unfold handleMessage. rewrite (nonempty_eqb _ Hne).
  erewrite bind_ok by (apply storage_createBotMessage_run, Hlog).
  erewrite bind_ok by apply userStates_get_run. wsimpl. rewrite Hus.
  erewrite bind_ok by reflexivity.
  erewrite bind_ok by (apply deref_run; wsimpl; apply Hl).
  wsimpl. rewrite <- app_assoc. reflexivity.
Qed.

Lemma handleMessage_fresh sock0 msg w bm st1 :
  extractText msg ≠ EmptyString →
  createBotMessage (receivedEntry msg) (storage w) = (Ok bm, st1) →
  userStates w !! remoteJid (key msg) = None →
  handleMessage sock0 msg w
  = bind (handleMainMenu (remoteJid (key msg)) (extractText msg) (List.length (heap w)))
      (finishMessage sock0 (remoteJid (key msg)) (List.length (heap w)))
      (set_heap (heap w ++ [freshState])
         (set_trace (trace w ++ [EvCreateBotMessage (receivedEntry msg);
                                 EvSessionGet (remoteJid (key msg))])
            (set_storage st1 w))).
Proof.
  intros Hne Hlog Hus. unfold handleMessage. rewrite (nonempty_eqb _ Hne).
  erewrite bind_ok by (apply storage_createBotMessage_run, Hlog).
  erewrite bind_ok by apply userStates_get_run. wsimpl. rewrite Hus.
  erewrite bind_ok by reflexivity.
  erewrite bind_ok by (apply deref_run; wsimpl; by apply list_lookup_middle).
  wsimpl. rewrite <- app_assoc. reflexivity.
Qed.

Lemma finishMessage_run (sk : Sock Net) p l text w :
  text ≠ EmptyString →
  ∃ r w' (tail : list Event),
    finishMessage (Some sk) p l text w = (r, w')
    ∧ heap w' = heap w
    ∧ userStates w' = <[p := l]> (userStates w)
    ∧ trace w' = (trace w ++ [EvSessionSet p; EvSendMessage p text] ++ tail)%list
    ∧ sends tail = [] ∧ leadsCreated tail = [].
Proof.
  intros Hne. unfold finishMessage.
  erewrite bind_ok by apply userStates_set_run.
  rewrite (nonempty_eqb _ Hne). cbn [negb].
  match goal with |- context [bind (sendMessage_on (Some sk) p text) _ ?w1] =>
    destruct (sock_sendMessage sk p text (network w1)) as [[[]|e] n] eqn:Hsend end.
  - erewrite bind_ok by (apply sendMessage_on_run, Hsend).
    match goal with |- context [bind (storage_createBotMessage ?m) _ ?w2] =>
      destruct (createBotMessage m (storage w2)) as [[bm|e] st2] eqn:Hlog end.
    + erewrite bind_ok by (apply storage_createBotMessage_run, Hlog).
      eexists _, _, [EvCreateBotMessage (sentEntry p text)]. split; [reflexivity|].
      wsimpl. rewrite <- !app_assoc. done.
    + erewrite bind_throw by (apply storage_createBotMessage_run, Hlog).
      eexists _, _, [EvCreateBotMessage (sentEntry p text)]. split; [reflexivity|].
      wsimpl. rewrite <- !app_assoc. done.
  - erewrite bind_throw by (apply sendMessage_on_run, Hsend).
    eexists _, _, []. split; [reflexivity|]. wsimpl. rewrite <- !app_assoc. done.
Qed.

(** *** The exit keywords *)

(** For any store: once it has accepted the inbound log entry, an exit
    keyword resets the session and the root menu is the reply. *)
Lemma exit_keyword_resets_any_store (sk : Sock Net) msg w l s bm st1 :
  userStates w !! remoteJid (key msg) = Some l →
  heap w !! l = Some s →
  currentMenu s = "lead_form" →
  toLowerCase (trim (extractText msg)) ∈ exitKeywords →
  createBotMessage (receivedEntry msg) (storage w) = (Ok bm, st1) →
  handleLeadForm (remoteJid (key msg)) (extractText msg) l w
  = (Ok getMainMenu, set_heap (<[l := freshState]> (heap w)) w)
  ∧ ∃ r w',
      handleMessage (Some sk) msg w = (r, w')
      ∧ userStates w' !! remoteJid (key msg) = Some l
      ∧ heap w' = <[l := freshState]> (heap w)
      ∧ sessionOf w' (remoteJid (key msg)) = Some freshState
      ∧ sends (newEvents (trace w) (trace w')) = [(remoteJid (key msg), getMainMenu)]
      ∧ leadsCreated (newEvents (trace w) (trace w')) = [].
Proof.
  intros Hus Hl Hmenu Hexit Hlog. apply isCase_elem in Hexit.
  assert (Hne : extractText msg ≠ EmptyString).
  { intros E. rewrite E, trim_empty, toLowerCase_empty in Hexit. discriminate. }
  split; [by eapply handleLeadForm_exit|].
  erewrite handleMessage_found by eassumption.
  rewrite Hmenu. cbn [String.eqb Ascii.eqb Bool.eqb].
  erewrite bind_ok by (eapply handleLeadForm_exit; [wsimpl; apply Hl | apply Hexit]).
  edestruct (finishMessage_run sk (remoteJid (key msg)) l getMainMenu)
    as (r & w' & tail & Hrun & Hheap & Hmap & Htrace & Hsends & Hleads);
    [done | rewrite Hrun].
  exists r, w'. split; [reflexivity|].
  rewrite Hheap, Hmap, Htrace. wsimpl.
  assert (Hsession : <[remoteJid (key msg) := l]> (userStates w) !! remoteJid (key msg) = Some l)
    by apply lookup_insert_eq.
  repeat split.
  - exact Hsession.
  - unfold sessionOf. rewrite Hmap, Hheap. wsimpl. rewrite Hsession.
    eapply lookup_written, Hl.
  - rewrite <- !app_assoc, newEvents_app, !sends_app, Hsends. reflexivity.
  - rewrite <- !app_assoc, newEvents_app, !leadsCreated_app, Hleads. reflexivity.
Qed.

(** *** Unrecognised input in the main menu *)

Lemma isCase_app (x : string) (a b : list string) :
  isCase x (a ++ b) = isCase x a || isCase x b.
Proof. apply existsb_app. Qed.

Lemma includesAny_app (x : string) (a b : list string) :
  includesAny x (a ++ b) = includesAny x a || includesAny x b.
Proof. apply existsb_app. Qed.

Lemma handleMainMenu_default phoneNumber text l w :
  isCase (toLowerCase (trim text)) registeredAliases = false →
  includesAny (toLowerCase (trim text)) fallbackMarkers = false →
  handleMainMenu phoneNumber text l w = (Ok getMainMenu, w).
Proof.
  unfold registeredAliases, fallbackMarkers.
  rewrite !isCase_app, !includesAny_app, !orb_false_iff.
  intros (H1 & H2 & H3 & H4 & H5 & H6 & H7 & H8 & H9 & H10)
         (G1 & G2 & G3 & G4 & G5 & G6 & G7 & G8).
  unfold handleMainMenu.
  rewrite H1, H2, H3, H4, H5, H6, H7, H8, H9, H10, G1, G2, G3, G4, G5, G6, G7, G8.
  reflexivity.
Qed.

Lemma getMainMenu_nonempty : getMainMenu ≠ EmptyString.
Proof. discriminate. Qed.

(** For any store: once it has accepted the inbound log entry, a
    non-empty text that matches nothing gets the root menu. *)
Lemma unrecognised_text_any_store (sk : Sock Net) msg w s bm st1 :
  extractText msg ≠ EmptyString →
  sessionOf w (remoteJid (key msg)) = Some s →
  currentMenu s = "main" →
  isCase (toLowerCase (trim (extractText msg))) registeredAliases = false →
  includesAny (toLowerCase (trim (extractText msg))) fallbackMarkers = false →
  createBotMessage (receivedEntry msg) (storage w) = (Ok bm, st1) →
  (∀ l, handleMainMenu (remoteJid (key msg)) (extractText msg) l w = (Ok getMainMenu, w))
  ∧ ∃ r w',
      handleMessage (Some sk) msg w = (r, w')
      ∧ sessionOf w' (remoteJid (key msg)) = Some s
      ∧ sends (newEvents (trace w) (trace w')) = [(remoteJid (key msg), getMainMenu)]
      ∧ leadsCreated (newEvents (trace w) (trace w')) = [].
Proof.
  intros Hne Hsession Hmenu Halias Hmarker Hlog.
  split; [intros l; by apply handleMainMenu_default|].
  unfold sessionOf in Hsession.
  destruct (userStates w !! remoteJid (key msg)) as [l|] eqn:Hus.
  - erewrite handleMessage_found by eassumption.
    rewrite Hmenu. cbn [String.eqb Ascii.eqb Bool.eqb].
    erewrite bind_ok by (by apply handleMainMenu_default).
    edestruct (finishMessage_run sk (remoteJid (key msg)) l getMainMenu)
      as (r & w' & tail & Hrun & Hheap & Hmap & Htrace & Hsends & Hleads);
      [apply getMainMenu_nonempty | rewrite Hrun].
    exists r, w'. split; [reflexivity|].
    rewrite Htrace. wsimpl. repeat split.
    + unfold sessionOf. rewrite Hmap, Hheap. wsimpl. by rewrite lookup_insert_eq.
    + rewrite <- !app_assoc, newEvents_app, !sends_app, Hsends. reflexivity.
    + rewrite <- !app_assoc, newEvents_app, !leadsCreated_app, Hleads. reflexivity.
  - injection Hsession as <-.
    erewrite handleMessage_fresh by eassumption.
    erewrite bind_ok by (by apply handleMainMenu_default).
    edestruct (finishMessage_run sk (remoteJid (key msg)) (List.length (heap w)) getMainMenu)
      as (r & w' & tail & Hrun & Hheap & Hmap & Htrace & Hsends & Hleads);
      [apply getMainMenu_nonempty | rewrite Hrun].
    exists r, w'. split; [reflexivity|].
    rewrite Htrace. wsimpl. repeat split.
    + unfold sessionOf. rewrite Hmap, Hheap. wsimpl. rewrite lookup_insert_eq.
      by apply list_lookup_middle.
    + rewrite <- !app_assoc, newEvents_app, !sends_app, Hsends. reflexivity.
    + rewrite <- !app_assoc, newEvents_app, !leadsCreated_app, Hleads. reflexivity.
Qed.

(** *** A rejected [createLead] *)

(** C10: when the session of a number is in the map at step 5 of the lead
    form and the store rejects [createLead], the rejection leaves
    [handleLeadForm] and [handleMessage] as it is: nothing is handed to the
    socket and no reply is logged (the only log entry is the inbound one).
    The name had already been written into the session object, which the
    map holds, and the reset is never reached: the session stays at
    lead_form / step 5 with the name in the draft and the other fields
    untouched, so the next text from the same number is handled at step 5
    again.  The caller, [handleMessages], catches the rejection and logs
    it. *)
Theorem rejected_createLead_leaves_session_at_step_five
    (sock0 : option (Sock Net)) msg w l s bm st1 e st2 :
  extractText msg ≠ EmptyString →
  userStates w !! remoteJid (key msg) = Some l →
  heap w !! l = Some s →
  currentMenu s = "lead_form" →
  leadFormStep s = 5 →
  isCase (toLowerCase (trim (extractText msg))) exitKeywords = false →
  createBotMessage (receivedEntry msg) (storage w) = (Ok bm, st1) →
  createLead (leadOfDraft (remoteJid (key msg))
                (set_ld_name (str (trim (extractText msg))) (leadData s))) st1
  = (Throw e, st2) →
  ∃ w',
    handleMessage sock0 msg w = (Throw e, w')
    ∧ sends (newEvents (trace w) (trace w')) = []
    ∧ logged (newEvents (trace w) (trace w')) = [receivedEntry msg]
    ∧ userStates w' = userStates w
    ∧ sessionOf w' (remoteJid (key msg))
      = Some {| currentMenu := "lead_form"; leadFormStep := 5;
                leadData := set_ld_name (str (trim (extractText msg))) (leadData s) |}
    ∧ (sock (whatsappBot w) = sock0 → fromMe (key msg) = false →
       ∀ rest,
         handleMessages {| messages := msg :: rest |} w
         = (Ok tt, set_trace (trace w' ++ [EvLoggerError "Error handling message:" e]) w')).
Proof.
  intros Hne Hus Hl Hmenu Hstep Hexit Hlog Hreject.
  assert (Hhandler :
    handleLeadForm (remoteJid (key msg)) (extractText msg) l
      (set_trace (trace w ++ [EvCreateBotMessage (receivedEntry msg);
                              EvSessionGet (remoteJid (key msg))])
         (set_storage st1 w))
    = (Throw e,
       mkWorld st2 (network w) (userStates w)
         (<[l := write_leadData (set_ld_name (str (trim (extractText msg)))) s]> (heap w))
         (whatsappBot w) (timers w)
         (trace w ++ [EvCreateBotMessage (receivedEntry msg);
                      EvSessionGet (remoteJid (key msg));
                      EvCreateLead (leadOfDraft (remoteJid (key msg))
                        (set_ld_name (str (trim (extractText msg))) (leadData s)))]))).
  { unfold handleLeadForm. rewrite Hexit.
    erewrite bind_ok by (apply deref_run; wsimpl; apply Hl).
    rewrite Hstep.
    erewrite bind_assign by (wsimpl; apply Hl).
    erewrite bind_ok by (apply deref_run; wsimpl; eapply lookup_written, Hl).
    erewrite bind_throw by (apply storage_createLead_run; wsimpl; apply Hreject).
    wsimpl. rewrite <- app_assoc. reflexivity. }
  assert (Hrun : ∃ w',
    handleMessage sock0 msg w = (Throw e, w')
    ∧ trace w' = (trace w ++ [EvCreateBotMessage (receivedEntry msg);
                              EvSessionGet (remoteJid (key msg));
                              EvCreateLead (leadOfDraft (remoteJid (key msg))
                                (set_ld_name (str (trim (extractText msg))) (leadData s)))])%list
    ∧ userStates w' = userStates w
    ∧ heap w' = <[l := write_leadData (set_ld_name (str (trim (extractText msg)))) s]> (heap w)).
  { erewrite handleMessage_found by eassumption.
    rewrite Hmenu. cbn [String.eqb Ascii.eqb Bool.eqb].
    erewrite bind_throw by apply Hhandler.
    eexists. split; [reflexivity|]. wsimpl. done. }
  destruct Hrun as (w' & Hrun & Htrace & Hmap & Hheap).
  exists w'. split; [exact Hrun|].
  rewrite Htrace, newEvents_app. repeat split; try done.
  - unfold sessionOf. rewrite Hmap, Hus, Hheap.
    erewrite lookup_written by apply Hl.
    unfold write_leadData, set_leadData. by rewrite Hmenu, Hstep.
  - intros Hsock Hfrom rest. unfold handleMessages. cbn [messages head].
    rewrite Hfrom. unfold try_catch, bind, this. rewrite Hsock, Hrun, <- Htrace.
    apply emit_run.
Qed.

(** *** The connection manager *)

(** C6: of a batch, [handleMessages] looks at the first event only; when
    there is none, or it is flagged [fromMe], nothing at all changes;
    otherwise the event goes to [handleMessage], and whatever that call
    throws is caught and logged.  In every case [handleMessages] itself
    returns normally. *)
Theorem handleMessages_first_event_only_never_throws (m : MessagesUpsert) w :
  (∃ w', handleMessages m w = (Ok tt, w'))
  ∧ handleMessages m w = handleMessages {| messages := take 1 (messages m) |} w
  ∧ (head (messages m) = None → handleMessages m w = (Ok tt, w))
  ∧ (∀ msg, head (messages m) = Some msg → fromMe (key msg) = true →
       handleMessages m w = (Ok tt, w))
  ∧ (∀ msg r w1, head (messages m) = Some msg → fromMe (key msg) = false →
       handleMessage (sock (whatsappBot w)) msg w = (r, w1) →
       handleMessages m w
       = (Ok tt,
          match r with
          | Ok _ => w1
          | Throw e => set_trace (trace w1 ++ [EvLoggerError "Error handling message:" e]) w1
          end)).
Proof.
  destruct m as [[|msg rest]]; unfold handleMessages; cbn [messages head take].
  - repeat split; eauto; intros; discriminate.
  - destruct (fromMe (key msg)) eqn:Hfrom.
    + repeat split; eauto.
      intros msg' r w1 [= <-] Hfrom'. congruence.
    + unfold try_catch, bind, this.
      destruct (handleMessage (sock (whatsappBot w)) msg w) as [[[]|e] w1] eqn:Hrun.
      * repeat split; eauto; try discriminate.
        -- intros msg' [= <-]. congruence.
        -- intros msg' r w1' [= <-] _ Hrun'. rewrite Hrun in Hrun'. by injection Hrun' as <- <-.
      * repeat split; eauto; try discriminate.
        -- intros msg' [= <-]. congruence.
        -- intros msg' r w1' [= <-] _ Hrun'. rewrite Hrun in Hrun'. by injection Hrun' as <- <-.
Qed.

(** C5: [generatePairingCode] throws, leaving the world as it is, when
    there is no socket yet and when the bot is not connected; with a socket
    and a connection it throws, after logging the failure and without
    asking the socket for anything, when the digits of the number are fewer
    than 10 or more than 15; otherwise it asks the socket for a pairing
    code for exactly the digits of the number, once, and returns the code
    the socket gives. *)
Theorem generatePairingCode_guards (phoneNumber : string) w :
  (sock (whatsappBot w) = None →
     generatePairingCode phoneNumber w = (Throw (Error "WhatsApp bot not initialized"), w))
  ∧ (∀ sk, sock (whatsappBot w) = Some sk → isConnected (whatsappBot w) = false →
       generatePairingCode phoneNumber w
       = (Throw (Error "WhatsApp bot not connected. Please wait for connection or scan QR code."), w))
  ∧ (∀ sk, sock (whatsappBot w) = Some sk → isConnected (whatsappBot w) = true →
       (String.length (replaceNonDigits phoneNumber) < 10
        ∨ 15 < String.length (replaceNonDigits phoneNumber))%nat →
       ∃ w', generatePairingCode phoneNumber w
             = (Throw (Error "Failed to generate pairing code: Invalid phone number format"), w')
             ∧ network w' = network w
             ∧ pairingRequests (newEvents (trace w) (trace w')) = [])
  ∧ (∀ sk code n, sock (whatsappBot w) = Some sk → isConnected (whatsappBot w) = true →
       (10 ≤ String.length (replaceNonDigits phoneNumber) ≤ 15)%nat →
       sock_requestPairingCode sk (replaceNonDigits phoneNumber) (network w) = (Ok code, n) →
       ∃ w', generatePairingCode phoneNumber w = (Ok code, w')
             ∧ network w' = n
             ∧ pairingRequests (newEvents (trace w) (trace w')) = [replaceNonDigits phoneNumber]).
Proof.
  repeat split.
  - intros Hsock. unfold generatePairingCode, bind at 1, this. cbv beta iota.
    rewrite Hsock. reflexivity.
  - intros sk Hsock Hconn. unfold generatePairingCode, bind at 1, this. cbv beta iota.
    rewrite Hsock, Hconn. reflexivity.
  - intros sk Hsock Hconn Hlen. unfold generatePairingCode, bind at 1, this. cbv beta iota.
    rewrite Hsock, Hconn. cbn [negb]. unfold try_catch.
    assert ((String.length (replaceNonDigits phoneNumber) <? 10)%nat
            || (15 <? String.length (replaceNonDigits phoneNumber))%nat = true) as ->.
    { apply orb_true_iff. destruct Hlen; [left | right]; by apply Nat.ltb_lt. }
    eexists. split; [reflexivity|]. wsimpl. split; [reflexivity|].
    by rewrite newEvents_app.
  - intros sk code n Hsock Hconn [Hlo Hhi] Hcall.
    unfold generatePairingCode, bind at 1, this. cbv beta iota.
    rewrite Hsock, Hconn. cbn [negb]. unfold try_catch.
    assert ((String.length (replaceNonDigits phoneNumber) <? 10)%nat
            || (15 <? String.length (replaceNonDigits phoneNumber))%nat = false) as ->.
    { apply orb_false_iff. split; apply Nat.ltb_ge; lia. }
    unfold requestPairingCode_on.
    erewrite bind_ok.
    2:{ erewrite bind_ok by apply emit_run. wsimpl. rewrite Hcall. reflexivity. }
    erewrite bind_ok by apply emit_run.
    eexists. split; [reflexivity|]. wsimpl. split; [reflexivity|].
    by rewrite <- app_assoc, newEvents_app.
Qed.

Lemma isReason_true code reason : isReason code reason = true ↔ code = Some reason.
Proof.
  destruct code as [c|]; cbn; [|split; discriminate].
  rewrite Z.eqb_eq. split; congruence.
Qed.

Lemma isReason_false code reason : isReason code reason = false ↔ code ≠ Some reason.
Proof. rewrite <- isReason_true. by destruct (isReason code reason). Qed.

(** C2: on a 'close' event [isConnected] becomes false, whatever the
    cause.  When the cause is logged-out, no timer is set and the QR
    debounce flag is cleared; when it is restart-required, exactly one
    timer is set, calling [start] after 2000 ms; when it is timed-out or
    connection-lost, exactly one, after 5000 ms; for any other cause, and
    for none, exactly one, after 3000 ms.  The codes of the library's enum
    are a parameter; logged-out and restart-required must differ from each
    other and from the two time-out codes, as they do in the library. *)
Theorem close_event_reconnect_policy (reasons : DisconnectReasonT) (update : ConnectionUpdate) w :
  connection update = Some "close" →
  loggedOut reasons ≠ restartRequired reasons →
  loggedOut reasons ≠ timedOut reasons →
  loggedOut reasons ≠ connectionLost reasons →
  restartRequired reasons ≠ timedOut reasons →
  restartRequired reasons ≠ connectionLost reasons →
  ∃ w',
    handleConnectionUpdate reasons update w = (Ok tt, w')
    ∧ isConnected (whatsappBot w') = false
    ∧ (statusCodeOf update = Some (loggedOut reasons) →
         timers w' = timers w ∧ qrCodeGenerated (whatsappBot w') = false)
    ∧ (statusCodeOf update = Some (restartRequired reasons) →
         timers w' = (timers w ++ [(2000%Z, CallStart)])%list)
    ∧ (statusCodeOf update = Some (timedOut reasons)
       ∨ statusCodeOf update = Some (connectionLost reasons) →
         timers w' = (timers w ++ [(5000%Z, CallStart)])%list)
    ∧ (statusCodeOf update ≠ Some (loggedOut reasons) →
       statusCodeOf update ≠ Some (restartRequired reasons) →
       statusCodeOf update ≠ Some (timedOut reasons) →
       statusCodeOf update ≠ Some (connectionLost reasons) →
         timers w' = (timers w ++ [(3000%Z, CallStart)])%list).
Proof.
  intros Hclose H1 H2 H3 H4 H5.
  unfold handleConnectionUpdate. rewrite Hclose. cbn [isStatus String.eqb Ascii.eqb Bool.eqb].
  unfold bind at 1, this. cbv beta iota.
  set (code := statusCodeOf update).
  match goal with |- context [bind ?m ?k w] =>
    assert (Hqr : ∃ w1, m w = (Ok tt, w1) ∧ timers w1 = timers w) end.
  { destruct (qr update) as [c|]; [|by eexists].
    destruct (negb (String.eqb c EmptyString) && negb (qrCodeGenerated (whatsappBot w)));
      by eexists. }
  destruct Hqr as (w1 & Hqr & Htimers).
  erewrite bind_ok by apply Hqr.
  unfold bind, update_this, emit, setTimeout. wsimpl.
  destruct (isReason code (loggedOut reasons)) eqn:E1;
    [|destruct (isReason code (restartRequired reasons)) eqn:E2;
      [|destruct (isReason code (timedOut reasons) || isReason code (connectionLost reasons)) eqn:E3]];
    wsimpl; (eexists; split; [reflexivity|]); wsimpl; rewrite ?Htimers;
    rewrite ?isReason_true, ?isReason_false, ?orb_true_iff, ?orb_false_iff,
            ?isReason_true, ?isReason_false in *;
    repeat split; try done; intros; destruct_or?; destruct_and?; congruence.
Qed.

(** *** Where leads come from *)

Lemma so_ret {A} Q (a : A) w : submitsOnly Q (ret a) w.
Proof. intros r w' [= <- <-]. exists []. by rewrite app_nil_r. Qed.

Lemma so_throw {A} Q e w : submitsOnly Q (throw (A := A) e) w.
Proof. intros r w' [= <- <-]. exists []. by rewrite app_nil_r. Qed.

Lemma so_silent {A} Q (m : M St Net A) w : trace (m w).2 = trace w → submitsOnly Q m w.
Proof.
  intros H r w' Hrun. rewrite Hrun in H. exists []. by rewrite app_nil_r.
Qed.

Lemma so_emit Q ev w : (∀ il, ev = EvCreateLead il → Q il) → submitsOnly Q (emit ev) w.
Proof.
  intros H r w' [= <- <-]. exists [ev]. split; [reflexivity|].
  destruct ev; cbn; try constructor; eauto.
Qed.

Lemma so_bind {A B} Q (m : M St Net A) (k : A → M St Net B) w :
  submitsOnly Q m w →
  (∀ a w1, m w = (Ok a, w1) → submitsOnly Q (k a) w1) →
  submitsOnly Q (bind m k) w.
Proof.
  intros Hm Hk r w' Hrun. unfold bind in Hrun.
  destruct (m w) as [[a|e] w1] eqn:Hmw.
  - destruct (Hm _ _ Hmw) as (evs1 & Ht1 & HQ1).
    destruct (Hk a w1 eq_refl _ _ Hrun) as (evs2 & Ht2 & HQ2).
    exists (evs1 ++ evs2). rewrite Ht2, Ht1, app_assoc, leadsCreated_app.
    split; [reflexivity | by apply Forall_app].
  - injection Hrun as <- <-. by eapply Hm.
Qed.


Lemma so_storage_createBotMessage Q m w : submitsOnly Q (storage_createBotMessage m) w.
Proof.
  apply so_bind; [by apply so_emit | intros [] w1 _].
  apply so_silent. by destruct (createBotMessage m (storage w1)).
Qed.

Lemma so_storage_createLead (Q : InsertLead → Prop) il w :
  Q il → submitsOnly Q (storage_createLead il) w.
Proof.
  intros HQ. apply so_bind; [apply so_emit; by intros ? [= <-] | intros [] w1 _].
  apply so_silent. by destruct (createLead il (storage w1)).
Qed.

Lemma so_sendMessage_on Q sock0 jid text w : submitsOnly Q (sendMessage_on sock0 jid text) w.
Proof.
  destruct sock0 as [sk|]; [|apply so_throw].
  apply so_bind; [by apply so_emit | intros [] w1 _].
  apply so_silent. by destruct (sock_sendMessage sk jid text (network w1)).
Qed.

Lemma so_assign Q l f w : submitsOnly Q (assign l f) w.
Proof. apply so_silent. unfold assign. by destruct (heap w !! l). Qed.

Lemma so_deref Q l w : submitsOnly Q (deref l) w.
Proof. apply so_silent. unfold deref. by destruct (heap w !! l). Qed.

Lemma so_userStates_set Q p l w : submitsOnly Q (userStates_set p l) w.
Proof. apply so_bind; [by apply so_emit | intros [] w1 _]. by apply so_silent. Qed.

Lemma so_userStates_get Q p w : submitsOnly Q (userStates_get p) w.
Proof. apply so_bind; [by apply so_emit | intros [] w1 _]. by apply so_silent. Qed.

Ltac so_step :=
  first
    [ apply so_ret | apply so_throw | apply so_assign | apply so_deref
    | apply so_storage_createBotMessage | apply so_sendMessage_on
    | apply so_userStates_set | apply so_userStates_get
    | apply so_bind; [|intros ? ? _] ].

Lemma so_getQuoteInfo Q l w : submitsOnly Q (getQuoteInfo l) w.
Proof. unfold getQuoteInfo. repeat so_step. Qed.

Lemma so_handleMainMenu Q phoneNumber text l w :
  submitsOnly Q (handleMainMenu phoneNumber text l) w.
Proof.
  unfold handleMainMenu.
  repeat match goal with
         | |- submitsOnly _ (if ?b then _ else _) _ => destruct b
         end; first [apply so_ret | apply so_getQuoteInfo].
Qed.

Lemma so_finishMessage Q sock0 p l text w : submitsOnly Q (finishMessage sock0 p l text) w.
Proof.
  unfold finishMessage. apply so_bind; [apply so_userStates_set | intros [] w1 _].
  destruct (negb (String.eqb text EmptyString)); repeat so_step.
Qed.

(** After the exit check, [handleLeadForm] branches on the step it reads;
    only the branch of step 5 submits a lead, and that one has status
    'new'. *)
Lemma so_handleLeadForm (Q : InsertLead → Prop) phoneNumber text l w :
  (∀ s il, heap w !! l = Some s → leadFormStep s = 5 → il_status il = str "new" → Q il) →
  submitsOnly Q (handleLeadForm phoneNumber text l) w.
Proof.
  intros HQ. unfold handleLeadForm.
  destruct (isCase (toLowerCase (trim text)) exitKeywords); [repeat so_step|].
  apply so_bind; [apply so_deref|]. intros s w1 Hderef.
  unfold deref in Hderef. destruct (heap w !! l) as [s'|] eqn:Hl; [|discriminate].
  injection Hderef as -> ->.
  destruct (leadFormStep s) as [|[|[|[|[|[|n]]]]]] eqn:Hstep; try solve [repeat so_step].
  apply so_bind; [apply so_assign | intros ? ? _].
  apply so_bind; [apply so_deref | intros ? ? _].
  apply so_bind; [apply so_storage_createLead; by eapply HQ | intros ? ? _].
  repeat so_step.
Qed.

Lemma so_handleMessage (Q : InsertLead → Prop) sock0 msg w :
  (∀ s il, sessionOf w (remoteJid (key msg)) = Some s →
           currentMenu s = "lead_form" → leadFormStep s = 5 →
           il_status il = str "new" → Q il) →
  submitsOnly Q (handleMessage sock0 msg) w.
Proof.
  intros HQ. unfold handleMessage.
  destruct (String.eqb (extractText msg) EmptyString); [apply so_ret|].
  apply so_bind; [apply so_storage_createBotMessage|]. intros bm w1 Hlog.
  assert (heap w1 = heap w ∧ userStates w1 = userStates w) as [Hheap Hmap].
  { revert Hlog. unfold storage_createBotMessage, bind, emit. wsimpl.
    destruct (createBotMessage _ (storage w)) as [r0 s0]. by intros [= _ <-]. }
  apply so_bind; [apply so_userStates_get|]. intros found w2 [= <- <-].
  wsimpl. rewrite Hmap.
  unfold sessionOf in HQ.
  destruct (userStates w !! remoteJid (key msg)) as [l|].
  - apply so_bind; [apply so_ret|]. intros ? ? [= <- <-].
    apply so_bind; [apply so_deref|]. intros s ? Hderef.
    unfold deref in Hderef. wsimpl_in Hderef. rewrite Hheap in Hderef.
    destruct (heap w !! l) as [s'|] eqn:Hl; [|discriminate].
    injection Hderef as -> <-.
    apply so_bind; [|intros; apply so_finishMessage].
    destruct (String.eqb_spec (currentMenu s) "lead_form") as [Hmenu|_];
      [|apply so_handleMainMenu].
    apply so_handleLeadForm. wsimpl. rewrite Hheap, Hl. intros ? il [= <-]. by apply HQ.
  - apply so_bind; [by apply so_silent|]. intros l w3 [= <- <-].
    apply so_bind; [apply so_deref|]. intros s ? Hderef.
    unfold deref in Hderef. wsimpl_in Hderef.
    rewrite Hheap, list_lookup_middle in Hderef by done.
    injection Hderef as <- <-. cbn [currentMenu freshState String.eqb Ascii.eqb Bool.eqb].
    apply so_bind; [apply so_handleMainMenu | intros; apply so_finishMessage].
Qed.

Lemma leads_come_from_step_five sock0 msg w r w' :
  handleMessage sock0 msg w = (r, w') →
  Forall (fun il => il_status il = str "new") (leadsCreated (newEvents (trace w) (trace w')))
  ∧ ((∀ s, sessionOf w (remoteJid (key msg)) = Some s →
           ¬ (currentMenu s = "lead_form" ∧ leadFormStep s = 5)) →
     leadsCreated (newEvents (trace w) (trace w')) = []).
Proof.
  intros Hrun. split.
  - destruct (so_handleMessage (fun il => il_status il = str "new") sock0 msg w) with r w'
      as (evs & -> & Hall); [by intros | done |].
    by rewrite newEvents_app.
  - intros Hnot.
    destruct (so_handleMessage (fun _ => False) sock0 msg w) with r w'
      as (evs & -> & Hall); [intros s il Hs Hmenu Hstep _; by eapply Hnot | done |].
    rewrite newEvents_app. by destruct Hall.
Qed.

End Properties.

(** ** The engine over the in-memory store *)

(** The in-memory store accepts every log entry. *)
Lemma memStorage_accepts_log_entries uuid clock m (st : MemStorage.t) :
  ∃ bm st', createBotMessage (IStorage := MemStorage.storage uuid clock) m st = (Ok bm, st').
Proof. by eexists _, _. Qed.

(** C3: at any step of the lead form (1 to 5 in particular), a text whose
    trimmed, lower-cased form is one of menu, cancel, exit, back makes
    [handleLeadForm] return the root menu with the session object reset to
    main / step 0 / empty draft, whatever the step: the check comes before
    the step is even read, so no field of the draft receives the input.
    [handleMessage] therefore leaves the session reset and hands the root
    menu, and nothing else, to the socket. *)
Theorem exit_keyword_resets_lead_form
    (ops : StringOps) (uuid : nat → string) (clock : nat → Z) Net
    (sk : Sock Net) (msg : WAMessage) (w : World MemStorage.t Net) (l : loc) (s : BotState) :
  userStates w !! remoteJid (key msg) = Some l →
  heap w !! l = Some s →
  currentMenu s = "lead_form" →
  toLowerCase (trim (extractText msg)) ∈ exitKeywords →
  handleLeadForm (storageImpl := MemStorage.storage uuid clock)
    (remoteJid (key msg)) (extractText msg) l w
  = (Ok getMainMenu, set_heap (<[l := freshState]> (heap w)) w)
  ∧ ∃ r w',
      handleMessage (storageImpl := MemStorage.storage uuid clock) (Some sk) msg w = (r, w')
      ∧ userStates w' !! remoteJid (key msg) = Some l
      ∧ heap w' = <[l := freshState]> (heap w)
      ∧ sessionOf w' (remoteJid (key msg)) = Some freshState
      ∧ sends (newEvents (trace w) (trace w')) = [(remoteJid (key msg), getMainMenu)]
      ∧ leadsCreated (newEvents (trace w) (trace w')) = [].
Proof.
  intros Hus Hl Hmenu Hexit.
  destruct (memStorage_accepts_log_entries uuid clock (receivedEntry msg) (storage w))
    as (bm & st1 & Hlog).
  by eapply exit_keyword_resets_any_store.
Qed.

(** C9, amended: in the main menu, every non-empty text whose trimmed,
    lower-cased form is none of the [switch] labels and contains none of
    the fallback substrings gets the root menu: [handleMainMenu] returns
    exactly that text without touching anything, and [handleMessage] hands
    that text, and nothing else, to the socket and leaves the session as it
    was. *)
Theorem unrecognised_text_gets_root_menu
    (ops : StringOps) (uuid : nat → string) (clock : nat → Z) Net
    (sk : Sock Net) (msg : WAMessage) (w : World MemStorage.t Net) (s : BotState) :
  extractText msg ≠ EmptyString →
  sessionOf w (remoteJid (key msg)) = Some s →
  currentMenu s = "main" →
  isCase (toLowerCase (trim (extractText msg))) registeredAliases = false →
  includesAny (toLowerCase (trim (extractText msg))) fallbackMarkers = false →
  (∀ l, handleMainMenu (remoteJid (key msg)) (extractText msg) l w = (Ok getMainMenu, w))
  ∧ ∃ r w',
      handleMessage (storageImpl := MemStorage.storage uuid clock) (Some sk) msg w = (r, w')
      ∧ sessionOf w' (remoteJid (key msg)) = Some s
      ∧ sends (newEvents (trace w) (trace w')) = [(remoteJid (key msg), getMainMenu)]
      ∧ leadsCreated (newEvents (trace w) (trace w')) = [].
Proof.
  intros Hne Hsession Hmenu Halias Hmarker.
  destruct (memStorage_accepts_log_entries uuid clock (receivedEntry msg) (storage w))
    as (bm & st1 & Hlog).
  by eapply unrecognised_text_any_store.
Qed.

(** ** Updating a lead *)

Lemma map_get_set_eq {V} (m : list (string * V)) k v :
  MemStorage.map_get (MemStorage.map_set m k v) k = Some v.
Proof.
  induction m as [|[k' v'] m IH]; cbn.
  - by rewrite String.eqb_refl.
  - destruct (String.eqb_spec k' k) as [->|Hne]; cbn.
    + by rewrite String.eqb_refl.
    + by destruct (String.eqb_spec k' k).
Qed.

Lemma map_get_set_ne {V} (m : list (string * V)) k k' v :
  k' ≠ k → MemStorage.map_get (MemStorage.map_set m k v) k' = MemStorage.map_get m k'.
Proof.
  intros Hne. induction m as [|[k0 v0] m IH]; cbn.
  - by destruct (String.eqb_spec k k').
  - destruct (String.eqb_spec k0 k) as [->|Hne0]; cbn.
    + by destruct (String.eqb_spec k k').
    + by rewrite IH.
Qed.

(** After [{ ...lead, ...updates, updatedAt: new Date() }] every
    property other than [updatedAt] is the member of the body of that key,
    if there is one, and what it was otherwise. *)
Lemma property_spread (k : string) (lead : Lead) (updates : gmap string Json) (now : Z) :
  property k (MemStorage.spread lead updates now)
  = if String.eqb k "updatedAt" then Some (date now)
    else match updates !! k with
         | Some j => Some (ofJson j)
         | None => property k lead
         end.
Proof.
  unfold property, MemStorage.spread, MemStorage.written.
  cbn [lead_id lead_phoneNumber lead_name lead_projectType lead_budget lead_timeline
       lead_description lead_status lead_createdAt lead_updatedAt lead_other].
  destruct (String.eqb_spec k "updatedAt") as [->|?]; [reflexivity|].
  repeat match goal with
         | |- context [String.eqb k ?c] =>
             destruct (String.eqb_spec k c) as [->|?]; [by destruct (updates !! c)|]
         end.
  rewrite lookup_union, lookup_fmap,
    (map_lookup_filter (λ member : string * Json, member.1 ∉ columns) updates k).
  assert (k ∉ columns) as Hother.
  { unfold columns. rewrite !not_elem_of_cons. repeat split; try done. apply not_elem_of_nil. }
  destruct (updates !! k) as [j|]; cbn; [|by destruct (lead_other lead !! k)].
  rewrite option_guard_True by done. cbn. by destruct (lead_other lead !! k).
Qed.

(** C8, the creation half: a lead is submitted to the store only by a
    text handled at step 5 of the lead form, and with status 'new'. *)
Lemma leads_are_created_at_step_five_as_new
    (ops : StringOps) St (storageImpl : IStorage St) Net
    (sock0 : option (Sock Net)) msg (w : World St Net) r w' :
  handleMessage sock0 msg w = (r, w') →
  Forall (fun il => il_status il = str "new") (leadsCreated (newEvents (trace w) (trace w')))
  ∧ ((∀ s, sessionOf w (remoteJid (key msg)) = Some s →
           ¬ (currentMenu s = "lead_form" ∧ leadFormStep s = 5)) →
     leadsCreated (newEvents (trace w) (trace w')) = []).
Proof. intros. by eapply leads_come_from_step_five. Qed.

Lemma patchLead_found (uuid : nat → string) (clock : nat → Z) Net
    (w : World MemStorage.t Net) (id : string) (updates : gmap string Json) (lead : Lead) :
  MemStorage.map_get (MemStorage.leads (storage w)) id = Some lead →
  patchLead (storageImpl := MemStorage.storage uuid clock) id updates w
  = (Ok {| res_status := 200;
           res_body :=
             JsonLead (MemStorage.spread lead updates
                         (clock (MemStorage.dateCalls (storage w)))) |},
     set_storage
       {| MemStorage.leads :=
            MemStorage.map_set (MemStorage.leads (storage w)) id
              (MemStorage.spread lead updates (clock (MemStorage.dateCalls (storage w))));
          MemStorage.botMessages := MemStorage.botMessages (storage w);
          MemStorage.uuidCalls := MemStorage.uuidCalls (storage w);
          MemStorage.dateCalls := S (MemStorage.dateCalls (storage w)) |}
       (set_trace (trace w ++ [EvUpdateLead id updates]) w)).
Proof.
  intros Hget. unfold patchLead, try_catch, storage_updateLead, bind, emit, ret.
  cbn [storage set_trace updateLead MemStorage.storage]. unfold MemStorage.updateLead.
  by rewrite Hget.
Qed.

(** C8, the update half, for the body the dashboard sends: the status
    and [updatedAt] change, and nothing else of the lead does. *)
Lemma status_only_patch_keeps_the_other_fields (uuid : nat → string) (clock : nat → Z) Net
    (w : World MemStorage.t Net) (id status : string) (lead : Lead) :
  MemStorage.map_get (MemStorage.leads (storage w)) id = Some lead →
  ∃ w' lead',
    patchLead (storageImpl := MemStorage.storage uuid clock) id (statusOnly status) w
    = (Ok {| res_status := 200; res_body := JsonLead lead' |}, w')
    ∧ MemStorage.map_get (MemStorage.leads (storage w')) id = Some lead'
    ∧ lead'
      = {| lead_id := lead_id lead;
           lead_phoneNumber := lead_phoneNumber lead;
           lead_name := lead_name lead;
           lead_projectType := lead_projectType lead;
           lead_budget := lead_budget lead;
           lead_timeline := lead_timeline lead;
           lead_description := lead_description lead;
           lead_status := val (str status);
           lead_createdAt := lead_createdAt lead;
           lead_updatedAt := date (clock (MemStorage.dateCalls (storage w)));
           lead_other := lead_other lead |}.
Proof.
  intros Hget. rewrite (patchLead_found uuid clock Net w id _ lead Hget).
  eexists _, _. split; [reflexivity|]. cbn [storage set_storage MemStorage.leads].
  split; [apply map_get_set_eq|].
  unfold MemStorage.spread, MemStorage.written, statusOnly. f_equal.
  rewrite map_filter_singleton_False; [|cbn; intros H; apply H; unfold columns].
  - by rewrite fmap_empty, (left_id_L ∅ (∪)).
  - repeat first [apply list_elem_of_here | apply list_elem_of_further].
Qed.

(** C8: the claim fails for the updates the route admits.  The route
    hands the request body to [updateLead] unchecked, and [updateLead]
    spreads it over the stored lead: whatever key the body names, the
    name, the phone number, the id and the creation time among them, is
    overwritten with the body's value, whatever that value is.  Only
    [updatedAt] is not the body's to set; properties the body does not name
    stay, and so do the other leads. *)
Theorem patch_route_overwrites_whatever_the_body_names
    (uuid : nat → string) (clock : nat → Z) Net
    (w : World MemStorage.t Net) (id : string) (updates : gmap string Json) (lead : Lead) :
  MemStorage.map_get (MemStorage.leads (storage w)) id = Some lead →
  ∃ w' lead',
    patchLead (storageImpl := MemStorage.storage uuid clock) id updates w
    = (Ok {| res_status := 200; res_body := JsonLead lead' |}, w')
    ∧ MemStorage.map_get (MemStorage.leads (storage w')) id = Some lead'
    ∧ (∀ j, updates !! "name" = Some j → lead_name lead' = ofJson j)
    ∧ (∀ k j, k ≠ "updatedAt" → updates !! k = Some j → property k lead' = Some (ofJson j))
    ∧ (∀ k, k ≠ "updatedAt" → updates !! k = None → property k lead' = property k lead)
    ∧ lead_updatedAt lead' = date (clock (MemStorage.dateCalls (storage w)))
    ∧ (∀ id', id' ≠ id →
         MemStorage.map_get (MemStorage.leads (storage w')) id'
         = MemStorage.map_get (MemStorage.leads (storage w)) id').
Proof.
  intros Hget. rewrite (patchLead_found uuid clock Net w id updates lead Hget).
  eexists _, _. split; [reflexivity|]. cbn [storage set_storage MemStorage.leads].
  split; [apply map_get_set_eq|].
  split; [intros j Hj; cbn; unfold MemStorage.written; by rewrite Hj|].
  split; [|split; [|split; [reflexivity|]]].
  - intros k j Hk Hj. rewrite property_spread, Hj.
    by destruct (String.eqb_spec k "updatedAt").
  - intros k Hk Hj. rewrite property_spread, Hj.
    by destruct (String.eqb_spec k "updatedAt").
  - intros id' Hne. by apply map_get_set_ne.
Qed.

(** ** The general statements at concrete inputs *)

Import AsciiOps.

Lemma empty_text_is_noop_witness :
  extractText {| key := {| remoteJid := ada; fromMe := false |}; message := None |} = EmptyString
  ∧ handleMessage (ops := AsciiOps.ops) (Some deliveringSock)
      {| key := {| remoteJid := ada; fromMe := false |}; message := None |} initialWorld
    = (Ok tt, initialWorld).
Proof.
  split; [reflexivity | apply (empty_text_is_noop (ops := AsciiOps.ops)); reflexivity].
Defined.

(** " Cancel " at step 2 of the form. *)
Lemma exit_keyword_resets_lead_form_witness :
  ∃ r w',
    handleMessage (ops := AsciiOps.ops) (Some deliveringSock) (textMessage ada " Cancel ")
      midFormWorld = (r, w')
    ∧ sessionOf w' ada = Some freshState
    ∧ sends (newEvents (trace midFormWorld) (trace w')) = [(ada, getMainMenu)].
Proof.
  edestruct (exit_keyword_resets_lead_form AsciiOps.ops uuid clock Outbox deliveringSock
               (textMessage ada " Cancel ") midFormWorld)
    as [_ (r & w' & Hrun & _ & _ & Hsession & Hsends & _)].
  - vm_compute. reflexivity.
  - vm_compute. reflexivity.
  - reflexivity.
  - apply isCase_elem. reflexivity.
  - exists r, w'. repeat split; assumption.
Defined.

(** C9 as stated fails on the empty text: in the main menu it matches no
    label and contains no marker, yet [handleMessage] returns at once and
    nothing, the root menu included, is sent. *)
Lemma empty_text_in_main_menu_gets_no_reply :
  sessionOf initialWorld ada = Some freshState
  ∧ currentMenu freshState = "main"
  ∧ isCase (toLowerCase (trim EmptyString)) registeredAliases = false
  ∧ includesAny (toLowerCase (trim EmptyString)) fallbackMarkers = false
  ∧ handleMessage (ops := AsciiOps.ops) (Some deliveringSock) (textMessage ada EmptyString)
      initialWorld = (Ok tt, initialWorld)
  ∧ sends (trace initialWorld) = []
  ∧ sends (trace initialWorld) ≠ [(ada, getMainMenu)].
Proof. vm_compute. repeat split; try reflexivity. discriminate. Qed.

(** "  Hello there " from a number never seen before. *)
Lemma unrecognised_text_gets_root_menu_witness :
  ∃ r w',
    handleMessage (ops := AsciiOps.ops) (Some deliveringSock)
      (textMessage ada "  Hello there ") initialWorld = (r, w')
    ∧ sessionOf w' ada = Some freshState
    ∧ sends (newEvents (trace initialWorld) (trace w')) = [(ada, getMainMenu)].
Proof.
  edestruct (unrecognised_text_gets_root_menu AsciiOps.ops uuid clock Outbox deliveringSock
               (textMessage ada "  Hello there ") initialWorld)
    as [_ (r & w' & Hrun & Hsession & Hsends & _)].
  - discriminate.
  - vm_compute. reflexivity.
  - reflexivity.
  - reflexivity.
  - reflexivity.
  - exists r, w'. repeat split; assumption.
Defined.

(** "Ada" at step 5, against a store that rejects [createLead]. *)
Lemma rejected_createLead_leaves_session_at_step_five_witness :
  ∃ w',
    handleMessage (ops := AsciiOps.ops) (storageImpl := rejectingCreateLead)
      (Some deliveringSock) (textMessage ada "Ada") stepFiveWorld
    = (Throw (Error "connection refused"), w')
    ∧ sends (newEvents (trace stepFiveWorld) (trace w')) = []
    ∧ sessionOf w' ada
      = Some {| currentMenu := "lead_form"; leadFormStep := 5;
                leadData := {| ld_projectType := str "1"; ld_budget := str "₦500K - ₦1M";
                               ld_timeline := str "3 weeks";
                               ld_description := str "build me an app";
                               ld_name := str "Ada" |} |}.
Proof.
  edestruct (rejected_createLead_leaves_session_at_step_five (ops := AsciiOps.ops)
               (storageImpl := rejectingCreateLead) (Some deliveringSock)
               (textMessage ada "Ada") stepFiveWorld)
    as (w' & Hrun & Hsends & _ & _ & Hsession & _).
  - discriminate.
  - vm_compute. reflexivity.
  - vm_compute. reflexivity.
  - reflexivity.
  - reflexivity.
  - reflexivity.
  - vm_compute. reflexivity.
  - vm_compute. reflexivity.
  - exists w'. repeat split; assumption.
Defined.

(** The library's codes, and a close with restart-required (515). *)
Lemma close_event_reconnect_policy_witness :
  ∃ w',
    handleConnectionUpdate BaileysDisconnectReason (closeEvent 515)
      connectedWorld = (Ok tt, w')
    ∧ isConnected (whatsappBot w') = false
    ∧ timers w' = [(2000%Z, CallStart)].
Proof.
  edestruct (close_event_reconnect_policy BaileysDisconnectReason (closeEvent 515) connectedWorld)
    as (w' & Hrun & Hconn & _ & Hrestart & _); try (cbn; lia).
  - reflexivity.
  - exists w'. repeat split; try assumption. by apply Hrestart.
Defined.

(** A number written with a plus sign and spaces, on a connected bot. *)
Lemma generatePairingCode_guards_witness :
  ∃ w',
    generatePairingCode "+234 810 751 6059" connectedWorld = (Ok "ABCD1234", w')
    ∧ pairingRequests (newEvents (trace connectedWorld) (trace w')) = ["2348107516059"].
Proof.
  destruct (generatePairingCode_guards "+234 810 751 6059" connectedWorld) as (_ & _ & _ & Hok).
  destruct (Hok deliveringSock "ABCD1234" []) as (w' & Hrun & _ & Hreq);
    [reflexivity | reflexivity | vm_compute; lia | reflexivity |].
  exists w'. split; assumption.
Defined.

(** The lead of the scenario, renamed and given another id through the
    route. *)
Lemma patch_route_overwrites_whatever_the_body_names_witness :
  ∃ w' lead',
    patchLead (storageImpl := memStorage) "uuid-11"
      {[ "name" := JString "Eve"; "id" := JString "evil-id" ]} submittedWorld
    = (Ok {| res_status := 200; res_body := JsonLead lead' |}, w')
    ∧ MemStorage.map_get (MemStorage.leads (storage w')) "uuid-11" = Some lead'
    ∧ lead_name adaLead = val (str "Ada")
    ∧ lead_name lead' = val (str "Eve")
    ∧ property "id" adaLead = Some (val (str "uuid-11"))
    ∧ property "id" lead' = Some (val (str "evil-id")).
Proof.
  destruct (patch_route_overwrites_whatever_the_body_names uuid clock Outbox submittedWorld
              "uuid-11" {[ "name" := JString "Eve"; "id" := JString "evil-id" ]} adaLead)
    as (w' & lead' & Hrun & Hget & Hname & Hnamed & _); [vm_compute; reflexivity|].
  exists w', lead'. split; [exact Hrun|]. split; [exact Hget|]. split; [reflexivity|].
  split; [apply (Hname (JString "Eve")); vm_compute; reflexivity|].
  split; [reflexivity|].
  apply (Hnamed "id" (JString "evil-id")); [discriminate | vm_compute; reflexivity].
Defined.

(** The lead of the scenario, marked as contacted. *)
Lemma status_only_patch_keeps_the_other_fields_at_the_scenario :
  ∃ w' lead',
    patchLead (storageImpl := memStorage) "uuid-11" (statusOnly "contacted") submittedWorld
    = (Ok {| res_status := 200; res_body := JsonLead lead' |}, w')
    ∧ lead_status lead' = val (str "contacted")
    ∧ lead_name lead' = val (str "Ada")
    ∧ lead_budget lead' = val (str "₦500K - ₦1M").
Proof.
  destruct (status_only_patch_keeps_the_other_fields uuid clock Outbox submittedWorld
              "uuid-11" "contacted" adaLead)
    as (w' & lead' & Hrun & _ & ->); [vm_compute; reflexivity|].
  eexists w', _. split; [exact Hrun|]. repeat split; reflexivity.
Qed.

(** * Further properties *)

(** ** The in-memory store *)

Section StoreProperties.

Variable uuid : nat → string.
Variable clock : nat → Z.

Lemma map_set_fresh {V} (m : list (string * V)) k v :
  MemStorage.map_get m k = None → MemStorage.map_set m k v = m ++ [(k, v)].
Proof.
  induction m as [|[k' v'] m IH]; cbn; [done|].
  destruct (String.eqb k' k); [discriminate|]. intros H. by rewrite IH.
Qed.

Lemma map_set_keys {V} (m : list (string * V)) k v v0 :
  MemStorage.map_get m k = Some v0 → (MemStorage.map_set m k v).*1 = m.*1.
Proof.
  induction m as [|[k' v'] m IH]; cbn; [discriminate|].
  destruct (String.eqb_spec k' k) as [->|Hne]; cbn; [done|]. intros H. by rewrite IH.
Qed.

Lemma map_get_None_keys {V} (m : list (string * V)) k :
  MemStorage.map_get m k = None ↔ k ∉ m.*1.
Proof.
  induction m as [|[k' v'] m IH]; cbn.
  - split; [intros _; apply not_elem_of_nil | done].
  - rewrite not_elem_of_cons. destruct (String.eqb_spec k' k) as [->|Hne].
    + split; [discriminate | intros [[] _]; done].
    + rewrite IH. split; [intros H; split; [congruence | done] | by intros [_ H]].
Qed.

(** X1: a lead created under an id the store does not hold yet comes
    back as submitted, with the generated id; it is the last of [getLeads]
    and of [getLeadsByPhoneNumber] for its own number, after the leads
    that were there, and the leads listed for any other number are the
    same as before. *)
Theorem createLead_then_read (insertLead : InsertLead) (st : MemStorage.t) :
  MemStorage.map_get (MemStorage.leads st) (uuid (MemStorage.uuidCalls st)) = None →
  ∃ lead st',
    MemStorage.createLead uuid clock insertLead st = (Ok lead, st')
    ∧ lead_id lead = val (str (uuid (MemStorage.uuidCalls st)))
    ∧ lead_phoneNumber lead = val (str (il_phoneNumber insertLead))
    ∧ (lead_name lead, lead_projectType lead, lead_budget lead, lead_timeline lead,
       lead_description lead, lead_status lead)
      = (val (il_name insertLead), val (il_projectType insertLead),
         val (il_budget insertLead), val (il_timeline insertLead),
         val (il_description insertLead), val (il_status insertLead))
    ∧ lead_other lead = ∅
    ∧ MemStorage.map_get (MemStorage.leads st') (uuid (MemStorage.uuidCalls st)) = Some lead
    ∧ (MemStorage.getLeads st').1 = Ok ((MemStorage.map_values (MemStorage.leads st)) ++ [lead])
    ∧ (∀ old, (MemStorage.getLeadsByPhoneNumber (il_phoneNumber insertLead) st).1 = Ok old →
         (MemStorage.getLeadsByPhoneNumber (il_phoneNumber insertLead) st').1
         = Ok (old ++ [lead]))
    ∧ (∀ phoneNumber, phoneNumber ≠ il_phoneNumber insertLead →
         (MemStorage.getLeadsByPhoneNumber phoneNumber st').1
         = (MemStorage.getLeadsByPhoneNumber phoneNumber st).1).
Proof.
  intros Hfresh. eexists _, _. split; [reflexivity|]. cbn.
  rewrite (map_set_fresh _ _ _ Hfresh).
  repeat split.
  - rewrite <- (map_set_fresh _ _ _ Hfresh). apply map_get_set_eq.
  - unfold MemStorage.map_values. by rewrite fmap_app.
  - intros old [= <-]. unfold MemStorage.map_values.
    rewrite fmap_app, List.filter_app. cbn. by rewrite String.eqb_refl.
  - intros p Hne. unfold MemStorage.map_values.
    rewrite fmap_app, List.filter_app. cbn.
    destruct (String.eqb_spec (il_phoneNumber insertLead) p) as [E|_]; [congruence|].
    by rewrite app_nil_r.
Qed.

Lemma map_set_present {V} (m : list (string * V)) k v :
  MemStorage.map_get m k = Some v →
  ∃ before after,
    m = before ++ (k, v) :: after
    ∧ (k ∉ before.*1)
    ∧ ∀ v', MemStorage.map_set m k v' = before ++ (k, v') :: after.
Proof.
  induction m as [|[k' v0] m IH]; cbn; [discriminate|].
  destruct (String.eqb_spec k' k) as [->|Hne].
  - intros [= ->]. exists [], m. split; [done|]. split; [apply not_elem_of_nil|done].
  - intros Hget. destruct (IH Hget) as (before & after & -> & Hfresh & Hset).
    exists ((k', v0) :: before), after. split; [done|]. split.
    + cbn. rewrite not_elem_of_cons. split; [congruence|done].
    + intros v'. cbn. by rewrite Hset.
Qed.

(** X2: [updateLead] never adds, removes or reorders leads.  For an id
    the store holds, the lead under it is replaced where it stands by the
    spread of the body over it, and every other entry, key and lead, stays;
    the ids that [getLeads] lists are then the same as before, in the same
    order, unless the body itself names [id], in which case the lead is
    listed with the body's value for an id while staying under its old key.
    For an id the store does not hold, neither the store nor the clock is
    touched and the route answers 404 "Lead not found". *)
Theorem updateLead_keeps_the_collection Net (w : World MemStorage.t Net)
    (id : string) (updates : gmap string Json) :
  (MemStorage.map_get (MemStorage.leads (storage w)) id = None →
     MemStorage.updateLead clock id updates (storage w) = (Ok None, storage w)
     ∧ patchLead (storageImpl := MemStorage.storage uuid clock) id updates w
       = (Ok {| res_status := 404; res_body := JsonError "Lead not found" None |},
          set_trace (trace w ++ [EvUpdateLead id updates]) w))
  ∧ (∀ lead,
       MemStorage.map_get (MemStorage.leads (storage w)) id = Some lead →
       ∃ before after,
         MemStorage.leads (storage w) = before ++ (id, lead) :: after
         ∧ (id ∉ before.*1)
         ∧ MemStorage.leads (MemStorage.updateLead clock id updates (storage w)).2
           = before
             ++ (id, MemStorage.spread lead updates
                       (clock (MemStorage.dateCalls (storage w)))) :: after
         ∧ (updates !! "id" = None →
            lead_id
              <$> MemStorage.map_values
                    (MemStorage.leads (MemStorage.updateLead clock id updates (storage w)).2)
            = lead_id <$> MemStorage.map_values (MemStorage.leads (storage w)))
         ∧ (∀ j, updates !! "id" = Some j →
            lead_id
              <$> MemStorage.map_values
                    (MemStorage.leads (MemStorage.updateLead clock id updates (storage w)).2)
            = (lead_id <$> before.*2) ++ ofJson j :: (lead_id <$> after.*2))).
Proof.
  split.
  - intros Hget. split.
    + unfold MemStorage.updateLead. by rewrite Hget.
    + unfold patchLead, try_catch, storage_updateLead, bind, emit, ret.
      cbn [storage set_trace updateLead MemStorage.storage]. unfold MemStorage.updateLead.
      rewrite Hget. destruct w. reflexivity.
  - intros lead Hget.
    destruct (map_set_present _ _ _ Hget) as (before & after & Hleads & Hfresh & Hset).
    exists before, after. unfold MemStorage.updateLead. rewrite Hget.
    cbn [snd MemStorage.leads]. rewrite Hset.
    split; [done|]. split; [done|]. split; [done|].
    unfold MemStorage.map_values. rewrite Hleads, !fmap_app, !fmap_cons.
    cbn [snd lead_id MemStorage.spread]. unfold MemStorage.written.
    split; [by intros ->|by intros j ->].
Qed.

(** *** [getBotMessages] *)

Lemma orZero_id t : MemStorage.orZero t = t.
Proof. unfold MemStorage.orZero. destruct (Z.eqb_spec t 0); congruence. Qed.

Lemma newestFirst_le a b :
  (MemStorage.newestFirst a b ≤ 0)%Z ↔ (bm_timestamp b ≤ bm_timestamp a)%Z.
Proof. unfold MemStorage.newestFirst. rewrite !orZero_id. lia. Qed.

Lemma insertSorted_perm {A} (cmp : A → A → Z) x l :
  MemStorage.insertSorted cmp x l ≡ₚ x :: l.
Proof.
  induction l as [|y l IH]; cbn; [done|].
  destruct (cmp x y <=? 0)%Z; [done|]. rewrite IH. apply Permutation_swap.
Qed.

Lemma sort_perm {A} (cmp : A → A → Z) l : MemStorage.sort cmp l ≡ₚ l.
Proof.
  induction l as [|x l IH]; cbn; [done|].
  unfold MemStorage.sort in *. cbn. by rewrite insertSorted_perm, IH.
Qed.

Lemma insertSorted_sorted x l :
  StronglySorted notOlder l →
  StronglySorted notOlder (MemStorage.insertSorted MemStorage.newestFirst x l).
Proof.
  induction 1 as [|y l Hsorted IH Hall]; cbn.
  - repeat constructor.
  - destruct (Z.leb_spec (MemStorage.newestFirst x y) 0) as [Hle|Hgt].
    + apply newestFirst_le in Hle. constructor; [by constructor|].
      constructor; [done|]. eapply Forall_impl; [exact Hall|].
      intros z Hz. unfold notOlder in *. lia.
    + constructor; [done|].
      rewrite insertSorted_perm. constructor; [|done].
      unfold notOlder. unfold MemStorage.newestFirst in Hgt. rewrite !orZero_id in Hgt. lia.
Qed.

Lemma sort_sorted l : StronglySorted notOlder (MemStorage.sort MemStorage.newestFirst l).
Proof.
  induction l as [|x l IH]; [constructor|]. by apply insertSorted_sorted.
Qed.

Lemma sorted_app_apart {A} (R : A → A → Prop) (l k : list A) :
  StronglySorted R (l ++ k) → Forall (fun x => Forall (R x) k) l.
Proof.
  induction l as [|x l IH]; cbn; [constructor|].
  intros H. apply StronglySorted_inv in H as [Hsorted Hall].
  constructor; [|by apply IH]. by apply Forall_app in Hall as [_ Hk].
Qed.

Lemma take_sorted {A} (R : A → A → Prop) n l :
  StronglySorted R l → StronglySorted R (take n l).
Proof.
  intros H. revert n. induction H as [|x l Hs IH Hall]; intros [|n]; cbn; try constructor.
  - apply IH.
  - by apply Forall_take.
Qed.

Lemma getBotMessages_spec (phoneNumber : string) (limit : option Z)
    (st : MemStorage.t) :
  ∃ result,
    MemStorage.getBotMessages phoneNumber limit st = (Ok result, st)
    ∧ StronglySorted notOlder result
    ∧ (∀ m, m ∈ result →
         bm_phoneNumber m = phoneNumber
         ∧ m ∈ MemStorage.map_values (MemStorage.botMessages st))
    ∧ (limit = None →
         List.length result = Nat.min 50 (List.length (messagesOf phoneNumber st)))
    ∧ (∀ n, limit = Some n → (0 ≤ n)%Z →
         List.length result = Nat.min (Z.to_nat n) (List.length (messagesOf phoneNumber st)))
    ∧ (∀ n, limit = Some n → (n < 0)%Z →
         List.length result = List.length (messagesOf phoneNumber st) - Z.to_nat (- n))
    ∧ (∀ n, limit = Some n → (Z.of_nat (List.length (messagesOf phoneNumber st)) ≤ n)%Z →
         result ≡ₚ messagesOf phoneNumber st)
    ∧ ∃ rest,
        result ++ rest ≡ₚ messagesOf phoneNumber st
        ∧ Forall (fun kept => Forall (notOlder kept) rest) result.
Proof.
  eexists. split; [reflexivity|].
  fold (messagesOf phoneNumber st).
  set (sorted := MemStorage.sort MemStorage.newestFirst (messagesOf phoneNumber st)).
  assert (Hlen : List.length sorted = List.length (messagesOf phoneNumber st))
    by (apply Permutation_length, sort_perm).
  assert (Hsorted : StronglySorted notOlder sorted) by apply sort_sorted.
  assert (Hin : ∀ n m, m ∈ take n sorted →
            bm_phoneNumber m = phoneNumber
            ∧ m ∈ MemStorage.map_values (MemStorage.botMessages st)).
  { intros n m Hm. apply (λ H, elem_of_sublist _ _ _ H (sublist_take _ n)) in Hm.
    unfold sorted in Hm. rewrite sort_perm in Hm. unfold messagesOf in Hm.
    apply list_elem_of_In, List.filter_In in Hm as [Hm Hp].
    split; [by apply String.eqb_eq | by apply list_elem_of_In]. }
  unfold MemStorage.slice0. fold sorted.
  assert (Hperm : sorted ≡ₚ messagesOf phoneNumber st) by apply sort_perm.
  clearbody sorted.
  split; [destruct (_ <? 0)%Z; by apply take_sorted|].
  split; [intros m; destruct (_ <? 0)%Z; by apply Hin|].
  split.
  { intros ->. change (default 50%Z None) with 50%Z. change (50 <? 0)%Z with false.
    cbv iota. rewrite length_take. lia. }
  split.
  { intros n -> Hn. change (default 50%Z (Some n)) with n.
    destruct (Z.ltb_spec n 0); [lia|]. rewrite length_take. lia. }
  split.
  { intros n -> Hn. change (default 50%Z (Some n)) with n.
    destruct (Z.ltb_spec n 0); [|lia]. rewrite length_take. lia. }
  split.
  { intros n -> Hn. change (default 50%Z (Some n)) with n.
    destruct (Z.ltb_spec n 0); [lia|].
    by rewrite take_ge by lia. }
  assert (Hcut : ∀ n, take n sorted ++ drop n sorted ≡ₚ messagesOf phoneNumber st
                      ∧ Forall (fun kept => Forall (notOlder kept) (drop n sorted))
                          (take n sorted)).
  { intros n. rewrite take_drop. split; [done|].
    apply sorted_app_apart. by rewrite take_drop. }
  destruct (_ <? 0)%Z; eexists; apply Hcut.
Qed.

(** X3: [getBotMessages] lists messages of the asked number only, all of
    them stored ones, newest first, and leaves the store as it is.  What it
    lists are the newest: together with the messages it leaves out it makes
    up the stored messages of the number, and none it leaves out is newer
    than any it lists.  Without a limit at most 50 come back; with a limit
    [n >= 0] the [n] newest (all, if there are fewer); a negative limit
    [-k] leaves out the [k] oldest instead of limiting anything. *)
Theorem getBotMessages_newest_first (phoneNumber : string) (limit : option Z)
    (st : MemStorage.t) :
  ∃ result,
    MemStorage.getBotMessages phoneNumber limit st = (Ok result, st)
    ∧ StronglySorted notOlder result
    ∧ (∀ m, m ∈ result →
         bm_phoneNumber m = phoneNumber
         ∧ m ∈ MemStorage.map_values (MemStorage.botMessages st))
    ∧ (limit = None →
         List.length result = Nat.min 50 (List.length (messagesOf phoneNumber st)))
    ∧ (∀ n, limit = Some n → (0 ≤ n)%Z →
         List.length result = Nat.min (Z.to_nat n) (List.length (messagesOf phoneNumber st)))
    ∧ (∀ n, limit = Some n → (n < 0)%Z →
         List.length result = List.length (messagesOf phoneNumber st) - Z.to_nat (- n))
    ∧ (∀ n, limit = Some n → (Z.of_nat (List.length (messagesOf phoneNumber st)) ≤ n)%Z →
         result ≡ₚ messagesOf phoneNumber st)
    ∧ ∃ rest,
        result ++ rest ≡ₚ messagesOf phoneNumber st
        ∧ Forall (fun kept => Forall (notOlder kept) rest) result.
Proof. apply getBotMessages_spec. Qed.

(** X4: a message logged under an id the store does not hold yet is the
    last of the stored messages of its number, those of other numbers and
    the leads stay as they were, and [getBotMessages] for its number lists
    it whenever the limit is not below the number of messages stored for
    that number. *)
Theorem logged_message_is_listed (insertMessage : InsertBotMessage) (st : MemStorage.t) :
  MemStorage.map_get (MemStorage.botMessages st) (uuid (MemStorage.uuidCalls st)) = None →
  ∃ message st',
    MemStorage.createBotMessage uuid clock insertMessage st = (Ok message, st')
    ∧ (bm_phoneNumber message, bm_messageType message, bm_content message, bm_isBot message)
      = (ibm_phoneNumber insertMessage, ibm_messageType insertMessage,
         ibm_content insertMessage, ibm_isBot insertMessage)
    ∧ messagesOf (ibm_phoneNumber insertMessage) st'
      = messagesOf (ibm_phoneNumber insertMessage) st ++ [message]
    ∧ (∀ phoneNumber, phoneNumber ≠ ibm_phoneNumber insertMessage →
         messagesOf phoneNumber st' = messagesOf phoneNumber st)
    ∧ MemStorage.leads st' = MemStorage.leads st
    ∧ (∀ limit result,
         (Z.of_nat (List.length (messagesOf (ibm_phoneNumber insertMessage) st')) ≤ limit)%Z →
         (MemStorage.getBotMessages (ibm_phoneNumber insertMessage) (Some limit) st').1
         = Ok result →
         message ∈ result).
Proof.
  intros Hfresh. eexists _, _. split; [reflexivity|]. split; [reflexivity|].
  match goal with |- ?own ∧ _ => assert (Hown : own) end.
  { unfold messagesOf, MemStorage.map_values. cbn.
    rewrite (map_set_fresh _ _ _ Hfresh), fmap_app, List.filter_app. cbn.
    by rewrite String.eqb_refl. }
  split; [exact Hown|]. split; [|split; [reflexivity|]].
  - intros p Hne. unfold messagesOf, MemStorage.map_values. cbn.
    rewrite (map_set_fresh _ _ _ Hfresh), fmap_app, List.filter_app. cbn.
    destruct (String.eqb_spec (ibm_phoneNumber insertMessage) p) as [E|_]; [congruence|].
    by rewrite app_nil_r.
  - intros limit result Hlimit Hresult.
    match type of Hresult with (MemStorage.getBotMessages ?p ?l ?s).1 = _ =>
      destruct (getBotMessages_spec p l s) as (result' & Hrun & _ & _ & _ & _ & _ & Hperm & _)
    end.
    rewrite Hrun in Hresult. injection Hresult as ->.
    rewrite (Hperm limit eq_refl Hlimit), Hown. apply elem_of_app. right. apply list_elem_of_here.
Qed.


(** *** Users and sessions *)

Lemma find_app_first {A} (f : A → bool) (l k : list A) :
  List.find f (l ++ k) = match List.find f l with Some x => Some x | None => List.find f k end.
Proof. induction l as [|x l IH]; cbn; [done|]. by destruct (f x). Qed.

(** X5: a user created under an id the store does not hold yet is found
    again by that id.  Usernames are not checked: a second user with a
    username already taken is stored too, and [getUserByUsername] goes on
    answering with the earlier one; lookups of other usernames are not
    affected. *)
Theorem createUser_then_find {J} (insertUser : InsertUser) (st : MemStorage.full J) :
  MemStorage.map_get (MemStorage.users st) (uuid (MemStorage.uuidCalls (MemStorage.core st)))
  = None →
  ∃ user st',
    MemStorage.createUser uuid insertUser st = (Ok user, st')
    ∧ user_username user = iu_username insertUser
    ∧ user_password user = iu_password insertUser
    ∧ (MemStorage.getUser (user_id user) st').1 = Ok (Some user)
    ∧ List.length (MemStorage.users st') = S (List.length (MemStorage.users st))
    ∧ (∀ earlier,
         (MemStorage.getUserByUsername (iu_username insertUser) st).1 = Ok earlier →
         (MemStorage.getUserByUsername (iu_username insertUser) st').1
         = Ok (Some (default user earlier)))
    ∧ (∀ username, username ≠ iu_username insertUser →
         (MemStorage.getUserByUsername username st').1
         = (MemStorage.getUserByUsername username st).1).
Proof.
  intros Hfresh. eexists _, _. split; [reflexivity|]. cbn.
  rewrite (map_set_fresh _ _ _ Hfresh). repeat split.
  - rewrite <- (map_set_fresh _ _ _ Hfresh). by rewrite map_get_set_eq.
  - rewrite length_app. cbn. lia.
  - intros earlier [= <-]. unfold MemStorage.map_values.
    rewrite fmap_app, find_app_first. cbn. rewrite String.eqb_refl.
    by destruct (List.find _ _).
  - intros username Hne. unfold MemStorage.map_values.
    rewrite fmap_app, find_app_first. cbn.
    destruct (String.eqb_spec (iu_username insertUser) username) as [E|_]; [congruence|].
    by destruct (List.find _ _).
Qed.

(** X6: sessions are keyed by phone number.  [createWhatsappSession]
    makes its row the session of that number, replacing the one the number
    had (the number of sessions then stays the same), with [isActive] as
    given, no default being applied; the sessions of other numbers, the
    leads, the messages and the users are not touched. *)
Theorem createWhatsappSession_then_get {J} (insertSession : InsertWhatsappSession J)
    (st : MemStorage.full J) :
  ∃ session st',
    MemStorage.createWhatsappSession uuid clock insertSession st = (Ok session, st')
    ∧ (MemStorage.getWhatsappSession (iws_phoneNumber insertSession) st').1 = Ok (Some session)
    ∧ ws_phoneNumber session = iws_phoneNumber insertSession
    ∧ ws_sessionData session = iws_sessionData insertSession
    ∧ ws_isActive session = iws_isActive insertSession
    ∧ (∀ phoneNumber, phoneNumber ≠ iws_phoneNumber insertSession →
         (MemStorage.getWhatsappSession phoneNumber st').1
         = (MemStorage.getWhatsappSession phoneNumber st).1)
    ∧ (is_Some (MemStorage.map_get (MemStorage.whatsappSessions st)
                  (iws_phoneNumber insertSession)) →
         (MemStorage.whatsappSessions st').*1 = (MemStorage.whatsappSessions st).*1)
    ∧ MemStorage.users st' = MemStorage.users st
    ∧ MemStorage.leads (MemStorage.core st') = MemStorage.leads (MemStorage.core st)
    ∧ MemStorage.botMessages (MemStorage.core st')
      = MemStorage.botMessages (MemStorage.core st).
Proof.
  eexists _, _. split; [reflexivity|]. cbn. repeat split.
  - by rewrite map_get_set_eq.
  - intros p Hne. by rewrite map_get_set_ne.
  - intros [old Hold]. by eapply map_set_keys.
Qed.

(** X7: [updateWhatsappSession] and [deactivateWhatsappSession] change
    nothing at all for a number without a session (the update answers
    undefined).  For a number with one, the update replaces [sessionData]
    and the deactivation sets [isActive] to 0, each setting [updatedAt] to
    the time of the call, read from the clock once, and keeping the id, the
    number, the creation time and the other of the two fields; the sessions
    of other numbers stay as they are. *)
Theorem session_update_and_deactivation {J} (phoneNumber : string) (sessionData : J)
    (st : MemStorage.full J) :
  (MemStorage.map_get (MemStorage.whatsappSessions st) phoneNumber = None →
     MemStorage.updateWhatsappSession clock phoneNumber sessionData st = (Ok None, st)
     ∧ MemStorage.deactivateWhatsappSession clock phoneNumber st = (Ok tt, st))
  ∧ (∀ session,
       MemStorage.map_get (MemStorage.whatsappSessions st) phoneNumber = Some session →
       ∃ updated st1 st2 deactivated,
         MemStorage.updateWhatsappSession clock phoneNumber sessionData st
         = (Ok (Some updated), st1)
         ∧ MemStorage.map_get (MemStorage.whatsappSessions st1) phoneNumber = Some updated
         ∧ ws_sessionData updated = sessionData
         ∧ ws_updatedAt updated = clock (MemStorage.dateCalls (MemStorage.core st))
         ∧ MemStorage.dateCalls (MemStorage.core st1)
           = S (MemStorage.dateCalls (MemStorage.core st))
         ∧ (ws_id updated, ws_phoneNumber updated, ws_isActive updated, ws_createdAt updated)
           = (ws_id session, ws_phoneNumber session, ws_isActive session,
              ws_createdAt session)
         ∧ MemStorage.deactivateWhatsappSession clock phoneNumber st = (Ok tt, st2)
         ∧ MemStorage.map_get (MemStorage.whatsappSessions st2) phoneNumber
           = Some deactivated
         ∧ ws_isActive deactivated = Some 0%Z
         ∧ ws_updatedAt deactivated = clock (MemStorage.dateCalls (MemStorage.core st))
         ∧ MemStorage.dateCalls (MemStorage.core st2)
           = S (MemStorage.dateCalls (MemStorage.core st))
         ∧ (ws_id deactivated, ws_phoneNumber deactivated, ws_sessionData deactivated,
            ws_createdAt deactivated)
           = (ws_id session, ws_phoneNumber session, ws_sessionData session,
              ws_createdAt session)
         ∧ (∀ other, other ≠ phoneNumber →
              MemStorage.map_get (MemStorage.whatsappSessions st1) other
              = MemStorage.map_get (MemStorage.whatsappSessions st) other
              ∧ MemStorage.map_get (MemStorage.whatsappSessions st2) other
                = MemStorage.map_get (MemStorage.whatsappSessions st) other)).
Proof.
  split.
  - intros Hget. unfold MemStorage.updateWhatsappSession, MemStorage.deactivateWhatsappSession.
    by rewrite Hget.
  - intros session Hget.
    unfold MemStorage.updateWhatsappSession, MemStorage.deactivateWhatsappSession.
    rewrite Hget. eexists _, _, _, _.
    split; [reflexivity|]. split; [cbn; apply map_get_set_eq|].
    split; [reflexivity|]. split; [reflexivity|]. split; [reflexivity|].
    split; [reflexivity|].
    split; [reflexivity|]. split; [cbn; apply map_get_set_eq|].
    split; [reflexivity|]. split; [reflexivity|]. split; [reflexivity|].
    split; [reflexivity|].
    intros other Hne. cbn. by rewrite !map_get_set_ne.
Qed.

End StoreProperties.

Lemma createLead_then_read_witness :
  ∃ lead st',
    MemStorage.createLead uuid clock (leadOfDraft "2348000000000@s.whatsapp.net" emptyLeadData)
      (storage submittedWorld)
    = (Ok lead, st')
    ∧ (MemStorage.getLeads st').1 = Ok [adaLead; lead]
    ∧ (MemStorage.getLeadsByPhoneNumber ada st').1 = Ok [adaLead].
Proof.
  destruct (createLead_then_read uuid clock
              (leadOfDraft "2348000000000@s.whatsapp.net" emptyLeadData)
              (storage submittedWorld))
    as (lead & st' & Hrun & _ & _ & _ & _ & _ & Hall & _ & Hother);
    [vm_compute; reflexivity|].
  exists lead, st'. split; [exact Hrun|]. split.
  - rewrite Hall. vm_compute. reflexivity.
  - rewrite (Hother ada) by discriminate. vm_compute. reflexivity.
Defined.

Lemma logged_message_is_listed_witness :
  ∃ message st',
    MemStorage.createBotMessage uuid clock (sentEntry ada "hello") (storage submittedWorld)
    = (Ok message, st')
    ∧ messagesOf ada st' = messagesOf ada (storage submittedWorld) ++ [message]
    ∧ List.length (messagesOf ada st') = 13%nat.
Proof.
  destruct (logged_message_is_listed uuid clock (sentEntry ada "hello")
              (storage submittedWorld))
    as (message & st' & Hrun & _ & Hown & _); [vm_compute; reflexivity|].
  cbn [ibm_phoneNumber sentEntry] in Hown.
  exists message, st'. split; [exact Hrun|]. split; [exact Hown|].
  rewrite Hown, length_app. vm_compute. reflexivity.
Defined.

Lemma createUser_then_find_witness :
  ∃ user st',
    MemStorage.createUser (J := unit) uuid {| iu_username := "ada"; iu_password := "pw" |}
      {| MemStorage.core := MemStorage.new;
         MemStorage.users :=
           [("u0", {| user_id := "u0"; user_username := "ada"; user_password := "first" |})];
         MemStorage.whatsappSessions := [] |}
    = (Ok user, st')
    ∧ (MemStorage.getUser (user_id user) st').1 = Ok (Some user)
    ∧ (MemStorage.getUserByUsername "ada" st').1
      = Ok (Some {| user_id := "u0"; user_username := "ada"; user_password := "first" |}).
Proof.
  destruct (createUser_then_find uuid (J := unit) {| iu_username := "ada"; iu_password := "pw" |}
              {| MemStorage.core := MemStorage.new;
                 MemStorage.users :=
                   [("u0", {| user_id := "u0"; user_username := "ada";
                              user_password := "first" |})];
                 MemStorage.whatsappSessions := [] |})
    as (user & st' & Hrun & _ & _ & Hid & _ & Hname & _); [vm_compute; reflexivity|].
  exists user, st'. split; [exact Hrun|]. split; [exact Hid|].
  by apply (Hname (Some {| user_id := "u0"; user_username := "ada";
                           user_password := "first" |})).
Defined.

(** ** The conversation engine *)

Section EngineProperties.

Context {ops : StringOps}.
Context {St : Type} {storageImpl : IStorage St}.
Context {Net : Type}.

Implicit Types (w : World St Net) (msg : WAMessage) (l : loc) (s : BotState).

Ltac wsimpl :=
  cbn [heap storage network userStates whatsappBot timers trace
       set_storage set_network set_userStates set_heap set_whatsappBot set_timers set_trace
       sock qrCodeGenerated isConnected set_sock set_qrCodeGenerated set_isConnected
       fst snd].

Ltac wsimpl_in H :=
  cbn [heap storage network userStates whatsappBot timers trace
       set_storage set_network set_userStates set_heap set_whatsappBot set_timers set_trace
       fst snd] in H.

Ltac splits := repeat match goal with |- _ ∧ _ => split end.

Ltac in_list :=
  solve [repeat first [apply list_elem_of_here | apply list_elem_of_further]].

(** *** The menu machine, branch by branch *)

Lemma getQuoteInfo_run l w s :
  heap w !! l = Some s →
  getQuoteInfo l w = (Ok getQuoteInfo_text, set_heap (<[l := inLeadForm s]> (heap w)) w).
Proof.
  intros Hl. unfold getQuoteInfo.
  erewrite bind_assign by eassumption.
  erewrite bind_assign by (wsimpl; eapply lookup_written, Hl).
  wsimpl. rewrite list_insert_insert_eq. reflexivity.
Qed.

Lemma quote_label_is_no_earlier_label (input : string) :
  isCase input casesQuote = true →
  isCase input casesCustomDevelopment = false ∧ isCase input casesProducts = false
  ∧ isCase input casesAI = false ∧ isCase input casesWebDev = false
  ∧ isCase input casesBlockchain = false ∧ isCase input casesVendra = false
  ∧ isCase input casesPortfolio = false.
Proof.
  intros H. apply isCase_elem, list_elem_of_In in H. cbn in H.
  repeat (destruct H as [<-|H]; [by repeat split|]). done.
Qed.

(** The form is entered exactly on [entersForm]; every other reply is
    informational and leaves the world as it is. *)
Lemma handleMainMenu_run phoneNumber text l w s :
  heap w !! l = Some s →
  ∃ reply,
    handleMainMenu phoneNumber text l w
    = (Ok reply,
       if entersForm (toLowerCase (trim text))
       then set_heap (<[l := inLeadForm s]> (heap w)) w else w)
    ∧ (if entersForm (toLowerCase (trim text))
       then reply = getQuoteInfo_text else reply ∈ informationalTexts).
Proof.
  intros Hl. unfold handleMainMenu, entersForm, registeredAliases.
  rewrite !isCase_app.
  set (input := toLowerCase (trim text)).
  pose proof (getQuoteInfo_run l w s Hl) as Hquote.
  assert (Hinfo : ∀ reply, reply ∈ informationalTexts →
            ∃ reply', (Ok reply, w) = (Ok reply', w) ∧ reply' ∈ informationalTexts)
    by (intros reply Hin; by exists reply).
  destruct (isCase input casesQuote) eqn:Hq.
  { destruct (quote_label_is_no_earlier_label _ Hq) as (-> & -> & -> & -> & -> & -> & ->).
    cbn [orb negb andb]. by exists getQuoteInfo_text. }
  repeat match goal with
         | |- context [if isCase input ?labels then _ else _] =>
             destruct (isCase input labels);
             [cbn [orb negb andb]; rewrite ?orb_true_r; cbn [orb negb andb]; apply Hinfo; unfold informationalTexts; in_list|]
         end.
  cbn [orb negb andb].
  destruct (includesAny input markersQuote); [by exists getQuoteInfo_text|].
  repeat match goal with
         | |- context [if includesAny input ?markers then _ else _] =>
             destruct (includesAny input markers);
             [apply Hinfo; unfold informationalTexts; in_list|]
         end.
  apply Hinfo. unfold informationalTexts. in_list.
Qed.

(** *** The lead form, branch by branch *)

Lemma handleLeadForm_answer phoneNumber text l w s :
  heap w !! l = Some s →
  (1 ≤ leadFormStep s ≤ 4)%nat →
  isCase (toLowerCase (trim text)) exitKeywords = false →
  handleLeadForm phoneNumber text l w
  = (Ok (promptAfter (leadFormStep s)),
     set_heap
       (<[l := set_leadFormStep (S (leadFormStep s))
                 (set_leadData (answered (leadFormStep s) (trim text) (leadData s)) s)]>
          (heap w)) w).
Proof.
  intros Hl Hstep Hexit. unfold handleLeadForm. rewrite Hexit.
  erewrite bind_ok by (by apply deref_run).
  destruct (leadFormStep s) as [|[|[|[|[|n]]]]] eqn:E; try lia.
  all: erewrite bind_assign by eassumption.
  all: erewrite bind_assign by (wsimpl; eapply lookup_written, Hl).
  all: wsimpl; rewrite list_insert_insert_eq; reflexivity.
Qed.

Lemma handleLeadForm_name phoneNumber text l w s r st2 :
  heap w !! l = Some s →
  leadFormStep s = 5 →
  isCase (toLowerCase (trim text)) exitKeywords = false →
  createLead (leadOfDraft phoneNumber (answered 5 (trim text) (leadData s))) (storage w)
  = (r, st2) →
  handleLeadForm phoneNumber text l w
  = (match r with
     | Ok _ => Ok (summary emptyLeadData)
     | Throw e => Throw e
     end,
     mkWorld st2 (network w) (userStates w)
       (<[l := match r with
               | Ok _ => freshState
               | Throw _ => set_leadData (answered 5 (trim text) (leadData s)) s
               end]> (heap w))
       (whatsappBot w) (timers w)
       (trace w ++ [EvCreateLead
                      (leadOfDraft phoneNumber (answered 5 (trim text) (leadData s)))])).
Proof.
  intros Hl Hstep Hexit Hcreate. unfold handleLeadForm. rewrite Hexit.
  erewrite bind_ok by (by apply deref_run). rewrite Hstep.
  erewrite bind_assign by eassumption.
  erewrite bind_ok by (apply deref_run; wsimpl; eapply lookup_written, Hl).
  destruct r as [lead|e].
  - erewrite bind_ok by (apply storage_createLead_run; wsimpl; apply Hcreate).
    erewrite bind_assign by (wsimpl; eapply lookup_written, Hl).
    erewrite bind_assign by (wsimpl; eapply lookup_written, lookup_written, Hl).
    erewrite bind_assign
      by (wsimpl; eapply lookup_written, lookup_written, lookup_written, Hl).
    erewrite bind_ok
      by (apply deref_run; wsimpl;
          eapply lookup_written, lookup_written, lookup_written, lookup_written, Hl).
    wsimpl. rewrite !list_insert_insert_eq. reflexivity.
  - erewrite bind_throw by (apply storage_createLead_run; wsimpl; apply Hcreate).
    reflexivity.
Qed.

Lemma handleLeadForm_other_step phoneNumber text l w s :
  heap w !! l = Some s →
  ¬ (1 ≤ leadFormStep s ≤ 5)%nat →
  isCase (toLowerCase (trim text)) exitKeywords = false →
  handleLeadForm phoneNumber text l w
  = (Ok getMainMenu,
     set_heap (<[l := set_leadFormStep 0 (set_currentMenu "main" s)]> (heap w)) w).
Proof.
  intros Hl Hstep Hexit. unfold handleLeadForm. rewrite Hexit.
  erewrite bind_ok by (by apply deref_run).
  destruct (leadFormStep s) as [|[|[|[|[|[|n]]]]]] eqn:E; try lia.
  all: erewrite bind_assign by eassumption.
  all: erewrite bind_assign by (wsimpl; eapply lookup_written, Hl).
  all: wsimpl; rewrite list_insert_insert_eq; reflexivity.
Qed.

(** *** The handlers as one step of the session machine *)

Lemma informational_nonempty (reply : string) :
  reply ∈ informationalTexts → reply ≠ EmptyString.
Proof.
  intros H. apply list_elem_of_In in H. unfold informationalTexts in H. cbn [In] in H.
  repeat (destruct H as [<-|H]; [discriminate|]). done.
Qed.

Lemma promptAfter_nonempty step : promptAfter step ≠ EmptyString.
Proof. destruct step as [|[|[|[|n]]]]; discriminate. Qed.

Lemma dispatch_run phoneNumber text l w s :
  heap w !! l = Some s →
  ∃ r w2 (evs : list Event),
    (if String.eqb (currentMenu s) "lead_form"
     then handleLeadForm phoneNumber text l
     else handleMainMenu phoneNumber text l) w = (r, w2)
    ∧ heap w2 = <[l := sessionAfter (takesLead (storage w) phoneNumber text s) text s]> (heap w)
    ∧ userStates w2 = userStates w
    ∧ whatsappBot w2 = whatsappBot w
    ∧ network w2 = network w
    ∧ trace w2 = trace w ++ evs
    ∧ leadsCreated evs = leadSubmitted phoneNumber text s
    ∧ sends evs = [] ∧ logged evs = []
    ∧ match r with
      | Ok reply => reply ≠ EmptyString
      | Throw _ =>
          completesForm text s = true ∧ takesLead (storage w) phoneNumber text s = false
      end.
Proof.
  intros Hl. unfold sessionAfter, leadSubmitted, completesForm.
  destruct (String.eqb (currentMenu s) "lead_form") eqn:Hmenu; cbn [andb].
  - destruct (isCase (toLowerCase (trim text)) exitKeywords) eqn:Hexit; cbn [andb negb].
    { erewrite handleLeadForm_exit by eassumption.
      eexists _, _, []. wsimpl. rewrite app_nil_r.
      repeat split; done. }
    destruct (decide (1 ≤ leadFormStep s ≤ 4)%nat) as [Hstep|Hstep].
    { erewrite handleLeadForm_answer by eassumption.
      eexists _, _, []. wsimpl. rewrite app_nil_r.
      assert (Nat.eqb (leadFormStep s) 5 = false) as -> by (apply Nat.eqb_neq; lia).
      repeat split; try done; try apply promptAfter_nonempty.
      by destruct (leadFormStep s) as [|[|[|[|[|n]]]]]; try lia. }
    destruct (decide (leadFormStep s = 5)) as [Hfive|Hfive].
    { unfold takesLead.
      destruct (createLead (leadOfDraft phoneNumber (answered 5 (trim text) (leadData s)))
                  (storage w)) as [r st2] eqn:Hcreate.
      erewrite handleLeadForm_name by eassumption. rewrite Hfive. cbn [Nat.eqb fst].
      destruct r as [lead|e].
      - eexists _, _, [_]. wsimpl. repeat split; done.
      - eexists _, _, [_]. wsimpl. repeat split; done. }
    erewrite handleLeadForm_other_step by (try eassumption; lia).
    eexists _, _, []. wsimpl. rewrite app_nil_r.
    assert (Nat.eqb (leadFormStep s) 5 = false) as -> by (by apply Nat.eqb_neq).
    repeat split; try done.
    by destruct (leadFormStep s) as [|[|[|[|[|[|n]]]]]]; try lia.
  - destruct (handleMainMenu_run phoneNumber text l w s Hl) as (reply & -> & Hreply).
    destruct (entersForm (toLowerCase (trim text))).
    + subst reply. eexists _, _, []. wsimpl. rewrite app_nil_r. repeat split; done.
    + eexists _, _, []. rewrite app_nil_r, list_insert_id by done.
      repeat split; try done. by apply informational_nonempty.
Qed.

Lemma finishMessage_frame (sock0 : option (Sock Net)) p l text w :
  text ≠ EmptyString →
  ∃ r w',
    finishMessage sock0 p l text w = (r, w')
    ∧ heap w' = heap w
    ∧ userStates w' = <[p := l]> (userStates w)
    ∧ whatsappBot w' = whatsappBot w
    ∧ trace w' = trace w ++ [EvSessionSet p] ++ replyEvents sock0 p text (network w).
Proof.
  intros Hne. unfold finishMessage, replyEvents.
  erewrite bind_ok by apply userStates_set_run.
  rewrite (nonempty_eqb _ Hne). cbn [negb].
  destruct sock0 as [sk|]; [|by eexists _, _].
  unfold bind, sendMessage_on, storage_createBotMessage, bind, emit, ret. wsimpl.
  destruct (sock_sendMessage sk p text (network w)) as [[[]|e] n]; wsimpl.
  - destruct (createBotMessage _ _) as [[bm|e] st2]; eexists _, _;
      (split; [reflexivity|]); wsimpl; by rewrite <- !app_assoc.
  - eexists _, _. split; [reflexivity|]. wsimpl. by rewrite <- !app_assoc.
Qed.

Lemma replyEvents_leads (sock0 : option (Sock Net)) p text net :
  leadsCreated (replyEvents sock0 p text net) = [].
Proof.
  unfold replyEvents. destruct sock0 as [sk|]; [|done].
  by destruct (sock_sendMessage sk p text net).1.
Qed.

(** *** [handleMessage] as one step of the session machine *)

Lemma handleMessage_log_rejected sock0 msg w e st1 :
  extractText msg ≠ EmptyString →
  createBotMessage (receivedEntry msg) (storage w) = (Throw e, st1) →
  handleMessage sock0 msg w
  = (Throw e, set_storage st1 (set_trace (trace w ++ [EvCreateBotMessage (receivedEntry msg)]) w)).
Proof.
  intros Hne Hlog. unfold handleMessage. rewrite (nonempty_eqb _ Hne).
  by erewrite bind_throw by (apply storage_createBotMessage_run, Hlog).
Qed.

Lemma handleMessage_shape sock0 msg w s bm st1 :
  extractText msg ≠ EmptyString →
  createBotMessage (receivedEntry msg) (storage w) = (Ok bm, st1) →
  sessionOf w (remoteJid (key msg)) = Some s →
  ∃ r w' l (evs fin : list Event),
    handleMessage sock0 msg w = (r, w')
    ∧ ((userStates w !! remoteJid (key msg) = Some l
        ∧ heap w'
          = <[l := sessionAfter (takesLead st1 (remoteJid (key msg)) (extractText msg) s)
                     (extractText msg) s]> (heap w))
       ∨ (userStates w !! remoteJid (key msg) = None
          ∧ l = List.length (heap w)
          ∧ heap w'
            = heap w ++ [sessionAfter (takesLead st1 (remoteJid (key msg)) (extractText msg) s)
                           (extractText msg) s]))
    ∧ userStates w' = <[remoteJid (key msg) := l]> (userStates w)
    ∧ whatsappBot w' = whatsappBot w
    ∧ trace w'
      = trace w
        ++ [EvCreateBotMessage (receivedEntry msg); EvSessionGet (remoteJid (key msg))]
        ++ evs ++ fin
    ∧ leadsCreated evs = leadSubmitted (remoteJid (key msg)) (extractText msg) s
    ∧ sends evs = [] ∧ logged evs = []
    ∧ (fin = []
       ∨ ∃ reply,
           fin = EvSessionSet (remoteJid (key msg))
                 :: replyEvents sock0 (remoteJid (key msg)) reply (network w)).
Proof.
  intros Hne Hlog Hsession. unfold sessionOf in Hsession.
  destruct (userStates w !! remoteJid (key msg)) as [l|] eqn:Hus.
  - erewrite handleMessage_found by eassumption.
    match goal with |- context [bind ?h _ ?w1] =>
      destruct (dispatch_run (remoteJid (key msg)) (extractText msg) l w1 s)
        as (r & w2 & evs & Hrun & Hheap & Hmap & Hbot & Hnet & Htrace & Hleads & Hsends
            & Hlogged & Hr);
        [exact Hsession|]
    end.
    wsimpl_in Hheap. wsimpl_in Hmap. wsimpl_in Hbot. wsimpl_in Hnet. wsimpl_in Htrace.
    wsimpl_in Hr.
    destruct r as [reply|e].
    + erewrite bind_ok by apply Hrun.
      destruct (finishMessage_frame sock0 (remoteJid (key msg)) l reply w2 Hr)
        as (r' & w' & -> & Hheap' & Hmap' & Hbot' & Htrace').
      exists r', w', l, evs,
        (EvSessionSet (remoteJid (key msg))
         :: replyEvents sock0 (remoteJid (key msg)) reply (network w)).
      split; [reflexivity|].
      rewrite Hheap', Hheap, Hmap', Hmap, Hbot', Hbot, Htrace', Htrace, Hnet.
      split; [by left|]. split; [done|]. split; [done|].
      split; [by rewrite <- !app_assoc|]. splits; try done. right. by exists reply.
    + erewrite bind_throw by apply Hrun.
      exists (Throw e), w2, l, evs, [].
      split; [reflexivity|]. rewrite Hheap, Hmap, Hbot, Htrace.
      split; [by left|]. split; [by rewrite insert_id|]. split; [done|].
      split; [by rewrite app_nil_r, <- !app_assoc|]. splits; try done. by left.
  - injection Hsession as <-.
    erewrite handleMessage_fresh by eassumption.
    match goal with |- context [bind ?h _ ?w1] =>
      destruct (dispatch_run (remoteJid (key msg)) (extractText msg)
                  (List.length (heap w)) w1 freshState)
        as (r & w2 & evs & Hrun & Hheap & Hmap & Hbot & Hnet & Htrace & Hleads & Hsends
            & Hlogged & Hr);
        [wsimpl; by apply list_lookup_middle|]
    end.
    cbn [currentMenu freshState String.eqb Ascii.eqb Bool.eqb] in Hrun.
    wsimpl_in Hheap. wsimpl_in Hmap. wsimpl_in Hbot. wsimpl_in Hnet. wsimpl_in Htrace.
    wsimpl_in Hr.
    rewrite insert_app_r_alt, Nat.sub_diag in Hheap by done. cbn [insert list_insert] in Hheap.
    destruct r as [reply|e].
    + erewrite bind_ok by apply Hrun.
      destruct (finishMessage_frame sock0 (remoteJid (key msg)) (List.length (heap w))
                  reply w2 Hr)
        as (r' & w' & -> & Hheap' & Hmap' & Hbot' & Htrace').
      exists r', w', (List.length (heap w)), evs,
        (EvSessionSet (remoteJid (key msg))
         :: replyEvents sock0 (remoteJid (key msg)) reply (network w)).
      split; [reflexivity|].
      rewrite Hheap', Hheap, Hmap', Hmap, Hbot', Hbot, Htrace', Htrace, Hnet.
      split; [by right|]. split; [done|]. split; [done|].
      split; [by rewrite <- !app_assoc|]. splits; try done. right. by exists reply.
    + destruct Hr as [Hcompletes _]. discriminate Hcompletes.
Qed.

(** *** The invariant of the session store *)

Lemma budgetOf_defined (input : string) : budgetOf input ≠ undefined.
Proof.
  unfold budgetOf, Js.or.
  destruct (getProperty budgetOptions input) as [| |v|k]; cbn [truthy]; try done.
  by destruct (negb _).
Qed.

Lemma timelineOf_defined (input : string) : timelineOf input ≠ undefined.
Proof.
  unfold timelineOf, Js.or.
  destruct (getProperty timelineOptions input) as [| |v|k]; cbn [truthy]; try done.
  by destruct (negb _).
Qed.

Lemma sessionAfter_wf accepted text s : wfSession s → wfSession (sessionAfter accepted text s).
Proof.
  pose proof budgetOf_defined as Hbudget. pose proof timelineOf_defined as Htimeline.
  unfold sessionAfter, wfSession, draftReady.
  intros [(Hmenu & Hstep & Hdata)|(Hmenu & Hstep & Hp & Hb & Ht & Hd)]; rewrite Hmenu.
  - change (String.eqb "main" "lead_form") with false. cbn match.
    destruct (entersForm _); [right|left; done].
    cbn [inLeadForm currentMenu leadFormStep leadData set_leadFormStep set_currentMenu].
    repeat split; try done; lia.
  - change (String.eqb "lead_form" "lead_form") with true. cbn match.
    destruct (isCase _ exitKeywords); [by left|].
    destruct (leadFormStep s) as [|[|[|[|[|[|n]]]]]] eqn:E; try lia.
    5: destruct accepted; [by left|].
    all: right; cbn; rewrite ?E; repeat split; try done; try lia.
    all: intros; first [apply Hbudget | apply Htimeline | apply Hp | apply Hb | apply Ht
                       | apply Hd]; lia.
Qed.

Lemma wfWorld_frame w w' :
  heap w' = heap w → userStates w' = userStates w → wfWorld w → wfWorld w'.
Proof. unfold wfWorld. by intros -> ->. Qed.

Lemma wfWorld_sessionOf w p : wfWorld w → ∃ s, sessionOf w p = Some s ∧ wfSession s.
Proof.
  intros (Hall & Hvalid & _). unfold sessionOf.
  destruct (userStates w !! p) as [l|] eqn:Hus.
  - destruct (lookup_lt_is_Some_2 (heap w) l) as [s Hs]; [by eapply Hvalid|].
    exists s. split; [done|]. by eapply Forall_lookup_1.
  - exists freshState. split; [done|]. by left.
Qed.

(** Writing the session of one number, in place or at a fresh address,
    keeps the invariant and leaves the sessions of the other numbers. *)
Lemma session_written w w' p l s' :
  wfWorld w → wfSession s' →
  ((userStates w !! p = Some l ∧ heap w' = <[l := s']> (heap w))
   ∨ (userStates w !! p = None ∧ l = List.length (heap w) ∧ heap w' = heap w ++ [s'])) →
  userStates w' = <[p := l]> (userStates w) →
  wfWorld w' ∧ sessionOf w' p = Some s' ∧ ∀ q, q ≠ p → sessionOf w' q = sessionOf w q.
Proof.
  intros (Hall & Hvalid & Hinj) Hs' Hheap Hmap. unfold wfWorld, sessionOf.
  rewrite Hmap. destruct Hheap as [[Hus ->]|(Hus & -> & ->)].
  - rewrite (insert_id _ _ _ Hus). repeat split.
    + by apply Forall_insert.
    + intros q l' Hq. rewrite length_insert. by eapply Hvalid.
    + done.
    + rewrite Hus. apply list_lookup_insert_eq. by eapply Hvalid.
    + intros q Hq. destruct (userStates w !! q) as [l'|] eqn:Hus'; [|done].
      apply list_lookup_insert_ne. intros <-. apply Hq. by eapply Hinj.
  - repeat split.
    + apply Forall_app. split; [done|]. by constructor.
    + intros q l' Hq. rewrite length_app. cbn [List.length].
      destruct (decide (q = p)) as [->|Hne].
      * rewrite lookup_insert_eq in Hq. injection Hq as <-. lia.
      * rewrite lookup_insert_ne in Hq by done. apply Hvalid in Hq. lia.
    + intros p1 p2 l' H1 H2.
      destruct (decide (p1 = p)) as [->|Hne1], (decide (p2 = p)) as [->|Hne2]; try done.
      * rewrite lookup_insert_eq in H1. injection H1 as <-.
        rewrite lookup_insert_ne in H2 by done. apply Hvalid in H2. lia.
      * rewrite lookup_insert_eq in H2. injection H2 as <-.
        rewrite lookup_insert_ne in H1 by done. apply Hvalid in H1. lia.
      * rewrite lookup_insert_ne in H1, H2 by done. by eapply Hinj.
    + rewrite lookup_insert_eq. by apply list_lookup_middle.
    + intros q Hq. rewrite lookup_insert_ne by done.
      destruct (userStates w !! q) as [l'|] eqn:Hus'; [|done].
      apply lookup_app_l. by eapply Hvalid.
Qed.

Lemma handleMessage_step sock0 msg w s bm st1 :
  wfWorld w →
  extractText msg ≠ EmptyString →
  createBotMessage (receivedEntry msg) (storage w) = (Ok bm, st1) →
  sessionOf w (remoteJid (key msg)) = Some s →
  ∃ r w' (evs : list Event),
    handleMessage sock0 msg w = (r, w')
    ∧ wfWorld w'
    ∧ sessionOf w' (remoteJid (key msg))
      = Some (sessionAfter (takesLead st1 (remoteJid (key msg)) (extractText msg) s)
                (extractText msg) s)
    ∧ (∀ q, q ≠ remoteJid (key msg) → sessionOf w' q = sessionOf w q)
    ∧ trace w' = trace w ++ evs
    ∧ leadsCreated evs = leadSubmitted (remoteJid (key msg)) (extractText msg) s.
Proof.
  intros Hwf Hne Hlog Hsession.
  destruct (wfWorld_sessionOf w (remoteJid (key msg)) Hwf) as (s0 & Hs0 & Hwfs).
  rewrite Hsession in Hs0. injection Hs0 as <-.
  destruct (handleMessage_shape sock0 msg w s bm st1 Hne Hlog Hsession)
    as (r & w' & l & evs & fin & Hrun & Hheap & Hmap & _ & Htrace & Hleads & _ & _ & Hfin).
  destruct (session_written w w' (remoteJid (key msg)) l _ Hwf
              (sessionAfter_wf _ (extractText msg) s Hwfs) Hheap Hmap)
    as (Hwf' & Hp & Hq).
  exists r, w', ([EvCreateBotMessage (receivedEntry msg); EvSessionGet (remoteJid (key msg))]
                 ++ evs ++ fin).
  splits; try done.
  rewrite !leadsCreated_app, Hleads. cbn [leadsCreated omap list_omap app].
  destruct Hfin as [->|(reply & ->)]; [by rewrite app_nil_r|].
  cbn [leadsCreated omap list_omap]. fold (leadsCreated (replyEvents sock0 (remoteJid (key msg)) reply (network w))).
  by rewrite replyEvents_leads, app_nil_r.
Qed.

Lemma sessionsOf_spec w : wfWorld w → ∀ q, sessionOf w q = Some (sessionsOf w q).
Proof.
  intros Hwf q. destruct (wfWorld_sessionOf w q Hwf) as (s & Hs & _).
  unfold sessionsOf. by rewrite Hs.
Qed.

Lemma leadSubmitted_complete p text s :
  wfSession s → Forall complete (leadSubmitted p text s).
Proof.
  unfold leadSubmitted, completesForm. intros Hwf.
  destruct (String.eqb_spec (currentMenu s) "lead_form") as [Hmenu|_]; [|by constructor].
  destruct (negb _); [|by constructor].
  destruct (Nat.eqb_spec (leadFormStep s) 5) as [Hstep|_]; [|by constructor].
  cbn [andb]. constructor; [|constructor].
  destruct Hwf as [(Hmain & _)|(_ & _ & Hp & Hb & Ht & Hd)]; [congruence|].
  rewrite Hstep in Hp, Hb, Ht, Hd.
  unfold complete, leadOfDraft, answered. cbn.
  repeat split; first [done | apply Hp | apply Hb | apply Ht | apply Hd]; lia.
Qed.

(** *** [handleMessages] and sequences of batches *)

Lemma incoming_Some m msg :
  incoming m = Some msg →
  head (messages m) = Some msg ∧ fromMe (key msg) = false ∧ extractText msg ≠ EmptyString.
Proof.
  unfold incoming. destruct (head (messages m)) as [msg'|]; [|done].
  destruct (fromMe (key msg')) eqn:Hfrom; [done|]. cbn [orb].
  destruct (String.eqb_spec (extractText msg') EmptyString); [done|].
  intros [= <-]. by repeat split.
Qed.

Lemma handleMessages_quiet m w : incoming m = None → handleMessages m w = (Ok tt, w).
Proof.
  unfold incoming, handleMessages. destruct (head (messages m)) as [msg|]; [|done].
  destruct (fromMe (key msg)); [done|]. cbn [orb].
  destruct (String.eqb_spec (extractText msg) EmptyString) as [Hempty|]; [|done].
  intros _. unfold try_catch, bind, this, handleMessage. by rewrite Hempty.
Qed.

Lemma handleMessages_run m msg w r w1 :
  head (messages m) = Some msg → fromMe (key msg) = false →
  handleMessage (sock (whatsappBot w)) msg w = (r, w1) →
  handleMessages m w
  = (Ok tt,
     match r with
     | Ok _ => w1
     | Throw e => set_trace (trace w1 ++ [EvLoggerError "Error handling message:" e]) w1
     end).
Proof.
  intros Hhead Hfrom Hrun. unfold handleMessages. rewrite Hhead, Hfrom.
  unfold try_catch, bind, this. rewrite Hrun. by destruct r as [[]|e].
Qed.

Lemma handleMessages_step m w (sessions : string → BotState) :
  wfWorld w →
  (∀ q, sessionOf w q = Some (sessions q)) →
  ∃ w' (evs : list Event),
    handleMessages m w = (Ok tt, w')
    ∧ wfWorld w'
    ∧ trace w' = trace w ++ evs
    ∧ Forall complete (leadsCreated evs)
    ∧ (neverRejects storageImpl →
       (∀ q, sessionOf w' q = Some (turn m sessions q))
       ∧ leadsCreated evs
         = match incoming m with
           | Some msg =>
               leadSubmitted (remoteJid (key msg)) (extractText msg)
                 (sessions (remoteJid (key msg)))
           | None => []
           end).
Proof.
  intros Hwf Hsessions. unfold turn.
  destruct (incoming m) as [msg|] eqn:Hin.
  2: { exists w, []. rewrite handleMessages_quiet, app_nil_r by done.
       splits; try done; constructor. }
  destruct (incoming_Some _ _ Hin) as (Hhead & Hfrom & Hne).
  destruct (wfWorld_sessionOf w (remoteJid (key msg)) Hwf) as (s & Hs & Hwfs).
  assert (sessions (remoteJid (key msg)) = s) as Hsp
    by (specialize (Hsessions (remoteJid (key msg))); congruence).
  subst s.
  destruct (createBotMessage (receivedEntry msg) (storage w)) as [[bm|e] st1] eqn:Hlog.
  - destruct (handleMessage_step (sock (whatsappBot w)) msg w _ bm st1 Hwf Hne Hlog Hs)
      as (r & w1 & evs & Hrun & Hwf1 & Hp & Hq & Htrace & Hleads).
    erewrite handleMessages_run by eassumption.
    assert (Hturn : neverRejects storageImpl →
              ∀ q, sessionOf w1 q
                   = Some (<[remoteJid (key msg) :=
                               sessionAfter true (extractText msg)
                                 (sessions (remoteJid (key msg)))]> sessions q)).
    { intros [_ Hcreate] q. destruct (decide (q = remoteJid (key msg))) as [->|Hne'].
      - rewrite fn_lookup_insert, Hp. unfold takesLead.
        by destruct (Hcreate (leadOfDraft (remoteJid (key msg))
                                (answered 5 (trim (extractText msg))
                                   (leadData (sessions (remoteJid (key msg)))))) st1)
          as (lead & st2 & ->).
      - rewrite fn_lookup_insert_ne by done. by rewrite Hq. }
    destruct r as [[]|e].
    + exists w1, evs. rewrite Hleads.
      splits; try done; [by apply leadSubmitted_complete|].
      intros Hnever. split; [by apply Hturn|done].
    + eexists _, (evs ++ [EvLoggerError "Error handling message:" e]).
      split; [reflexivity|]. wsimpl.
      rewrite leadsCreated_app, Hleads, Htrace, app_nil_r, app_assoc.
      splits; try done; [by apply leadSubmitted_complete|].
      intros Hnever. split; [by apply Hturn|done].
  - rewrite (handleMessages_run m msg w _ _ Hhead Hfrom
               (handleMessage_log_rejected _ msg w e st1 Hne Hlog)).
    eexists _, [EvCreateBotMessage (receivedEntry msg);
                EvLoggerError "Error handling message:" e].
    split; [reflexivity|]. wsimpl. rewrite <- app_assoc.
    splits; try done; try (by constructor).
    intros [Hnever _]. destruct (Hnever (receivedEntry msg) (storage w))
        as (bm & st' & Hok). congruence.
Qed.

Lemma handleBatches_invariant batches : ∀ w,
  wfWorld w →
  ∃ w' (evs : list Event),
    handleBatches batches w = (Ok tt, w')
    ∧ wfWorld w'
    ∧ trace w' = trace w ++ evs
    ∧ Forall complete (leadsCreated evs).
Proof.
  induction batches as [|m rest IH]; intros w Hwf.
  - exists w, []. rewrite app_nil_r. splits; try done; constructor.
  - destruct (handleMessages_step m w (sessionsOf w) Hwf (sessionsOf_spec w Hwf))
      as (w1 & evs1 & Hrun1 & Hwf1 & Htrace1 & Hcomplete1 & _).
    destruct (IH w1 Hwf1) as (w' & evs & Hrun & Hwf' & Htrace & Hcomplete).
    exists w', (evs1 ++ evs).
    cbn [handleBatches]. erewrite bind_ok by apply Hrun1.
    rewrite Htrace, Htrace1, leadsCreated_app, app_assoc.
    splits; try done. by apply Forall_app.
Qed.

Lemma handleBatches_run batches : ∀ w (sessions : string → BotState),
  neverRejects storageImpl →
  wfWorld w →
  (∀ q, sessionOf w q = Some (sessions q)) →
  ∃ w' (evs : list Event),
    handleBatches batches w = (Ok tt, w')
    ∧ trace w' = trace w ++ evs
    ∧ (∀ q, sessionOf w' q = Some (sessionsAfter batches sessions q))
    ∧ leadsCreated evs = leadsOf batches sessions.
Proof.
  induction batches as [|m rest IH]; intros w sessions Hnever Hwf Hsessions.
  - exists w, []. by rewrite app_nil_r.
  - destruct (handleMessages_step m w sessions Hwf Hsessions)
      as (w1 & evs1 & Hrun1 & Hwf1 & Htrace1 & _ & Hrefines).
    destruct (Hrefines Hnever) as [Hsessions1 Hleads1].
    destruct (IH w1 _ Hnever Hwf1 Hsessions1) as (w' & evs & Hrun & Htrace & Hsessions' & Hleads).
    exists w', (evs1 ++ evs).
    cbn [handleBatches sessionsAfter leadsOf]. erewrite bind_ok by apply Hrun1.
    by rewrite Htrace, Htrace1, leadsCreated_app, app_assoc, Hleads1, Hleads.
Qed.

(** *** A whole conversation of one number *)

Lemma extractText_textMessage (jid text : string) : extractText (textMessage jid text) = text.
Proof. unfold extractText, textMessage. cbn. by destruct text. Qed.

Lemma incoming_textBatch (jid text : string) :
  text ≠ EmptyString → incoming (textBatch jid text) = Some (textMessage jid text).
Proof.
  intros Hne. unfold incoming, textBatch. cbn [messages head key fromMe textMessage orb].
  fold (textMessage jid text). by rewrite extractText_textMessage, (nonempty_eqb _ Hne).
Qed.

Lemma entersForm_nonempty (text : string) :
  entersForm (toLowerCase (trim text)) = true → text ≠ EmptyString.
Proof. intros H ->. by rewrite trim_empty, toLowerCase_empty in H. Qed.

Lemma quote_conversation_pure p t0 t1 t2 t3 t4 t5 (sessions : string → BotState) :
  currentMenu (sessions p) = "main" →
  leadData (sessions p) = emptyLeadData →
  entersForm (toLowerCase (trim t0)) = true →
  Forall (fun t => t ≠ EmptyString ∧ isCase (toLowerCase (trim t)) exitKeywords = false)
    [t1; t2; t3; t4; t5] →
  sessionsAfter (textBatch p <$> [t0; t1; t2; t3; t4; t5]) sessions p = freshState
  ∧ leadsOf (textBatch p <$> [t0; t1; t2; t3; t4; t5]) sessions
    = [ {| il_phoneNumber := p;
           il_name := str (trim t5);
           il_projectType := str (trim t1);
           il_budget := budgetOf (trim t2);
           il_timeline := timelineOf (trim t3);
           il_description := str (trim t4);
           il_status := str "new" |} ].
Proof.
  intros Hmenu Hdata Henter Hanswers.
  pose proof (entersForm_nonempty _ Henter) as H0.
  apply Forall_cons in Hanswers as [[H1 E1] Hanswers].
  apply Forall_cons in Hanswers as [[H2 E2] Hanswers].
  apply Forall_cons in Hanswers as [[H3 E3] Hanswers].
  apply Forall_cons in Hanswers as [[H4 E4] Hanswers].
  apply Forall_cons in Hanswers as [[H5 E5] _].
  cbn [fmap list_fmap sessionsAfter leadsOf]. unfold turn.
  rewrite !incoming_textBatch by done.
  cbn [textMessage key remoteJid]. fold (textMessage p t0) (textMessage p t1)
    (textMessage p t2) (textMessage p t3) (textMessage p t4) (textMessage p t5).
  rewrite !extractText_textMessage, !fn_lookup_insert.
  destruct (sessions p) as [menu step data]. cbn in Hmenu, Hdata. subst menu data.
  assert (∀ a text s, currentMenu s = "lead_form" →
            isCase (toLowerCase (trim text)) exitKeywords = false →
            (1 ≤ leadFormStep s ≤ 4)%nat →
            sessionAfter a text s
            = set_leadFormStep (S (leadFormStep s))
                (set_leadData (answered (leadFormStep s) (trim text) (leadData s)) s)
            ∧ leadSubmitted p text s = []) as Hanswer.
  { intros a text s Hm He Hs. unfold sessionAfter, leadSubmitted, completesForm.
    rewrite Hm, He. change (String.eqb "lead_form" "lead_form") with true.
    destruct (leadFormStep s) as [|[|[|[|[|n]]]]]; try lia; done. }
  match goal with
  | |- context [sessionAfter true t0 ?s] =>
      assert (sessionAfter true t0 s = inLeadForm s ∧ leadSubmitted p t0 s = []) as [-> ->]
        by (unfold sessionAfter, leadSubmitted, completesForm; cbn [currentMenu];
            change (String.eqb "main" "lead_form") with false; by rewrite Henter)
  end.
  unfold inLeadForm, set_leadFormStep, set_currentMenu.
  cbn [currentMenu leadFormStep leadData].
  repeat match goal with
         | |- context [sessionAfter true ?t (mkBotState "lead_form" ?k ?d)] =>
             destruct (Hanswer true t (mkBotState "lead_form" k d) eq_refl
                         ltac:(assumption) ltac:(cbn [leadFormStep]; lia)) as [-> ->];
             unfold set_leadFormStep, set_leadData; cbn [currentMenu leadFormStep leadData]
         end.
  unfold sessionAfter, leadSubmitted, completesForm.
  cbn [currentMenu leadFormStep leadData].
  change (String.eqb "lead_form" "lead_form") with true.
  rewrite E5. split; reflexivity.
Qed.

(** *** The statements *)

(** X8: [handleMainMenu] never throws and calls neither the store nor the
    socket.  It opens the lead form, by way of [getQuoteInfo], exactly
    when the normalised text is a quote label, or is no label at all and
    contains a quote marker; the reply is then the quote prompt and the
    only change is that the session object is at step 1 of the form.  In
    every other case the reply is one of the nine informational texts and
    nothing at all changes. *)
Theorem main_menu_informs_or_opens_the_form phoneNumber text l w s :
  heap w !! l = Some s →
  ∃ reply,
    handleMainMenu phoneNumber text l w
    = (Ok reply,
       if entersForm (toLowerCase (trim text))
       then set_heap (<[l := inLeadForm s]> (heap w)) w else w)
    ∧ (if entersForm (toLowerCase (trim text))
       then reply = getQuoteInfo_text else reply ∈ informationalTexts).
Proof. apply handleMainMenu_run. Qed.

(** X9: the labels of the [switch] of [handleMainMenu] are pairwise
    distinct, so that a text whose normal form is a label of an
    informational group gets the text of that very group, whatever markers
    the label contains, and nothing changes. *)
Theorem menu_label_gets_the_text_of_its_group labels reply phoneNumber text l w :
  (labels, reply) ∈ menuReplies →
  isCase (toLowerCase (trim text)) labels = true →
  handleMainMenu phoneNumber text l w = (Ok reply, w).
Proof.
  intros Hin Hcase. apply list_elem_of_In in Hin. apply isCase_elem, list_elem_of_In in Hcase.
  unfold handleMainMenu. unfold menuReplies in Hin. cbn [In] in Hin.
  repeat (destruct Hin as [[= <- <-]|Hin];
          [cbn [In casesCustomDevelopment casesProducts casesAI casesWebDev casesBlockchain
                casesVendra casesPortfolio casesContact casesMainMenu] in Hcase;
           repeat (destruct Hcase as [<-|Hcase]; [reflexivity|]); destruct Hcase|]).
  destruct Hin.
Qed.

(** X10: at steps 1 to 4 of the lead form, a text that is no exit keyword
    is answered with the question of the next step; the step goes up by
    exactly one, the draft changes in the field of the step only, and
    neither the store, the socket, the session map nor the record of calls
    is touched. *)
Theorem lead_form_answer_advances_one_step phoneNumber text l w s :
  heap w !! l = Some s →
  (1 ≤ leadFormStep s ≤ 4)%nat →
  isCase (toLowerCase (trim text)) exitKeywords = false →
  handleLeadForm phoneNumber text l w
  = (Ok (promptAfter (leadFormStep s)),
     set_heap
       (<[l := set_leadFormStep (S (leadFormStep s))
                 (set_leadData (answered (leadFormStep s) (trim text) (leadData s)) s)]>
          (heap w)) w).
Proof. apply handleLeadForm_answer. Qed.

(** X11: on a well-formed session store, a message with text whose log
    entry the store takes makes [handleMessage] take one step of the
    session machine for the sender: the sender's session becomes
    [sessionAfter], the session of every other number stays what it was,
    the leads submitted are those of [leadSubmitted] (one at the last
    answer of the form, none otherwise), and the session store is
    well-formed again; all this whether the call returns or throws. *)
Theorem handleMessage_is_one_step_of_the_session_machine sock0 msg w s bm st1 :
  wfWorld w →
  extractText msg ≠ EmptyString →
  createBotMessage (receivedEntry msg) (storage w) = (Ok bm, st1) →
  sessionOf w (remoteJid (key msg)) = Some s →
  sessionOf (handleMessage sock0 msg w).2 (remoteJid (key msg))
  = Some (sessionAfter (takesLead st1 (remoteJid (key msg)) (extractText msg) s)
            (extractText msg) s)
  ∧ (∀ q, q ≠ remoteJid (key msg) → sessionOf (handleMessage sock0 msg w).2 q = sessionOf w q)
  ∧ leadsCreated (newEvents (trace w) (trace (handleMessage sock0 msg w).2))
    = leadSubmitted (remoteJid (key msg)) (extractText msg) s
  ∧ wfWorld (handleMessage sock0 msg w).2.
Proof.
  intros Hwf Hne Hlog Hsession.
  destruct (handleMessage_step sock0 msg w s bm st1 Hwf Hne Hlog Hsession)
    as (r & w' & evs & -> & Hwf' & Hp & Hq & Htrace & Hleads).
  cbn [snd]. rewrite Htrace, newEvents_app. by splits.
Qed.

(** X12: of a message with text, [handleMessage] logs the inbound
    text before it does anything else, also before it looks the session
    up, and whether or not the store takes the entry.  It hands at most one
    reply to the socket, and logs the reply only after the socket has taken
    it: without a socket, or when the socket rejects the send, no reply is
    logged. *)
Theorem inbound_is_logged_first_and_a_reply_after_its_delivery sock0 msg w :
  wfWorld w →
  extractText msg ≠ EmptyString →
  ∃ replies : list string,
    head (newEvents (trace w) (trace (handleMessage sock0 msg w).2))
    = Some (EvCreateBotMessage (receivedEntry msg))
    ∧ logged (newEvents (trace w) (trace (handleMessage sock0 msg w).2))
      = receivedEntry msg :: (sentEntry (remoteJid (key msg)) <$> replies)
    ∧ (List.length (sends (newEvents (trace w) (trace (handleMessage sock0 msg w).2))) ≤ 1)%nat
    ∧ (replies = []
       ∨ ∃ reply sk,
           replies = [reply]
           ∧ sock0 = Some sk
           ∧ sends (newEvents (trace w) (trace (handleMessage sock0 msg w).2))
             = [(remoteJid (key msg), reply)]
           ∧ (sock_sendMessage sk (remoteJid (key msg)) reply (network w)).1 = Ok tt).
Proof.
  intros Hwf Hne.
  destruct (createBotMessage (receivedEntry msg) (storage w)) as [[bm|e] st1] eqn:Hlog.
  2: { rewrite (handleMessage_log_rejected sock0 msg w e st1 Hne Hlog). wsimpl.
       rewrite newEvents_app. exists []. cbn. splits; try done; [lia|by left]. }
  destruct (wfWorld_sessionOf w (remoteJid (key msg)) Hwf) as (s & Hs & _).
  destruct (handleMessage_shape sock0 msg w s bm st1 Hne Hlog Hs)
    as (r & w' & l & evs & fin & -> & _ & _ & _ & Htrace & _ & Hsends & Hlogged & Hfin).
  cbn [snd]. rewrite Htrace, newEvents_app.
  rewrite !logged_app, !sends_app, Hsends, Hlogged.
  cbn [app head logged sends omap list_omap]. fold (logged fin) (sends fin).
  destruct Hfin as [->|(reply & ->)].
  { exists []. cbn. splits; try done; [lia|by left]. }
  cbn [logged sends omap list_omap]. unfold replyEvents.
  destruct sock0 as [sk|].
  2: { exists []. cbn. splits; try done; [lia|by left]. }
  destruct (sock_sendMessage sk (remoteJid (key msg)) reply (network w)).1 as [[]|e] eqn:Hsend.
  - exists [reply]. cbn. splits; try done. right. by exists reply, sk.
  - exists []. cbn. splits; try done. by left.
Qed.

(** X13: [handleMessages] keeps the session store well-formed and returns
    normally, batch after batch, for every store and every socket: every
    session object is at rest in the main menu with an empty draft, or in
    the form at a step from 1 to 5 with the answers to the earlier steps in
    its draft, and no two numbers share a session object. *)
Theorem batches_keep_the_session_store_well_formed batches w :
  wfWorld w →
  (handleBatches batches w).1 = Ok tt ∧ wfWorld (handleBatches batches w).2.
Proof.
  intros Hwf. destruct (handleBatches_invariant batches w Hwf) as (w' & evs & -> & Hwf' & _).
  by split.
Qed.

(** X14: starting from a well-formed session store, every lead the
    engine submits, in any sequence of batches, has all five answers: no
    field of it is [undefined]. *)
Theorem every_submitted_lead_is_complete batches w :
  wfWorld w →
  Forall complete (leadsCreated (newEvents (trace w) (trace (handleBatches batches w).2))).
Proof.
  intros Hwf.
  destruct (handleBatches_invariant batches w Hwf) as (w' & evs & -> & _ & Htrace & Hcomplete).
  cbn [snd]. by rewrite Htrace, newEvents_app.
Qed.

(** X15: over a store that rejects nothing, the sessions of all numbers
    after a sequence of batches are those of the session machine run on
    the events that reach the handlers, each number by itself, and the
    leads submitted are those of the machine, in order. *)
Theorem conversations_follow_the_session_machine batches w :
  neverRejects storageImpl →
  wfWorld w →
  (∀ q, sessionOf (handleBatches batches w).2 q
        = Some (sessionsAfter batches (sessionsOf w) q))
  ∧ leadsCreated (newEvents (trace w) (trace (handleBatches batches w).2))
    = leadsOf batches (sessionsOf w).
Proof.
  intros Hnever Hwf.
  destruct (handleBatches_run batches w (sessionsOf w) Hnever Hwf (sessionsOf_spec w Hwf))
    as (w' & evs & -> & Htrace & Hsessions & Hleads).
  cbn [snd]. by rewrite Htrace, newEvents_app.
Qed.

(** X16: a number at rest in the main menu that asks for a quote and then
    sends five texts, none of them empty or an exit keyword, gets exactly
    one lead: the project type, the description and the name are the
    trimmed texts, the budget and the timeline are the trimmed texts seen
    through their tables, the status is 'new'; and the number is back at
    rest.  This holds for every socket, also one that fails to send, over
    a store that rejects nothing. *)
Theorem quote_request_and_five_answers_yield_one_lead p t0 t1 t2 t3 t4 t5 w :
  neverRejects storageImpl →
  wfWorld w →
  currentMenu (sessionsOf w p) = "main" →
  entersForm (toLowerCase (trim t0)) = true →
  Forall (fun t => t ≠ EmptyString ∧ isCase (toLowerCase (trim t)) exitKeywords = false)
    [t1; t2; t3; t4; t5] →
  sessionOf (handleBatches (textBatch p <$> [t0; t1; t2; t3; t4; t5]) w).2 p = Some freshState
  ∧ leadsCreated
      (newEvents (trace w)
         (trace (handleBatches (textBatch p <$> [t0; t1; t2; t3; t4; t5]) w).2))
    = [ {| il_phoneNumber := p;
           il_name := str (trim t5);
           il_projectType := str (trim t1);
           il_budget := budgetOf (trim t2);
           il_timeline := timelineOf (trim t3);
           il_description := str (trim t4);
           il_status := str "new" |} ].
Proof.
  intros Hnever Hwf Hmenu Henter Hanswers.
  destruct (handleBatches_run (textBatch p <$> [t0; t1; t2; t3; t4; t5]) w (sessionsOf w)
              Hnever Hwf (sessionsOf_spec w Hwf))
    as (w' & evs & -> & Htrace & Hsessions & Hleads).
  assert (leadData (sessionsOf w p) = emptyLeadData) as Hdata.
  { destruct (wfWorld_sessionOf w p Hwf) as (s & Hs & Hwfs).
    unfold sessionsOf in Hmenu |- *. rewrite Hs in Hmenu |- *. cbn [default from_option id] in Hmenu |- *.
    destruct Hwfs as [(_ & _ & Hd)|(Hform & _)]; [done|].
    rewrite Hform in Hmenu. discriminate Hmenu. }
  destruct (quote_conversation_pure p t0 t1 t2 t3 t4 t5 (sessionsOf w) Hmenu Hdata Henter
              Hanswers) as [Hsession Hlead].
  cbn [snd]. by rewrite Htrace, newEvents_app, Hsessions, Hsession, Hleads, Hlead.
Qed.

End EngineProperties.

Lemma initialWorld_wf : wfWorld initialWorld.
Proof.
  split; [constructor|]. split; intros *; cbn [userStates initialWorld];
    by rewrite lookup_empty.
Qed.

Lemma memStorage_neverRejects : neverRejects memStorage.
Proof. split; intros; eexists _, _; reflexivity. Qed.

Lemma main_menu_informs_or_opens_the_form_witness :
  ∃ reply,
    handleMainMenu (ops := AsciiOps.ops) ada "I need a Quote"
      0 (set_heap [freshState] initialWorld)
    = (Ok reply, set_heap [inLeadForm freshState] initialWorld)
    ∧ reply = getQuoteInfo_text.
Proof.
  destruct (main_menu_informs_or_opens_the_form (ops := AsciiOps.ops) ada "I need a Quote"
              0 (set_heap [freshState] initialWorld) freshState eq_refl)
    as (reply & Hrun & Hreply).
  exists reply. split; [exact Hrun | exact Hreply].
Defined.

Lemma menu_label_gets_the_text_of_its_group_witness :
  handleMainMenu (ops := AsciiOps.ops) ada " Machine Learning " 0 initialWorld
  = (Ok getAIInfo, initialWorld).
Proof.
  apply (menu_label_gets_the_text_of_its_group (ops := AsciiOps.ops) casesAI).
  - unfold menuReplies. apply list_elem_of_further, list_elem_of_further, list_elem_of_here.
  - reflexivity.
Defined.

Lemma lead_form_answer_advances_one_step_witness :
  ∃ w',
    handleLeadForm (ops := AsciiOps.ops) ada "2" 0 midFormWorld = (Ok timelinePrompt, w')
    ∧ sessionOf w' ada
      = Some {| currentMenu := "lead_form"; leadFormStep := 3;
                leadData := {| ld_projectType := str "1"; ld_budget := str "₦500K - ₦1M";
                               ld_timeline := undefined; ld_description := undefined;
                               ld_name := undefined |} |}.
Proof.
  eexists. split.
  - apply (lead_form_answer_advances_one_step (ops := AsciiOps.ops) (storageImpl := memStorage)
             ada "2" 0 midFormWorld
             {| currentMenu := "lead_form"; leadFormStep := 2;
                leadData := {| ld_projectType := str "1"; ld_budget := undefined;
                               ld_timeline := undefined; ld_description := undefined;
                               ld_name := undefined |} |}).
    + vm_compute. reflexivity.
    + cbn [leadFormStep]. lia.
    + reflexivity.
  - vm_compute. reflexivity.
Defined.

Lemma handleMessage_is_one_step_of_the_session_machine_witness :
  sessionOf (handleMessage (ops := AsciiOps.ops) (Some deliveringSock) (textMessage ada "8")
               initialWorld).2 ada
  = Some (inLeadForm freshState).
Proof.
  edestruct (handleMessage_is_one_step_of_the_session_machine (ops := AsciiOps.ops)
               (Some deliveringSock) (textMessage ada "8") initialWorld freshState)
    as (Hsession & _).
  - exact initialWorld_wf.
  - discriminate.
  - reflexivity.
  - reflexivity.
  - exact Hsession.
Defined.

Lemma inbound_is_logged_first_and_a_reply_after_its_delivery_witness :
  ∃ replies : list string,
    logged (newEvents (trace initialWorld)
              (trace (handleMessage (ops := AsciiOps.ops) (Some deliveringSock)
                        (textMessage ada "hello") initialWorld).2))
    = receivedEntry (textMessage ada "hello") :: (sentEntry ada <$> replies).
Proof.
  destruct (inbound_is_logged_first_and_a_reply_after_its_delivery (ops := AsciiOps.ops)
              (Some deliveringSock) (textMessage ada "hello") initialWorld initialWorld_wf)
    as (replies & _ & Hlogged & _); [discriminate|].
  exists replies. exact Hlogged.
Defined.

Lemma batches_keep_the_session_store_well_formed_witness :
  wfWorld (handleBatches (ops := AsciiOps.ops) (textBatch ada <$> ["8"; "1"; "exit"])
             initialWorld).2.
Proof.
  apply (batches_keep_the_session_store_well_formed (ops := AsciiOps.ops)
           (textBatch ada <$> ["8"; "1"; "exit"]) initialWorld initialWorld_wf).
Defined.

Lemma every_submitted_lead_is_complete_witness :
  Forall complete
    (leadsCreated
       (newEvents (trace initialWorld)
          (trace (handleBatches (ops := AsciiOps.ops)
                    (textBatch ada <$> ["8"; "1"; "2"; "3 weeks"; "build me an app"; "Ada"])
                    initialWorld).2))).
Proof.
  apply (every_submitted_lead_is_complete (ops := AsciiOps.ops)
           (textBatch ada <$> ["8"; "1"; "2"; "3 weeks"; "build me an app"; "Ada"])
           initialWorld initialWorld_wf).
Defined.

Lemma conversations_follow_the_session_machine_witness :
  sessionOf (handleBatches (ops := AsciiOps.ops)
               [textBatch ada "8"; textBatch "2348000000000@s.whatsapp.net" "hello";
                textBatch ada "1"] initialWorld).2 ada
  = Some (sessionsAfter (ops := AsciiOps.ops)
            [textBatch ada "8"; textBatch "2348000000000@s.whatsapp.net" "hello";
             textBatch ada "1"] (sessionsOf initialWorld) ada).
Proof.
  apply (conversations_follow_the_session_machine (ops := AsciiOps.ops)
           [textBatch ada "8"; textBatch "2348000000000@s.whatsapp.net" "hello";
            textBatch ada "1"] initialWorld memStorage_neverRejects initialWorld_wf).
Defined.

Lemma quote_request_and_five_answers_yield_one_lead_witness :
  leadsCreated
    (newEvents (trace initialWorld)
       (trace (handleBatches (ops := AsciiOps.ops)
                 (textBatch ada <$> ["8"; "1"; "2"; "3 weeks"; "build me an app"; "Ada"])
                 initialWorld).2))
  = [ {| il_phoneNumber := ada; il_name := str "Ada"; il_projectType := str "1";
         il_budget := str "₦500K - ₦1M"; il_timeline := str "3 weeks";
         il_description := str "build me an app"; il_status := str "new" |} ].
Proof.
  apply (quote_request_and_five_answers_yield_one_lead (ops := AsciiOps.ops) ada
           "8" "1" "2" "3 weeks" "build me an app" "Ada" initialWorld
           memStorage_neverRejects initialWorld_wf).
  - reflexivity.
  - reflexivity.
  - repeat constructor; discriminate.
Defined.

(** ** The connection manager *)

Section ConnectionProperties.

Context {St : Type} {storageImpl : IStorage St}.
Context {Net : Type}.
Variable reasons : DisconnectReasonT.

Implicit Types (w : World St Net) (u : ConnectionUpdate).

Ltac wsimpl :=
  cbn [heap storage network userStates whatsappBot timers trace
       set_storage set_network set_userStates set_heap set_whatsappBot set_timers set_trace
       sock qrCodeGenerated isConnected set_sock set_qrCodeGenerated set_isConnected
       fst snd].

Ltac splits := repeat match goal with |- _ ∧ _ => split end.

Ltac in_list :=
  solve [repeat first [apply list_elem_of_here | apply list_elem_of_further]].

Ltac exists_delays delays :=
  eexists _, delays; wsimpl; rewrite ?app_nil_r;
  splits; try reflexivity; repeat constructor; in_list.

Lemma qrPrinted_app (a b : list Event) : qrPrinted (a ++ b) = qrPrinted a ++ qrPrinted b.
Proof. unfold qrPrinted. apply omap_app. Qed.

(** One update: what is printed, and the flags afterwards. *)
Lemma handleConnectionUpdate_step u w :
  ∃ w' (evs : list Event),
    handleConnectionUpdate reasons u w = (Ok tt, w')
    ∧ trace w' = trace w ++ evs
    ∧ qrPrinted evs
      = (if qrCodeGenerated (whatsappBot w) then [] else option_list (offersQr u))
    ∧ qrCodeGenerated (whatsappBot w')
      = (if rearms reasons u then false
         else qrCodeGenerated (whatsappBot w)
              || match offersQr u with Some _ => true | None => false end)
    ∧ isConnected (whatsappBot w')
      = (if isStatus (connection u) "close" then false
         else if isStatus (connection u) "open" then true
         else isConnected (whatsappBot w))
    ∧ sock (whatsappBot w') = sock (whatsappBot w)
    ∧ storage w' = storage w ∧ network w' = network w
    ∧ heap w' = heap w ∧ userStates w' = userStates w.
Proof.
  unfold handleConnectionUpdate, offersQr, rearms.
  unfold bind, this, update_this, emit, ret, setTimeout.
  destruct w as [st net us hp [sk flag conn] tm tr]. wsimpl.
  destruct (qr u) as [code|]; [destruct (String.eqb code EmptyString), flag|];
    cbn [negb andb orb]; wsimpl.
  all: destruct (isStatus (connection u) "close");
    [destruct (isReason (statusCodeOf u) (loggedOut reasons));
     [|destruct (isReason (statusCodeOf u) (restartRequired reasons));
       [|destruct (isReason (statusCodeOf u) (timedOut reasons)
                   || isReason (statusCodeOf u) (connectionLost reasons))]]
    |destruct (isStatus (connection u) "open");
     [|destruct (isStatus (connection u) "connecting")]].
  all: wsimpl; eexists _, _; (split; [reflexivity|]); wsimpl; rewrite <- ?app_assoc.
  all: try (split; [reflexivity|]).
  all: try (split; [symmetry; apply app_nil_r|]).
  all: cbn; splits; try reflexivity.
  all: by destruct flag.
Qed.

Lemma handleUpdates_quiet updates : ∀ w,
  Forall (fun u => rearms reasons u = false) updates →
  ∃ w' (evs : list Event),
    handleUpdates reasons updates w = (Ok tt, w')
    ∧ trace w' = trace w ++ evs
    ∧ qrPrinted evs
      = (if qrCodeGenerated (whatsappBot w) then [] else take 1 (omap offersQr updates))
    ∧ qrCodeGenerated (whatsappBot w')
      = (qrCodeGenerated (whatsappBot w)
         || match omap offersQr updates with [] => false | _ => true end).
Proof.
  induction updates as [|u rest IH]; intros w Hquiet.
  - exists w, []. rewrite app_nil_r. cbn. rewrite orb_false_r. by destruct (qrCodeGenerated _).
  - apply Forall_cons in Hquiet as [Hu Hrest].
    destruct (handleConnectionUpdate_step u w)
      as (w1 & evs1 & Hrun1 & Htrace1 & Hqr1 & Hflag1 & _).
    destruct (IH w1 Hrest) as (w' & evs & Hrun & Htrace & Hqr & Hflag).
    exists w', (evs1 ++ evs). cbn [handleUpdates]. unfold bind at 1. rewrite Hrun1, Hrun.
    rewrite Htrace, Htrace1, app_assoc, qrPrinted_app, Hqr1, Hqr, Hflag, Hflag1, Hu.
    cbn [omap list_omap]. fold (omap offersQr rest).
    destruct (qrCodeGenerated (whatsappBot w)), (offersQr u) as [code|];
      cbn; rewrite ?app_nil_r; splits; try reflexivity.
    all: by destruct (omap offersQr rest).
Qed.

(** X17: however many updates offer a QR code, at most one is printed,
    the first, until the connection opens or the device is logged out; and
    none while the flag of a printed code is up.  [handleConnectionUpdate]
    never throws. *)
Theorem qr_code_is_printed_once_until_rearmed updates w :
  Forall (fun u => rearms reasons u = false) updates →
  (handleUpdates reasons updates w).1 = Ok tt
  ∧ qrPrinted (newEvents (trace w) (trace (handleUpdates reasons updates w).2))
    = (if qrCodeGenerated (whatsappBot w) then [] else take 1 (omap offersQr updates)).
Proof.
  intros Hquiet.
  destruct (handleUpdates_quiet updates w Hquiet) as (w' & evs & -> & Htrace & Hqr & _).
  cbn [fst snd]. by rewrite Htrace, newEvents_app.
Qed.

(** X18: an update that opens the connection, or closes it because the
    device was logged out, brings the flag down, whatever it was and
    whether or not the update itself carried a QR code: the code offered
    by the next update is printed. *)
Theorem open_or_logout_rearms_the_qr_code u u' code w :
  rearms reasons u = true →
  offersQr u' = Some code →
  qrPrinted
    (newEvents (trace (handleConnectionUpdate reasons u w).2)
       (trace (handleUpdates reasons [u; u'] w).2))
  = [code].
Proof.
  intros Hu Hcode.
  destruct (handleConnectionUpdate_step u w) as (w1 & evs1 & Hrun1 & _ & _ & Hflag1 & _).
  destruct (handleConnectionUpdate_step u' w1) as (w2 & evs2 & Hrun2 & Htrace2 & Hqr2 & _).
  cbn [handleUpdates]. unfold bind, ret. rewrite Hrun1, Hrun2. cbn [snd].
  rewrite Htrace2, newEvents_app, Hqr2, Hflag1, Hu, Hcode. reflexivity.
Qed.

Lemma handleUpdates_timers updates : ∀ w,
  ∃ w' (delays : list Z),
    handleUpdates reasons updates w = (Ok tt, w')
    ∧ timers w' = timers w ++ ((fun delay => (delay, CallStart)) <$> delays)
    ∧ List.length delays
      = List.length
          (List.filter
             (fun u => isStatus (connection u) "close"
                       && negb (isReason (statusCodeOf u) (loggedOut reasons)))
             updates)
    ∧ Forall (fun delay => delay ∈ [2000; 5000; 3000]%Z) delays.
Proof.
  induction updates as [|u rest IH]; intros w.
  - exists w, []. cbn. rewrite app_nil_r. splits; try done.
  - assert (∃ w1 (delays1 : list Z),
              handleConnectionUpdate reasons u w = (Ok tt, w1)
              ∧ timers w1 = timers w ++ ((fun delay => (delay, CallStart)) <$> delays1)
              ∧ List.length delays1
                = (if isStatus (connection u) "close"
                      && negb (isReason (statusCodeOf u) (loggedOut reasons))
                   then 1 else 0)%nat
              ∧ Forall (fun delay => delay ∈ [2000; 5000; 3000]%Z) delays1)
      as (w1 & delays1 & Hrun1 & Htimers1 & Hlen1 & Hall1).
    { unfold handleConnectionUpdate, bind, this, update_this, emit, ret, setTimeout.
      destruct w as [st net us hp [sk flag conn] tm tr]. wsimpl.
      destruct (qr u) as [code|]; [destruct (String.eqb code EmptyString), flag|];
        cbn [negb andb orb]; wsimpl.
      all: destruct (isStatus (connection u) "close");
        [destruct (isReason (statusCodeOf u) (loggedOut reasons));
         [exists_delays (@nil Z)
         |destruct (isReason (statusCodeOf u) (restartRequired reasons));
          [exists_delays [2000%Z]
          |destruct (isReason (statusCodeOf u) (timedOut reasons)
                     || isReason (statusCodeOf u) (connectionLost reasons));
           [exists_delays [5000%Z] | exists_delays [3000%Z]]]]
        |destruct (isStatus (connection u) "open");
         [exists_delays (@nil Z)
         |destruct (isStatus (connection u) "connecting"); exists_delays (@nil Z)]]. }
    destruct (IH w1) as (w' & delays & Hrun & Htimers & Hlen & Hall).
    exists w', (delays1 ++ delays). cbn [handleUpdates]. unfold bind at 1.
    rewrite Hrun1, Hrun, Htimers, Htimers1, fmap_app, app_assoc, length_app, Hlen1, Hlen.
    cbn [List.filter].
    splits; try done; [|by apply Forall_app].
    by destruct (isStatus (connection u) "close" && _).
Qed.

(** X19: whatever the updates, [handleConnectionUpdate] returns
    normally.  A restart is scheduled by an update that closes the
    connection for a reason other than a log-out, one per such update, 2, 3
    or 5 seconds ahead, and by nothing else; timers already set stay. *)
Theorem one_restart_per_close_unless_logged_out updates w :
  ∃ delays : list Z,
    (handleUpdates reasons updates w).1 = Ok tt
    ∧ timers (handleUpdates reasons updates w).2
      = timers w ++ ((fun delay => (delay, CallStart)) <$> delays)
    ∧ List.length delays
      = List.length
          (List.filter
             (fun u => isStatus (connection u) "close"
                       && negb (isReason (statusCodeOf u) (loggedOut reasons)))
             updates)
    ∧ Forall (fun delay => delay ∈ [2000; 5000; 3000]%Z) delays.
Proof.
  destruct (handleUpdates_timers updates w) as (w' & delays & -> & H).
  exists delays. by split.
Qed.

End ConnectionProperties.

(** ** Sending, stopping and the routes *)

Section OutwardProperties.

Context {St : Type} {storageImpl : IStorage St}.
Context {Net : Type}.

Implicit Types (w : World St Net).

Ltac wsimpl :=
  cbn [heap storage network userStates whatsappBot timers trace
       set_storage set_network set_userStates set_heap set_whatsappBot set_timers set_trace
       sock qrCodeGenerated isConnected set_sock set_qrCodeGenerated set_isConnected
       fst snd].

Ltac splits := repeat match goal with |- _ ∧ _ => split end.

Lemma includes_app_r (s t sub : string) :
  includes t sub = true → includes (s +:+ t) sub = true.
Proof.
  intros H. induction s as [|c s IH]; [done|].
  change (String c s +:+ t) with (String c (s +:+ t)).
  change (includes (String c (s +:+ t)) sub)
    with (if String.prefix sub (String c (s +:+ t)) then true else includes (s +:+ t) sub).
  by destruct (String.prefix sub (String c (s +:+ t))).
Qed.

Lemma includes_toJid (phoneNumber : string) : includes (toJid phoneNumber) "@" = true.
Proof.
  unfold toJid. destruct (includes phoneNumber "@") eqn:E; [done|].
  by apply includes_app_r.
Qed.

Lemma sendMessage_guard phoneNumber message w :
  isConnected (whatsappBot w) = false ∨ sock (whatsappBot w) = None →
  sendMessage phoneNumber message w = (Throw (Error "WhatsApp bot not connected"), w).
Proof.
  unfold sendMessage, bind, this. intros [->| ->]; [done|].
  by destruct (isConnected (whatsappBot w)).
Qed.

Lemma sendMessage_run phoneNumber message sk w :
  isConnected (whatsappBot w) = true →
  sock (whatsappBot w) = Some sk →
  sendMessage phoneNumber message w
  = ((sock_sendMessage sk (toJid phoneNumber) message (network w)).1,
     set_network (sock_sendMessage sk (toJid phoneNumber) message (network w)).2
       (set_trace
          (trace w
           ++ [EvSendMessage (toJid phoneNumber) message;
               match (sock_sendMessage sk (toJid phoneNumber) message (network w)).1 with
               | Ok _ => EvLoggerInfo ("Message sent to " +:+ phoneNumber)
               | Throw e => EvLoggerError "Error sending message:" e
               end]) w)).
Proof.
  intros Hconn Hsock. unfold sendMessage, bind at 1, this. cbv beta iota.
  rewrite Hconn, Hsock, bool_decide_eq_true_2 by eauto. cbn [negb orb].
  unfold try_catch, bind, sendMessage_on, bind, emit, throw. wsimpl.
  destruct (sock_sendMessage sk (toJid phoneNumber) message (network w)) as [[[]|e] n];
    wsimpl; by rewrite <- ?app_assoc.
Qed.

(** X20: when the bot is connected, [sendMessage] hands the text to the
    socket once, addressed to a jid: the number itself if it contains an
    [@], the number followed by [@s.whatsapp.net] otherwise, so the address
    always contains an [@].  The call settles as the socket's call does: a
    rejection is thrown on as it is.  Store and sessions are not touched. *)
Theorem sendMessage_addresses_a_jid phoneNumber message sk w :
  isConnected (whatsappBot w) = true →
  sock (whatsappBot w) = Some sk →
  (sendMessage phoneNumber message w).1
  = (sock_sendMessage sk (toJid phoneNumber) message (network w)).1
  ∧ network (sendMessage phoneNumber message w).2
    = (sock_sendMessage sk (toJid phoneNumber) message (network w)).2
  ∧ sends (newEvents (trace w) (trace (sendMessage phoneNumber message w).2))
    = [(toJid phoneNumber, message)]
  ∧ includes (toJid phoneNumber) "@" = true
  ∧ (includes phoneNumber "@" = true → toJid phoneNumber = phoneNumber)
  ∧ storage (sendMessage phoneNumber message w).2 = storage w
  ∧ heap (sendMessage phoneNumber message w).2 = heap w
  ∧ userStates (sendMessage phoneNumber message w).2 = userStates w.
Proof.
  intros Hconn Hsock. rewrite (sendMessage_run _ _ sk) by done. wsimpl.
  rewrite newEvents_app. splits; try done.
  - cbn. by destruct (sock_sendMessage _ _ _ _).1.
  - apply includes_toJid.
  - unfold toJid. by intros ->.
Qed.

Lemma generatePairingCode_not_connected phoneNumber sk w :
  sock (whatsappBot w) = Some sk → isConnected (whatsappBot w) = false →
  generatePairingCode phoneNumber w
  = (Throw (Error "WhatsApp bot not connected. Please wait for connection or scan QR code."),
     w).
Proof.
  intros Hsock Hconn. unfold generatePairingCode, bind at 1, this. cbv beta iota.
  by rewrite Hsock, Hconn.
Qed.

(** X21: once an update has closed the connection, nothing goes out until
    it opens again: [sendMessage] throws 'WhatsApp bot not connected',
    [generatePairingCode] throws its own 'not connected' error, and neither
    calls the socket or changes anything. *)
Theorem after_a_close_nothing_goes_out reasons u phoneNumber message w :
  isStatus (connection u) "close" = true →
  sendMessage phoneNumber message (handleConnectionUpdate reasons u w).2
  = (Throw (Error "WhatsApp bot not connected"), (handleConnectionUpdate reasons u w).2)
  ∧ (is_Some (sock (whatsappBot w)) →
     generatePairingCode phoneNumber (handleConnectionUpdate reasons u w).2
     = (Throw (Error
                 "WhatsApp bot not connected. Please wait for connection or scan QR code."),
        (handleConnectionUpdate reasons u w).2)).
Proof.
  intros Hclose.
  destruct (handleConnectionUpdate_step reasons u w)
    as (w' & evs & -> & _ & _ & _ & Hconn & Hsock & _).
  rewrite Hclose in Hconn. cbn [snd]. split.
  - apply sendMessage_guard. by left.
  - intros [sk Hsk]. apply (generatePairingCode_not_connected _ sk); congruence.
Qed.

Lemma stop_run (logout : Net → outcome unit * Net) sk w :
  sock (whatsappBot w) = Some sk →
  stop logout w
  = match logout (network w) with
    | (Ok _, n) =>
        (Ok tt,
         set_trace (trace w ++ [EvLoggerInfo "WhatsApp bot stopped"])
           (set_whatsappBot (set_isConnected false (whatsappBot w)) (set_network n w)))
    | (Throw e, n) => (Throw e, set_network n w)
    end.
Proof.
  intros Hsock. unfold stop, bind at 1, this. cbv beta iota. rewrite Hsock.
  unfold bind, update_this, emit. by destruct (logout (network w)) as [[[]|e] n].
Qed.

(** X22: [stop] does nothing without a socket.  With one it logs out; if
    the log-out resolves the bot is marked disconnected, and [sendMessage]
    throws from then on; if the log-out rejects, [stop] rejects with the
    same error and the bot stays marked as it was. *)
Theorem stop_marks_disconnected_when_logout_resolves
    (logout : Net → outcome unit * Net) phoneNumber message w :
  (sock (whatsappBot w) = None → stop logout w = (Ok tt, w))
  ∧ (is_Some (sock (whatsappBot w)) →
     network (stop logout w).2 = (logout (network w)).2
     ∧ match (logout (network w)).1 with
       | Ok _ =>
           (stop logout w).1 = Ok tt
           ∧ isConnected (whatsappBot (stop logout w).2) = false
           ∧ sendMessage phoneNumber message (stop logout w).2
             = (Throw (Error "WhatsApp bot not connected"), (stop logout w).2)
       | Throw e =>
           (stop logout w).1 = Throw e
           ∧ whatsappBot (stop logout w).2 = whatsappBot w
           ∧ trace (stop logout w).2 = trace w
       end).
Proof.
  split.
  - intros Hsock. unfold stop, bind at 1, this. cbv beta iota. by rewrite Hsock.
  - intros [sk Hsock]. rewrite (stop_run logout sk w Hsock).
    destruct (logout (network w)) as [[[]|e] n]; wsimpl; [|done].
    splits; try done; apply sendMessage_guard; by left.
Qed.

(** *** The routes *)

Lemma missing_false (field : string) : field ≠ EmptyString → missing (Some field) = false.
Proof. intros H. unfold missing. by apply String.eqb_neq. Qed.

(** X23: the two routes that act on the bot answer 400, and do nothing,
    when a field they need is absent or the empty string. *)
Theorem routes_refuse_missing_fields (phoneNumber message : option string) w :
  (missing phoneNumber = true →
   postPairCode phoneNumber w
   = (Ok {| http_status := 400; http_body := BodyError "Phone number is required" None |}, w))
  ∧ (missing phoneNumber = true ∨ missing message = true →
     postSendMessage phoneNumber message w
     = (Ok {| http_status := 400;
              http_body := BodyError "Phone number and message are required" None |}, w)).
Proof.
  split.
  - intros H. unfold postPairCode, try_catch. by rewrite H.
  - intros H. unfold postSendMessage, try_catch.
    assert (missing phoneNumber || missing message = true) as ->; [|done].
    apply orb_true_iff. by destruct H; [left|right].
Qed.

(** X24: with the bot connected, the pair-code route never throws and
    leaves store and sessions alone.  A number whose digits are fewer than
    10 or more than 15 is answered 500, not 400, with the wrapped message,
    and the socket is not asked.  Otherwise the socket is asked once, for
    the digits only; its code is answered with status 200 together with
    the number as it was given, and its rejection with status 500 and the
    wrapped message. *)
Theorem pair_code_route_answers (number : string) sk w :
  number ≠ EmptyString →
  sock (whatsappBot w) = Some sk →
  isConnected (whatsappBot w) = true →
  ∃ resp w',
    postPairCode (Some number) w = (Ok resp, w')
    ∧ storage w' = storage w ∧ heap w' = heap w ∧ userStates w' = userStates w
    ∧ if (String.length (replaceNonDigits number) <? 10)%nat
         || (15 <? String.length (replaceNonDigits number))%nat
      then
        resp = {| http_status := 500;
                  http_body :=
                    BodyError "Failed to generate pairing code"
                      (Some "Failed to generate pairing code: Invalid phone number format") |}
        ∧ pairingRequests (newEvents (trace w) (trace w')) = []
      else
        pairingRequests (newEvents (trace w) (trace w')) = [replaceNonDigits number]
        ∧ resp
          = match (sock_requestPairingCode sk (replaceNonDigits number) (network w)).1 with
            | Ok code =>
                {| http_status := 200; http_body := BodyPairingCode code number |}
            | Throw e =>
                {| http_status := 500;
                   http_body :=
                     BodyError "Failed to generate pairing code"
                       (Some ("Failed to generate pairing code: " +:+ messageOf e)) |}
            end.
Proof.
  intros Hne Hsock Hconn. unfold postPairCode. rewrite (missing_false _ Hne).
  cbn [default from_option id].
  unfold try_catch at 1, bind at 1, generatePairingCode, bind at 1, this. cbv beta iota.
  rewrite Hsock, Hconn. cbn [negb]. unfold try_catch.
  destruct ((String.length (replaceNonDigits number) <? 10)%nat
            || (15 <? String.length (replaceNonDigits number))%nat).
  - unfold throw, bind, emit, ret. eexists _, _. split; [reflexivity|]. wsimpl.
    by rewrite newEvents_app.
  - unfold requestPairingCode_on, bind, emit, ret, throw. wsimpl.
    destruct (sock_requestPairingCode sk (replaceNonDigits number) (network w))
      as [[code|e] n]; wsimpl.
    + eexists _, _. split; [reflexivity|]. wsimpl.
      by rewrite <- app_assoc, newEvents_app.
    + eexists _, _. split; [reflexivity|]. wsimpl.
      by rewrite <- app_assoc, newEvents_app.
Qed.

(** X25: with the bot connected, the send-message route never throws and
    leaves the sessions alone.  It hands the text to the socket once, and
    writes a log entry only for a text the socket took: of type 'sent',
    not marked as a bot message, under the number as it was given rather
    than the jid.  The answer is 200 when both the socket and the store
    resolve, and 500 with the error's message otherwise: also for a text
    that was delivered but could not be logged. *)
Theorem send_route_logs_what_was_delivered (number text : string) sk w :
  number ≠ EmptyString →
  text ≠ EmptyString →
  sock (whatsappBot w) = Some sk →
  isConnected (whatsappBot w) = true →
  ∃ resp w',
    postSendMessage (Some number) (Some text) w = (Ok resp, w')
    ∧ heap w' = heap w ∧ userStates w' = userStates w
    ∧ sends (newEvents (trace w) (trace w')) = [(toJid number, text)]
    ∧ match (sock_sendMessage sk (toJid number) text (network w)).1 with
      | Ok _ =>
          logged (newEvents (trace w) (trace w'))
          = [ {| ibm_phoneNumber := number; ibm_messageType := "sent";
                 ibm_content := text; ibm_isBot := 0 |} ]
          ∧ resp
            = match (createBotMessage
                       {| ibm_phoneNumber := number; ibm_messageType := "sent";
                          ibm_content := text; ibm_isBot := 0 |} (storage w)).1 with
              | Ok _ =>
                  {| http_status := 200; http_body := BodySuccess "Message sent successfully" |}
              | Throw e =>
                  {| http_status := 500;
                     http_body := BodyError "Failed to send message" (Some (messageOf e)) |}
              end
      | Throw e =>
          logged (newEvents (trace w) (trace w')) = []
          ∧ resp = {| http_status := 500;
                      http_body := BodyError "Failed to send message" (Some (messageOf e)) |}
      end.
Proof.
  intros Hnumber Htext Hsock Hconn. unfold postSendMessage.
  rewrite (missing_false _ Hnumber), (missing_false _ Htext). cbn [orb default from_option id].
  unfold try_catch at 1, bind at 1. rewrite (sendMessage_run _ _ sk) by done.
  destruct (sock_sendMessage sk (toJid number) text (network w)) as [[[]|e] n]; wsimpl.
  - unfold bind, storage_createBotMessage, bind, emit, ret. wsimpl.
    destruct (createBotMessage _ (storage w)) as [[bm|e] st']; wsimpl.
    + eexists _, _. split; [reflexivity|]. wsimpl.
      by rewrite <- app_assoc, newEvents_app.
    + eexists _, _. split; [reflexivity|]. wsimpl.
      by rewrite <- app_assoc, newEvents_app.
  - unfold ret. eexists _, _. split; [reflexivity|]. wsimpl.
    by rewrite newEvents_app.
Qed.

End OutwardProperties.

(** ** The reading routes over the in-memory store *)

Section ReadRoutes.

Variable uuid : nat → string.
Variable clock : nat → Z.
Context {Net : Type}.

(** X26: over the in-memory store the three reading routes answer 200
    and change nothing.  The leads of a number are those of the list of
    all leads that carry the number, in the same order.  The messages
    answered are stored messages of the number, newest first, and they are
    the newest: with the ones left out they make up the stored messages of
    the number, and none left out is newer than any answered.  An absent,
    unparsable or zero [limit] gives 50 of them (all, if there are fewer),
    a positive one that many, and a negative one is passed on as it is,
    which leaves out that many of the oldest. *)
Theorem reading_routes_answer_200_and_change_nothing
    (phoneNumber : string) (parsed : option Z) (w : World MemStorage.t Net) :
  ∃ leads messages,
    getLeadsRoute (storageImpl := MemStorage.storage uuid clock) w
    = (Ok {| http_status := 200; http_body := BodyLeads leads |}, w)
    ∧ getLeadsByPhoneNumberRoute phoneNumber w
      = (Ok {| http_status := 200;
               http_body :=
                 BodyLeads
                   (List.filter (fun lead => isString phoneNumber (lead_phoneNumber lead))
                      leads) |}, w)
    ∧ getMessagesRoute phoneNumber parsed w
      = (Ok {| http_status := 200; http_body := BodyMessages messages |}, w)
    ∧ StronglySorted notOlder messages
    ∧ (∃ rest,
         messages ++ rest ≡ₚ messagesOf phoneNumber (storage w)
         ∧ Forall (fun kept => Forall (notOlder kept) rest) messages)
    ∧ (parsed = None ∨ parsed = Some 0%Z →
       List.length messages
       = Nat.min 50 (List.length (messagesOf phoneNumber (storage w))))
    ∧ (∀ n, parsed = Some n → (0 < n)%Z →
       List.length messages
       = Nat.min (Z.to_nat n) (List.length (messagesOf phoneNumber (storage w))))
    ∧ (∀ n, parsed = Some n → (n < 0)%Z →
       List.length messages
       = List.length (messagesOf phoneNumber (storage w)) - Z.to_nat (- n)).
Proof.
  destruct (getBotMessages_spec phoneNumber (Some (limitOrDefault parsed)) (storage w))
    as (messages & Hrun & Hsorted & _ & _ & Hpos & Hneg & _ & Hnewest).
  exists (MemStorage.map_values (MemStorage.leads (storage w))), messages.
  unfold getLeadsRoute, getLeadsByPhoneNumberRoute, getMessagesRoute, try_catch, bind, ret.
  rewrite Hrun. destruct w as [st net us hp bot tm tr].
  cbn [storage set_storage getLeads MemStorage.storage MemStorage.getLeads
       MemStorage.getLeadsByPhoneNumber].
  split; [reflexivity|]. split; [reflexivity|]. split; [reflexivity|].
  split; [exact Hsorted|]. split; [exact Hnewest|]. split; [|split].
  - intros [->| ->]; by rewrite (Hpos 50%Z).
  - intros n -> Hn. unfold limitOrDefault in Hpos.
    destruct (Z.eqb_spec n 0); [lia|]. apply Hpos; [done|lia].
  - intros n -> Hn. unfold limitOrDefault in Hneg.
    destruct (Z.eqb_spec n 0); [lia|]. by apply Hneg.
Qed.

End ReadRoutes.

(** ** The statements on the connection manager and the routes at
    concrete inputs *)

Lemma qr_code_is_printed_once_until_rearmed_witness :
  qrPrinted
    (newEvents (trace initialWorld)
       (trace (handleUpdates BaileysDisconnectReason
                 [ {| connection := Some "connecting"; lastDisconnect := None; qr := None |};
                   {| connection := None; lastDisconnect := None; qr := Some "qr-1" |};
                   {| connection := None; lastDisconnect := None; qr := Some "qr-2" |} ]
                 initialWorld).2))
  = ["qr-1"].
Proof.
  apply (qr_code_is_printed_once_until_rearmed
           BaileysDisconnectReason
           [ {| connection := Some "connecting"; lastDisconnect := None; qr := None |};
             {| connection := None; lastDisconnect := None; qr := Some "qr-1" |};
             {| connection := None; lastDisconnect := None; qr := Some "qr-2" |} ]
           initialWorld).
  repeat constructor.
Defined.

Lemma open_or_logout_rearms_the_qr_code_witness :
  qrCodeGenerated
    (whatsappBot
       (set_whatsappBot
          {| sock := Some deliveringSock; qrCodeGenerated := true; isConnected := true |}
          initialWorld))
  = true
  ∧ qrPrinted
      (newEvents
         (trace (handleConnectionUpdate BaileysDisconnectReason (closeEvent 401)
                   (set_whatsappBot
                      {| sock := Some deliveringSock; qrCodeGenerated := true;
                         isConnected := true |}
                      initialWorld)).2)
         (trace (handleUpdates BaileysDisconnectReason
                   [ closeEvent 401;
                     {| connection := None; lastDisconnect := None; qr := Some "qr-3" |} ]
                   (set_whatsappBot
                      {| sock := Some deliveringSock; qrCodeGenerated := true;
                         isConnected := true |}
                      initialWorld)).2))
    = ["qr-3"].
Proof.
  split; [reflexivity|].
  apply (open_or_logout_rearms_the_qr_code BaileysDisconnectReason (closeEvent 401)
           {| connection := None; lastDisconnect := None; qr := Some "qr-3" |} "qr-3"
           (set_whatsappBot
              {| sock := Some deliveringSock; qrCodeGenerated := true; isConnected := true |}
              initialWorld)); reflexivity.
Defined.

Lemma sendMessage_addresses_a_jid_witness :
  sends (newEvents (trace connectedWorld)
           (trace (sendMessage "2348107516059" "hello"
                     connectedWorld).2))
  = [("2348107516059@s.whatsapp.net", "hello")].
Proof.
  destruct (sendMessage_addresses_a_jid "2348107516059" "hello"
              deliveringSock connectedWorld eq_refl eq_refl) as (_ & _ & Hsends & _).
  exact Hsends.
Defined.

Lemma after_a_close_nothing_goes_out_witness :
  sendMessage ada "hello"
    (handleConnectionUpdate BaileysDisconnectReason (closeEvent 408) connectedWorld).2
  = (Throw (Error "WhatsApp bot not connected"),
     (handleConnectionUpdate BaileysDisconnectReason (closeEvent 408) connectedWorld).2).
Proof.
  apply (after_a_close_nothing_goes_out BaileysDisconnectReason
           (closeEvent 408) ada "hello" connectedWorld eq_refl).
Defined.

Lemma pair_code_route_answers_witness :
  ∃ w',
    postPairCode (Some "+234 810 751 6059") connectedWorld
    = (Ok {| http_status := 200;
             http_body := BodyPairingCode "ABCD1234" "+234 810 751 6059" |}, w')
    ∧ pairingRequests (newEvents (trace connectedWorld) (trace w')) = ["2348107516059"].
Proof.
  destruct (pair_code_route_answers "+234 810 751 6059"
              deliveringSock connectedWorld)
    as (resp & w' & Hrun & _ & _ & _ & Hrequests & Hresp);
    [discriminate | reflexivity | reflexivity |].
  exists w'. split; [by rewrite Hrun, Hresp | exact Hrequests].
Defined.

Lemma send_route_logs_what_was_delivered_witness :
  ∃ w',
    postSendMessage (storageImpl := memStorage) (Some "2348107516059") (Some "hello")
      connectedWorld
    = (Ok {| http_status := 200; http_body := BodySuccess "Message sent successfully" |}, w')
    ∧ logged (newEvents (trace connectedWorld) (trace w'))
      = [ {| ibm_phoneNumber := "2348107516059"; ibm_messageType := "sent";
             ibm_content := "hello"; ibm_isBot := 0 |} ].
Proof.
  destruct (send_route_logs_what_was_delivered (storageImpl := memStorage) "2348107516059"
              "hello" deliveringSock connectedWorld)
    as (resp & w' & Hrun & _ & _ & _ & Hlogged & Hresp);
    [discriminate | discriminate | reflexivity | reflexivity |].
  exists w'. split; [by rewrite Hrun, Hresp | exact Hlogged].
Defined.
